(** * mmSolver image cache preferences: capacity resolution and telemetry labels

    A shallow embedding of
    [python/mmSolver/tools/imagecacheprefs/ui/imagecacheprefs_layout.py].

    Python [float] is IEEE binary64, which is what Rocq's primitive floats
    are, so percents and ratios are primitive floats and every example
    evaluates to the number CPython prints.  Python [int] is [Z].  Code
    that can raise returns a [result]; code that reads or writes the
    configuration file, the scene options or the image cache library runs
    in a small monad that threads the outside world and records an event
    for every call that leaves the module. *)

From Stdlib Require Import ZArith Bool Lia Floats List QArith Qround Qpower Lqa.
From Stdlib Require Uint63.
From stdpp Require Import base functions gmap strings.
Import ListNotations.

Local Open Scope Z_scope.
Set Warnings "-inexact-float".

(** ** Exceptions and fallible results *)

Inductive exn : Type :=
| AssertionError
| ZeroDivisionError
| OverflowError
| ValueError.

Inductive result (A : Type) : Type :=
| Ok (a : A)
| Raise (e : exn).

Arguments Ok {A} a.
Arguments Raise {A} e.

Definition rbind {A B} (r : result A) (k : A -> result B) : result B :=
  match r with
  | Ok a => k a
  | Raise e => Raise e
  end.

Definition returns {A} (r : result A) : Prop := exists a, r = Ok a.

(** ** Python numbers *)

Module Py.

(** [float(n)] for an [int], as [PyLong_AsDouble] does it: the nearest
    binary64 (ties to even), [OverflowError] when that is infinite. *)
Definition float_of_int (n : Z) : result float :=
  match binary_normalize prec emax n 0 false with
  | S754_infinity _ => Raise OverflowError
  | x => Ok (SF2Prim x)
  end.

(** [int(x)] for a [float]: truncation toward zero; [ValueError] on a
    NaN, [OverflowError] on an infinity. *)
Definition int_of_spec_float (x : spec_float) : result Z :=
  match x with
  | S754_zero _ => Ok 0
  | S754_finite s m e => Ok (cond_Zopp s (Z.shiftl (Zpos m) e))
  | S754_infinity _ => Raise OverflowError
  | S754_nan => Raise ValueError
  end.

Definition int (x : float) : result Z := int_of_spec_float (Prim2SF x).

(** [math.floor(x)]: the largest integer below or equal to [x]; the same
    errors as [int]. *)
Definition floor_of_spec_float (x : spec_float) : result Z :=
  match x with
  | S754_zero _ => Ok 0
  | S754_finite s m e => Ok (Z.shiftl (cond_Zopp s (Zpos m)) e)
  | S754_infinity _ => Raise OverflowError
  | S754_nan => Raise ValueError
  end.

Definition floor (x : float) : result Z := floor_of_spec_float (Prim2SF x).

(** [x * n] and [n * x] with [x] a float and [n] an int: the int is
    converted first. *)
Definition mul_float_int (x : float) (n : Z) : result float :=
  rbind (float_of_int n) (fun y => Ok (x * y)%float).

Definition mul_int_float (n : Z) (x : float) : result float :=
  rbind (float_of_int n) (fun y => Ok (y * x)%float).

(** [a / b] on two ints: the correctly rounded quotient. *)
Definition spec_float_of_int (n : Z) : spec_float :=
  match n with
  | Z0 => S754_zero false
  | Zpos m => S754_finite false m 0
  | Zneg m => S754_finite true m 0
  end.

Definition truediv_int (a b : Z) : result float :=
  if b =? 0 then Raise ZeroDivisionError
  else
    match SFdiv prec emax (spec_float_of_int a) (spec_float_of_int b) with
    | S754_infinity _ => Raise OverflowError
    | q => Ok (SF2Prim q)
    end.

(** [x / y] on two floats. *)
Definition truediv_float (x y : float) : result float :=
  if (y =? 0)%float then Raise ZeroDivisionError else Ok (x / y)%float.

End Py.

(** A Python number whose type the sources leave open. *)
Inductive PyNum : Type :=
| NumInt (n : Z)
| NumFloat (x : float).

(** [n / d] with [n] an int. *)
Definition truediv_int_num (n : Z) (d : PyNum) : result float :=
  match d with
  | NumInt b => Py.truediv_int n b
  | NumFloat y => rbind (Py.float_of_int n) (fun x => Py.truediv_float x y)
  end.

Definition num_is_zero (d : PyNum) : bool :=
  match d with
  | NumInt b => b =? 0
  | NumFloat y => (y =? 0)%float
  end.

(** Values kept in the JSON configuration file and in the scene options. *)
Inductive PyValue : Type :=
| PyNone
| PyBool (b : bool)
| PyInt (n : Z)
| PyFloat (x : float)
| PyStr (s : string).

(** [assert isinstance(v, float)] *)
Definition assert_float (v : PyValue) : result float :=
  match v with
  | PyFloat x => Ok x
  | _ => Raise AssertionError
  end.

(** [assert isinstance(v, int)]; a Python [bool] is an [int]. *)
Definition assert_int (v : PyValue) : result Z :=
  match v with
  | PyInt n => Ok n
  | PyBool b => Ok (Z.b2z b)
  | _ => Raise AssertionError
  end.

(** [assert v is None or isinstance(v, bool)] *)
Definition assert_none_or_bool (v : PyValue) : result PyValue :=
  match v with
  | PyNone | PyBool _ => Ok v
  | _ => Raise AssertionError
  end.

(** [v is True] *)
Definition is_True (v : PyValue) : bool :=
  match v with
  | PyBool true => true
  | _ => false
  end.

(** ** The world outside the module

    The module talks to three collaborators whose code is not part of the
    sources at hand: the image cache library [lib], the scene option
    store [configmaya] and the JSON configuration file behind
    [config_utils.Config].  Each call to one of them is recorded as an
    [Event]. *)

Module lib.
(** The queries of [mmSolver.tools.imagecache.lib] the layout calls. *)
Inductive query : Type :=
| get_gpu_cache_item_count
| get_cpu_cache_item_count
| get_gpu_cache_group_count
| get_cpu_cache_group_count
| get_gpu_cache_used_bytes
| get_cpu_cache_used_bytes
| get_gpu_cache_capacity_bytes
| get_cpu_cache_capacity_bytes
| get_gpu_memory_total_bytes
| get_cpu_memory_total_bytes
| get_gpu_memory_used_bytes
| get_cpu_memory_used_bytes.
End lib.

Inductive Event : Type :=
| EvLib (q : lib.query)
| EvSceneGet (name : string)
| EvSceneSet (name : string) (value : PyValue)
| EvConfigRead
| EvConfigWrite.

Record World : Type := {
  (** the JSON file in the user's home directory; [None] when absent *)
  config_file : option (gmap string PyValue);
  (** the options stored with the Maya scene *)
  scene_options : gmap string PyValue;
  (** what each query of the image cache library answers right now *)
  image_cache : lib.query -> Z
}.

Definition M (A : Type) : Type := World -> result (A * World * list Event).

Definition ret {A} (a : A) : M A := fun w => Ok (a, w, []).

Definition bind {A B} (m : M A) (k : A -> M B) : M B :=
  fun w =>
    match m w with
    | Ok (a, w1, t1) =>
        match k a w1 with
        | Ok (b, w2, t2) => Ok (b, w2, t1 ++ t2)
        | Raise e => Raise e
        end
    | Raise e => Raise e
    end.

Definition lift {A} (r : result A) : M A :=
  fun w =>
    match r with
    | Ok a => Ok (a, w, [])
    | Raise e => Raise e
    end.

Notation "'let*' x ':=' c 'in' k" := (bind c (fun x => k))
  (at level 10, x name, c at level 100, k at level 200).
Notation "'do*' c 'in' k" := (bind c (fun _ => k))
  (at level 10, c at level 100, k at level 200).
Notation "'let?' x ':=' c 'in' k" := (rbind c (fun x => k))
  (at level 10, x name, c at level 100, k at level 200).

(** The world and the events of a run; the value of a run. *)
Definition world_after {A} (r : result (A * World * list Event)) (w0 : World) : World :=
  match r with
  | Ok (_, w, _) => w
  | Raise _ => w0
  end.

Definition events {A} (r : result (A * World * list Event)) : list Event :=
  match r with
  | Ok (_, _, t) => t
  | Raise _ => []
  end.

Definition value {A} (r : result (A * World * list Event)) : result A :=
  match r with
  | Ok (a, _, _) => Ok a
  | Raise e => Raise e
  end.

Definition is_lib_event (ev : Event) : bool :=
  match ev with
  | EvLib _ => true
  | _ => false
  end.


Module Import libcall.
(** Modelled from the spec: the bodies of the [lib.get_*] queries are
    missing; section 6 gives them as live reads of the pool telemetry
    ([get_pool_total_bytes], [get_pool_used_bytes], ...), so a call
    answers from the world as it is at the time of the call and changes
    nothing. *)
Definition call (q : lib.query) : M Z :=
  fun w => Ok (image_cache w q, w, [EvLib q]).
End libcall.

Module configmaya.
(** Modelled from the spec: [mmSolver.utils.configmaya] is missing;
    section 6 has the override flag and the per-pool override percents
    persisted with the document.  The scene options are a dictionary kept
    with the scene: [get_scene_option] answers the stored value, or
    [default] when the name has never been stored. *)
Definition get_scene_option (name : string) (default : PyValue) : M PyValue :=
  fun w =>
    Ok (match scene_options w !! name with
        | Some v => v
        | None => default
        end, w, [EvSceneGet name]).

(** Modelled from the spec: with [add_attr=True] the option is created
    when missing, then the value is stored under [name]. *)
Definition set_scene_option (name : string) (v : PyValue) : M unit :=
  fun w =>
    Ok (tt,
        {| config_file := config_file w;
           scene_options := <[name := v]> (scene_options w);
           image_cache := image_cache w |},
        [EvSceneSet name v]).
End configmaya.

Module config_utils.
(** Modelled from the spec: [mmSolver.utils.config.Config] is missing;
    section 6 has one persisted default percent per pool at user scope.
    A [Config] holds the key/value pairs read from, or to be written to,
    its JSON file (autoread and autowrite are switched off by
    [get_config]). *)
Record Config : Type := { values : gmap string PyValue }.

(** Modelled from the spec: a [Config] that has read nothing. *)
Definition empty : Config := {| values := ∅ |}.

(** Modelled from the spec: [Config.get_value] is missing; a persisted
    value is looked up by its key and [fallback] stands in for a value that
    was never stored. *)
Definition get_value (c : Config) (key : string) (fallback : PyValue) : PyValue :=
  match values c !! key with
  | Some v => v
  | None => fallback
  end.

(** Modelled from the spec: [Config.set_value] is missing; it replaces the
    value kept under [key] (nothing reaches the file before [write]). *)
Definition set_value (c : Config) (key : string) (v : PyValue) : Config :=
  {| values := <[key := v]> (values c) |}.

(** Modelled from the spec: [Config.read] is missing; it loads the
    persisted pairs.  [get_config] guards it by [os.path.isfile]: without a
    file the [Config] stays empty. *)
Definition read_if_file : M Config :=
  fun w =>
    match config_file w with
    | Some data => Ok ({| values := data |}, w, [EvConfigRead])
    | None => Ok (empty, w, [])
    end.

(** Modelled from the spec: [Config.write] is missing; it persists the
    pairs of the [Config] as the new content of the file. *)
Definition write (c : Config) : M unit :=
  fun w =>
    Ok (tt,
        {| config_file := Some (values c);
           scene_options := scene_options w;
           image_cache := image_cache w |},
        [EvConfigWrite]).
End config_utils.

(** ** Widgets

    A widget is the record of what its setters were last given; Qt's own
    reactions (signal delivery, range limiting, repainting) are outside
    the sources. *)

Inductive LabelText : Type :=
| TextDesigner                                (** the text of the .ui file *)
| TextGB (gigabytes : float)                  (** ['<b>{:0,.2f} GB</b>'] *)
| TextGBPercent (gigabytes percent : float)   (** ['<b>{:0,.2f} GB ({:3.1f}%)</b>'] *)
| TextCount (n : Z).                          (** ['<b>{:,}</b>'] *)

Record QLabel : Type := { text : LabelText }.
Record QSlider : Type := { minimum : Z; maximum : Z; slider_value : Z }.
Record QDoubleSpinBox : Type := { spin_value : float }.

Definition setText (_ : QLabel) (t : LabelText) : QLabel := {| text := t |}.

Definition slider_setValue (s : QSlider) (v : Z) : QSlider :=
  {| minimum := minimum s; maximum := maximum s; slider_value := v |}.

(** [QDoubleSpinBox.setValue] takes a C++ double; handed a Python int, the
    binding converts it as [float(n)] does. *)
Definition spin_setValue_int (_ : QDoubleSpinBox) (n : Z) : result QDoubleSpinBox :=
  let? x := Py.float_of_int n in Ok {| spin_value := x |}.

(** [CapacityValue = collections.namedtuple('CapacityValue', ['size_bytes', 'percent'])] *)
Record CapacityValue : Type := { size_bytes : Z; percent : float }.

(** ** Constants

    The modules [mmSolver.tools.imagecacheprefs.constant] and
    [mmSolver.utils.constant] are not among the sources: their values are
    parameters of the development. *)

Record Constants : Type := {
  CONFIG_UPDATE_EVERY_N_SECONDS_KEY : string;
  CONFIG_UPDATE_EVERY_N_SECONDS_DEFAULT_VALUE : Z;
  CONFIG_GPU_CAPACITY_PERCENT_KEY : string;
  CONFIG_CPU_CAPACITY_PERCENT_KEY : string;
  CONFIG_SCENE_CAPACITY_OVERRIDE_KEY : string;
  CONFIG_SCENE_GPU_CAPACITY_PERCENT_KEY : string;
  CONFIG_SCENE_CPU_CAPACITY_PERCENT_KEY : string;
  BYTES_TO_GIGABYTES : PyNum
}.

(** The three scene option names are three different names. *)
Definition scene_keys_distinct (c : Constants) : Prop :=
  CONFIG_SCENE_CAPACITY_OVERRIDE_KEY c <> CONFIG_SCENE_GPU_CAPACITY_PERCENT_KEY c
  /\ CONFIG_SCENE_CAPACITY_OVERRIDE_KEY c <> CONFIG_SCENE_CPU_CAPACITY_PERCENT_KEY c
  /\ CONFIG_SCENE_GPU_CAPACITY_PERCENT_KEY c <> CONFIG_SCENE_CPU_CAPACITY_PERCENT_KEY c.

(** ** The widgets of the layout *)

Inductive label_id : Type :=
| gpuMemoryTotalValue_label
| cpuMemoryTotalValue_label
| gpuMemoryUsedValue_label
| cpuMemoryUsedValue_label
| gpuCacheItemCountValue_label
| cpuCacheItemCountValue_label
| gpuCacheGroupCountValue_label
| cpuCacheGroupCountValue_label
| gpuCacheCapacityValue_label
| cpuCacheCapacityValue_label
| gpuCacheUsedValue_label
| cpuCacheUsedValue_label
| gpuCacheDefaultCapacityValue_label
| cpuCacheDefaultCapacityValue_label
| gpuCacheSceneCapacityValue_label
| cpuCacheSceneCapacityValue_label.

Inductive slider_id : Type :=
| gpuCacheDefaultCapacity_horizontalSlider
| cpuCacheDefaultCapacity_horizontalSlider
| gpuCacheSceneCapacity_horizontalSlider
| cpuCacheSceneCapacity_horizontalSlider.

Inductive spin_id : Type :=
| gpuCacheDefaultCapacity_doubleSpinBox
| cpuCacheDefaultCapacity_doubleSpinBox
| gpuCacheSceneCapacity_doubleSpinBox
| cpuCacheSceneCapacity_doubleSpinBox.

#[global] Instance label_id_eq_dec : EqDecision label_id.
Proof. solve_decision. Defined.
#[global] Instance slider_id_eq_dec : EqDecision slider_id.
Proof. solve_decision. Defined.
#[global] Instance spin_id_eq_dec : EqDecision spin_id.
Proof. solve_decision. Defined.

(** A [QTimer]: the interval last given to [setInterval]. *)
Record QTimer : Type := { interval : Z }.

(** [class ImageCachePrefsLayout(QtWidgets.QWidget, Ui_Form)]: the state of
    the widgets the methods below read and write, and of its timer. *)
Record ImageCachePrefsLayout : Type := {
  labels : label_id -> QLabel;
  sliders : slider_id -> QSlider;
  double_spin_boxes : spin_id -> QDoubleSpinBox;
  (** [updateEvery_spinBox.value()] *)
  updateEvery_spinBox : Z;
  (** [imageCacheSceneSettings_groupBox.isChecked()] *)
  imageCacheSceneSettings_groupBox : bool;
  (** [self.update_timer] *)
  update_timer : QTimer
}.

Definition with_label (self : ImageCachePrefsLayout) (i : label_id) (l : QLabel) :=
  {| labels := <[i := l]> (labels self);
     sliders := sliders self;
     double_spin_boxes := double_spin_boxes self;
     updateEvery_spinBox := updateEvery_spinBox self;
     imageCacheSceneSettings_groupBox := imageCacheSceneSettings_groupBox self;
     update_timer := update_timer self |}.

Definition with_slider (self : ImageCachePrefsLayout) (i : slider_id) (s : QSlider) :=
  {| labels := labels self;
     sliders := <[i := s]> (sliders self);
     double_spin_boxes := double_spin_boxes self;
     updateEvery_spinBox := updateEvery_spinBox self;
     imageCacheSceneSettings_groupBox := imageCacheSceneSettings_groupBox self;
     update_timer := update_timer self |}.

Definition with_spin (self : ImageCachePrefsLayout) (i : spin_id) (b : QDoubleSpinBox) :=
  {| labels := labels self;
     sliders := sliders self;
     double_spin_boxes := <[i := b]> (double_spin_boxes self);
     updateEvery_spinBox := updateEvery_spinBox self;
     imageCacheSceneSettings_groupBox := imageCacheSceneSettings_groupBox self;
     update_timer := update_timer self |}.

Definition with_updateEvery (self : ImageCachePrefsLayout) (v : Z) :=
  {| labels := labels self;
     sliders := sliders self;
     double_spin_boxes := double_spin_boxes self;
     updateEvery_spinBox := v;
     imageCacheSceneSettings_groupBox := imageCacheSceneSettings_groupBox self;
     update_timer := update_timer self |}.

(** [imageCacheSceneSettings_groupBox.setChecked(b)] *)
Definition setChecked (self : ImageCachePrefsLayout) (b : bool) :=
  {| labels := labels self;
     sliders := sliders self;
     double_spin_boxes := double_spin_boxes self;
     updateEvery_spinBox := updateEvery_spinBox self;
     imageCacheSceneSettings_groupBox := b;
     update_timer := update_timer self |}.

(** [update_timer.setInterval(..)] *)
Definition with_timer (self : ImageCachePrefsLayout) (t : QTimer) :=
  {| labels := labels self;
     sliders := sliders self;
     double_spin_boxes := double_spin_boxes self;
     updateEvery_spinBox := updateEvery_spinBox self;
     imageCacheSceneSettings_groupBox := imageCacheSceneSettings_groupBox self;
     update_timer := t |}.

Definition on_label (self : ImageCachePrefsLayout) (i : label_id)
    (f : QLabel -> result QLabel) : result ImageCachePrefsLayout :=
  let? l := f (labels self i) in Ok (with_label self i l).

(** ** The module's functions *)

Section Layout.

Variable const : Constants.

(** [mmSolver.utils.math.remap(old_min, old_max, new_min, new_max, value)]
    is not among the sources: a function of its five arguments that
    answers a float or raises; every statement holds whatever it
    computes. *)
Variable remap : float -> float -> float -> float -> float -> result float.

(** [gigabytes = 0.0; if size_bytes > 0: gigabytes = size_bytes / BYTES_TO_GIGABYTES] *)
Definition gigabytes_of (size_bytes : Z) : result float :=
  if 0 <? size_bytes
  then truediv_int_num size_bytes (BYTES_TO_GIGABYTES const)
  else Ok 0%float.

(** [used_percent = 0.0;
     if used > 0 and total > 0: used_percent = (used / total) * 100.0] *)
Definition used_percent_of (used_size_bytes total_size_bytes : Z) : result float :=
  if (0 <? used_size_bytes) && (0 <? total_size_bytes)
  then let? q := Py.truediv_int used_size_bytes total_size_bytes in Ok (q * 100)%float
  else Ok 0%float.

Definition set_memory_total_label (label : QLabel) (size_bytes : Z) : result QLabel :=
  let? gigabytes := gigabytes_of size_bytes in
  Ok (setText label (TextGB gigabytes)).

Definition set_memory_used_label (label : QLabel)
    (used_size_bytes total_size_bytes : Z) : result QLabel :=
  let? used_gigabytes := gigabytes_of used_size_bytes in
  let? used_percent := used_percent_of used_size_bytes total_size_bytes in
  Ok (setText label (TextGBPercent used_gigabytes used_percent)).

Definition set_count_label (label : QLabel) (value : Z) : QLabel :=
  setText label (TextCount value).

Definition set_capacity_size_label (label : QLabel) (size_bytes : Z) : result QLabel :=
  let? gigabytes := gigabytes_of size_bytes in
  Ok (setText label (TextGB gigabytes)).

Definition set_used_size_label (label : QLabel)
    (used_size_bytes capacity_size_bytes : Z) : result QLabel :=
  let? used_gigabytes := gigabytes_of used_size_bytes in
  let? used_percent := used_percent_of used_size_bytes capacity_size_bytes in
  Ok (setText label (TextGBPercent used_gigabytes used_percent)).

Definition set_percent_slider (slider : QSlider) (percent : float) : result QSlider :=
  let old_min := 0%float in
  let old_max := 100%float in
  let? new_min := Py.float_of_int (minimum slider) in
  let? new_max := Py.float_of_int (maximum slider) in
  let? slider_value := remap old_min old_max new_min new_max percent in
  let? v := Py.int slider_value in
  Ok (slider_setValue slider v).

Definition set_value_double_spin_box (doubleSpinBox : QDoubleSpinBox)
    (value : float) : result QDoubleSpinBox :=
  let? n := Py.int value in
  spin_setValue_int doubleSpinBox n.

Definition set_capacity_widgets (label : QLabel) (slider : QSlider)
    (double_spin_box : QDoubleSpinBox) (capacity_bytes : Z) (capacity_percent : float)
  : result (QLabel * QSlider * QDoubleSpinBox) :=
  let? label := set_capacity_size_label label capacity_bytes in
  let? slider := set_percent_slider slider capacity_percent in
  let? double_spin_box := set_value_double_spin_box double_spin_box capacity_percent in
  Ok (label, slider, double_spin_box).

(** [get_config()]: a [Config] on the file in the home directory, read
    when the file is there. *)
Definition get_config : M config_utils.Config := config_utils.read_if_file.

Definition get_config_value (config : option config_utils.Config)
    (key : string) (fallback : PyValue) : PyValue :=
  match config with
  | Some c => config_utils.get_value c key fallback
  | None => fallback
  end.

Definition get_update_every_n_seconds (config : option config_utils.Config)
    (default_value : option Z) : result Z :=
  let default_value :=
    match default_value with
    | None => CONFIG_UPDATE_EVERY_N_SECONDS_DEFAULT_VALUE const
    | Some d => d
    end in
  let name := CONFIG_UPDATE_EVERY_N_SECONDS_KEY const in
  assert_int (get_config_value config name (PyInt default_value)).

(** The tail the four percent getters share:
    [ratio = percent / 100.0; capacity_bytes = lib.get_..._memory_total_bytes();
     size_bytes = int(capacity_bytes * ratio);
     return CapacityValue(size_bytes, percent)] *)
Definition capacity_value_of (total : lib.query) (percent : float) : M CapacityValue :=
  let ratio := (percent / 100)%float in
  let* capacity_bytes := call total in
  let* size_bytes := lift (let? x := Py.mul_int_float capacity_bytes ratio in Py.int x) in
  ret {| size_bytes := size_bytes; percent := percent |}.

Definition or_zero (default_value : option float) : float :=
  match default_value with
  | None => 0%float
  | Some d => d
  end.

(** Defined twice in the source, with the same body. *)
Definition get_gpu_cache_capacity_percent_default
    (config : option config_utils.Config) (default_value : option float) : M CapacityValue :=
  let default_value := or_zero default_value in
  let name := CONFIG_GPU_CAPACITY_PERCENT_KEY const in
  let* percent := lift (assert_float (get_config_value config name (PyFloat default_value))) in
  capacity_value_of lib.get_gpu_memory_total_bytes percent.

Definition get_cpu_cache_capacity_percent_default
    (config : option config_utils.Config) (default_value : option float) : M CapacityValue :=
  let default_value := or_zero default_value in
  let name := CONFIG_CPU_CAPACITY_PERCENT_KEY const in
  let* percent := lift (assert_float (get_config_value config name (PyFloat default_value))) in
  capacity_value_of lib.get_cpu_memory_total_bytes percent.

Definition get_cache_scene_override : M PyValue :=
  let name := CONFIG_SCENE_CAPACITY_OVERRIDE_KEY const in
  let* value := configmaya.get_scene_option name PyNone in
  lift (assert_none_or_bool value).

Definition get_gpu_cache_capacity_percent_scene (default_value : option float)
  : M CapacityValue :=
  let default_value := or_zero default_value in
  let name := CONFIG_SCENE_GPU_CAPACITY_PERCENT_KEY const in
  let* v := configmaya.get_scene_option name (PyFloat default_value) in
  let* percent := lift (assert_float v) in
  capacity_value_of lib.get_gpu_memory_total_bytes percent.

Definition get_cpu_cache_capacity_percent_scene (default_value : option float)
  : M CapacityValue :=
  let default_value := or_zero default_value in
  let name := CONFIG_SCENE_CPU_CAPACITY_PERCENT_KEY const in
  let* v := configmaya.get_scene_option name (PyFloat default_value) in
  let* percent := lift (assert_float v) in
  capacity_value_of lib.get_cpu_memory_total_bytes percent.

Definition set_cache_scene_override (value : PyValue) : M unit :=
  let* value := lift (assert_none_or_bool value) in
  let name := CONFIG_SCENE_CAPACITY_OVERRIDE_KEY const in
  configmaya.set_scene_option name value.

Definition set_gpu_cache_capacity_percent_scene (percent : float) : M unit :=
  let name := CONFIG_SCENE_GPU_CAPACITY_PERCENT_KEY const in
  configmaya.set_scene_option name (PyFloat percent).

Definition set_cpu_cache_capacity_percent_scene (percent : float) : M unit :=
  let name := CONFIG_SCENE_CPU_CAPACITY_PERCENT_KEY const in
  configmaya.set_scene_option name (PyFloat percent).

(** *** Methods of [ImageCachePrefsLayout] *)

Definition _get_capacity_bytes (scene_override : bool)
    (default_spin_box scene_spin_box : QDoubleSpinBox) (memory_total : Z) : result Z :=
  let percent := spin_value default_spin_box in
  let percent := if scene_override then spin_value scene_spin_box else percent in
  let ratio := (percent / 100)%float in
  let? x := Py.mul_float_int ratio memory_total in
  Py.int x.

Definition get_gpu_capacity_bytes (self : ImageCachePrefsLayout) : M Z :=
  let scene_override := imageCacheSceneSettings_groupBox self in
  let default_spin_box := double_spin_boxes self gpuCacheDefaultCapacity_doubleSpinBox in
  let scene_spin_box := double_spin_boxes self gpuCacheSceneCapacity_doubleSpinBox in
  let* gpu_memory_total := call lib.get_gpu_memory_total_bytes in
  lift (_get_capacity_bytes scene_override default_spin_box scene_spin_box gpu_memory_total).

Definition get_cpu_capacity_bytes (self : ImageCachePrefsLayout) : M Z :=
  let scene_override := imageCacheSceneSettings_groupBox self in
  let default_spin_box := double_spin_boxes self cpuCacheDefaultCapacity_doubleSpinBox in
  let scene_spin_box := double_spin_boxes self cpuCacheSceneCapacity_doubleSpinBox in
  let* cpu_memory_total := call lib.get_cpu_memory_total_bytes in
  lift (_get_capacity_bytes scene_override default_spin_box scene_spin_box cpu_memory_total).

Definition update_resource_values (self : ImageCachePrefsLayout) : M ImageCachePrefsLayout :=
  let* gpu_cache_item_count := call lib.get_gpu_cache_item_count in
  let* cpu_cache_item_count := call lib.get_cpu_cache_item_count in
  let* gpu_cache_group_count := call lib.get_gpu_cache_group_count in
  let* cpu_cache_group_count := call lib.get_cpu_cache_group_count in
  let* gpu_cache_used := call lib.get_gpu_cache_used_bytes in
  let* cpu_cache_used := call lib.get_cpu_cache_used_bytes in
  let* gpu_cache_capacity := call lib.get_gpu_cache_capacity_bytes in
  let* cpu_cache_capacity := call lib.get_cpu_cache_capacity_bytes in
  let* gpu_memory_total := call lib.get_gpu_memory_total_bytes in
  let* cpu_memory_total := call lib.get_cpu_memory_total_bytes in
  let* gpu_memory_used := call lib.get_gpu_memory_used_bytes in
  let* cpu_memory_used := call lib.get_cpu_memory_used_bytes in
  lift (
    let? self := on_label self gpuMemoryTotalValue_label
                   (fun l => set_memory_total_label l gpu_memory_total) in
    let? self := on_label self cpuMemoryTotalValue_label
                   (fun l => set_memory_total_label l cpu_memory_total) in
    let? self := on_label self gpuMemoryUsedValue_label
                   (fun l => set_memory_used_label l gpu_memory_used gpu_memory_total) in
    let? self := on_label self cpuMemoryUsedValue_label
                   (fun l => set_memory_used_label l cpu_memory_used cpu_memory_total) in
    let self := with_label self gpuCacheItemCountValue_label
                  (set_count_label (labels self gpuCacheItemCountValue_label)
                     gpu_cache_item_count) in
    let self := with_label self cpuCacheItemCountValue_label
                  (set_count_label (labels self cpuCacheItemCountValue_label)
                     cpu_cache_item_count) in
    let self := with_label self gpuCacheGroupCountValue_label
                  (set_count_label (labels self gpuCacheGroupCountValue_label)
                     gpu_cache_group_count) in
    let self := with_label self cpuCacheGroupCountValue_label
                  (set_count_label (labels self cpuCacheGroupCountValue_label)
                     cpu_cache_group_count) in
    let? self := on_label self gpuCacheCapacityValue_label
                   (fun l => set_capacity_size_label l gpu_cache_capacity) in
    let? self := on_label self cpuCacheCapacityValue_label
                   (fun l => set_capacity_size_label l cpu_cache_capacity) in
    let? self := on_label self cpuCacheUsedValue_label
                   (fun l => set_used_size_label l cpu_cache_used cpu_cache_capacity) in
    let? self := on_label self gpuCacheUsedValue_label
                   (fun l => set_used_size_label l gpu_cache_used gpu_cache_capacity) in
    Ok self).

Definition save_options (self : ImageCachePrefsLayout) : M unit :=
  (* Save config values in config file. *)
  let update_seconds := updateEvery_spinBox self in
  let gpu_percent_default :=
    spin_value (double_spin_boxes self gpuCacheDefaultCapacity_doubleSpinBox) in
  let cpu_percent_default :=
    spin_value (double_spin_boxes self cpuCacheDefaultCapacity_doubleSpinBox) in
  let* config := get_config in
  let config := config_utils.set_value config
                  (CONFIG_UPDATE_EVERY_N_SECONDS_KEY const) (PyInt update_seconds) in
  let config := config_utils.set_value config
                  (CONFIG_GPU_CAPACITY_PERCENT_KEY const) (PyFloat gpu_percent_default) in
  let config := config_utils.set_value config
                  (CONFIG_CPU_CAPACITY_PERCENT_KEY const) (PyFloat cpu_percent_default) in
  do* config_utils.write config in
  (* Save config values in Maya Scene. *)
  let scene_override := imageCacheSceneSettings_groupBox self in
  let gpu_percent_scene :=
    spin_value (double_spin_boxes self gpuCacheSceneCapacity_doubleSpinBox) in
  let cpu_percent_scene :=
    spin_value (double_spin_boxes self cpuCacheSceneCapacity_doubleSpinBox) in
  do* set_cache_scene_override (PyBool scene_override) in
  if scene_override
  then
    do* set_gpu_cache_capacity_percent_scene gpu_percent_scene in
    set_cpu_cache_capacity_percent_scene cpu_percent_scene
  else ret tt.

End Layout.

(** ** The slots of the layout and its update timer *)

Section Slots.

Variable const : Constants.
Variable remap : float -> float -> float -> float -> float -> result float.

(** The body the four [_*_capacity_spin_box_changed] slots share; they
    differ in the label, the slider and the memory total they name.  The
    slider's signals are blocked around [set_percent_slider]. *)
Definition capacity_spin_box_changed (label : label_id) (slider : slider_id)
    (memory_total_bytes : lib.query)
    (self : ImageCachePrefsLayout) (percent : float) : M ImageCachePrefsLayout :=
  let* memory_total := call memory_total_bytes in
  let ratio := (percent / 100)%float in
  let* size_bytes := lift (let? x := Py.mul_float_int ratio memory_total in Py.int x) in
  lift (
    let? l := set_capacity_size_label const (labels self label) size_bytes in
    let? s := set_percent_slider remap (sliders self slider) percent in
    Ok (with_slider (with_label self label l) slider s)).

Definition _gpu_default_capacity_spin_box_changed :=
  capacity_spin_box_changed gpuCacheDefaultCapacityValue_label
    gpuCacheDefaultCapacity_horizontalSlider lib.get_gpu_memory_total_bytes.

Definition _cpu_default_capacity_spin_box_changed :=
  capacity_spin_box_changed cpuCacheDefaultCapacityValue_label
    cpuCacheDefaultCapacity_horizontalSlider lib.get_cpu_memory_total_bytes.

Definition _gpu_scene_capacity_spin_box_changed :=
  capacity_spin_box_changed gpuCacheSceneCapacityValue_label
    gpuCacheSceneCapacity_horizontalSlider lib.get_gpu_memory_total_bytes.

Definition _cpu_scene_capacity_spin_box_changed :=
  capacity_spin_box_changed cpuCacheSceneCapacityValue_label
    cpuCacheSceneCapacity_horizontalSlider lib.get_cpu_memory_total_bytes.

(** The body the four [_*_capacity_slider_changed] slots share; they differ
    in the label, the spin box, the slider and the memory total they name.
    The spin box's signals are blocked around [set_value_double_spin_box]. *)
Definition capacity_slider_changed (label : label_id) (spin_box : spin_id)
    (slider : slider_id) (memory_total_bytes : lib.query)
    (self : ImageCachePrefsLayout) (value : Z) : M ImageCachePrefsLayout :=
  let* percent := lift (
    let? old_min := Py.float_of_int (minimum (sliders self slider)) in
    let? old_max := Py.float_of_int (maximum (sliders self slider)) in
    let new_min := 0%float in
    let new_max := 100%float in
    let? value := Py.float_of_int value in
    remap old_min old_max new_min new_max value) in
  let ratio := (percent / 100)%float in
  let* memory_total := call memory_total_bytes in
  let* size_bytes := lift (let? x := Py.mul_float_int ratio memory_total in Py.int x) in
  lift (
    let? l := set_capacity_size_label const (labels self label) size_bytes in
    let? b := set_value_double_spin_box (double_spin_boxes self spin_box) percent in
    Ok (with_spin (with_label self label l) spin_box b)).

Definition _gpu_default_capacity_slider_changed :=
  capacity_slider_changed gpuCacheDefaultCapacityValue_label
    gpuCacheDefaultCapacity_doubleSpinBox gpuCacheDefaultCapacity_horizontalSlider
    lib.get_gpu_memory_total_bytes.

Definition _cpu_default_capacity_slider_changed :=
  capacity_slider_changed cpuCacheDefaultCapacityValue_label
    cpuCacheDefaultCapacity_doubleSpinBox cpuCacheDefaultCapacity_horizontalSlider
    lib.get_cpu_memory_total_bytes.

Definition _gpu_scene_capacity_slider_changed :=
  capacity_slider_changed gpuCacheSceneCapacityValue_label
    gpuCacheSceneCapacity_doubleSpinBox gpuCacheSceneCapacity_horizontalSlider
    lib.get_gpu_memory_total_bytes.

Definition _cpu_scene_capacity_slider_changed :=
  capacity_slider_changed cpuCacheSceneCapacityValue_label
    cpuCacheSceneCapacity_doubleSpinBox cpuCacheSceneCapacity_horizontalSlider
    lib.get_cpu_memory_total_bytes.

(** [_update_every_changed(self, value)]: the timer is told the interval in
    milliseconds, then the value is stored in the configuration file. *)
Definition _update_every_changed (update_timer : QTimer) (value : Z) : M QTimer :=
  let milliseconds := value * 1000 in
  let update_timer := {| interval := milliseconds |} in
  let* config := get_config in
  let config := config_utils.set_value config
                  (CONFIG_UPDATE_EVERY_N_SECONDS_KEY const) (PyInt value) in
  do* config_utils.write config in
  ret update_timer.

End Slots.

(** ** Signals

    [_connect_connections] connects [valueChanged] of the update spin box,
    of the four capacity spin boxes and of the four sliders to the slots
    above, and [__init__] calls it before it calls [reset_options]: on a
    layout that exists the slots are connected.  A [setValue] on one of
    these widgets, made while the widget's signals are not blocked, runs
    the connected slot before it returns.  Qt, whose code is not among the
    sources, emits [valueChanged] with the new value when the value set
    differs from the value held; its limiting of a value to the range of
    the widget is not modelled (the designer file with the ranges is not
    among the sources either). *)

Section Signals.

Variable const : Constants.
Variable remap : float -> float -> float -> float -> float -> result float.

(** The slot [_connect_connections] gives each slider and each capacity
    spin box. *)
Definition slider_slot (slider : slider_id)
  : ImageCachePrefsLayout -> Z -> M ImageCachePrefsLayout :=
  match slider with
  | gpuCacheDefaultCapacity_horizontalSlider =>
      _gpu_default_capacity_slider_changed const remap
  | cpuCacheDefaultCapacity_horizontalSlider =>
      _cpu_default_capacity_slider_changed const remap
  | gpuCacheSceneCapacity_horizontalSlider =>
      _gpu_scene_capacity_slider_changed const remap
  | cpuCacheSceneCapacity_horizontalSlider =>
      _cpu_scene_capacity_slider_changed const remap
  end.

Definition spin_box_slot (spin_box : spin_id)
  : ImageCachePrefsLayout -> float -> M ImageCachePrefsLayout :=
  match spin_box with
  | gpuCacheDefaultCapacity_doubleSpinBox =>
      _gpu_default_capacity_spin_box_changed const remap
  | cpuCacheDefaultCapacity_doubleSpinBox =>
      _cpu_default_capacity_spin_box_changed const remap
  | gpuCacheSceneCapacity_doubleSpinBox =>
      _gpu_scene_capacity_spin_box_changed const remap
  | cpuCacheSceneCapacity_doubleSpinBox =>
      _cpu_scene_capacity_spin_box_changed const remap
  end.

(** [self.updateEvery_spinBox.setValue(value)], its signal connected to
    [_update_every_changed]. *)
Definition updateEvery_spinBox_setValue (self : ImageCachePrefsLayout) (value : Z)
  : M ImageCachePrefsLayout :=
  let old := updateEvery_spinBox self in
  let self := with_updateEvery self value in
  if value =? old then ret self
  else
    let* timer := _update_every_changed const (update_timer self) value in
    ret (with_timer self timer).

(** [set_capacity_widgets(label, slider, double_spin_box, capacity_bytes,
    capacity_percent)] on three widgets of the layout, their signals
    connected: the three steps of [set_capacity_widgets], the slot of the
    slider run after [set_percent_slider] has changed the slider's value,
    the slot of the spin box after [set_value_double_spin_box] has changed
    the spin box's. *)
Definition layout_set_capacity_widgets (self : ImageCachePrefsLayout)
    (label : label_id) (slider : slider_id) (double_spin_box : spin_id)
    (capacity_bytes : Z) (capacity_percent : float) : M ImageCachePrefsLayout :=
  (* set_capacity_size_label(label, capacity_bytes) *)
  let* l := lift (set_capacity_size_label const (labels self label) capacity_bytes) in
  let self := with_label self label l in
  (* set_percent_slider(slider, capacity_percent) *)
  let old_slider := sliders self slider in
  let* s := lift (set_percent_slider remap old_slider capacity_percent) in
  let self := with_slider self slider s in
  let* self :=
    if slider_value s =? slider_value old_slider then ret self
    else slider_slot slider self (slider_value s) in
  (* set_value_double_spin_box(double_spin_box, capacity_percent) *)
  let old_spin_box := double_spin_boxes self double_spin_box in
  let* b := lift (set_value_double_spin_box old_spin_box capacity_percent) in
  let self := with_spin self double_spin_box b in
  if (spin_value b =? spin_value old_spin_box)%float then ret self
  else spin_box_slot double_spin_box self (spin_value b).

(** The tail of [reset_options]: the default capacity widgets, the
    override group box, the scene capacity widgets. *)
Definition show_capacities (self : ImageCachePrefsLayout) (scene_override : PyValue)
    (default_gpu_capacity default_cpu_capacity
     scene_gpu_capacity scene_cpu_capacity : CapacityValue) : M ImageCachePrefsLayout :=
  (* Set default capacities. *)
  let* self := layout_set_capacity_widgets self
                 gpuCacheDefaultCapacityValue_label
                 gpuCacheDefaultCapacity_horizontalSlider
                 gpuCacheDefaultCapacity_doubleSpinBox
                 (size_bytes default_gpu_capacity) (percent default_gpu_capacity) in
  let* self := layout_set_capacity_widgets self
                 cpuCacheDefaultCapacityValue_label
                 cpuCacheDefaultCapacity_horizontalSlider
                 cpuCacheDefaultCapacity_doubleSpinBox
                 (size_bytes default_cpu_capacity) (percent default_cpu_capacity) in
  (* Scene Override? *)
  let self := setChecked self (is_True scene_override) in
  (* Set scene capacities. *)
  let* self := layout_set_capacity_widgets self
                 gpuCacheSceneCapacityValue_label
                 gpuCacheSceneCapacity_horizontalSlider
                 gpuCacheSceneCapacity_doubleSpinBox
                 (size_bytes scene_gpu_capacity) (percent scene_gpu_capacity) in
  layout_set_capacity_widgets self
    cpuCacheSceneCapacityValue_label
    cpuCacheSceneCapacity_horizontalSlider
    cpuCacheSceneCapacity_doubleSpinBox
    (size_bytes scene_cpu_capacity) (percent scene_cpu_capacity).

Definition reset_options (self : ImageCachePrefsLayout) : M ImageCachePrefsLayout :=
  let* self := update_resource_values const self in
  let* config := get_config in
  let* update_seconds := lift (get_update_every_n_seconds const (Some config) None) in
  let* self := updateEvery_spinBox_setValue self update_seconds in
  let* default_gpu_capacity :=
    get_gpu_cache_capacity_percent_default const (Some config) None in
  let* default_cpu_capacity :=
    get_cpu_cache_capacity_percent_default const (Some config) None in
  let* scene_override := get_cache_scene_override const in
  let* scene_capacity :=
    if is_True scene_override
    then
      let* scene_gpu_capacity := get_gpu_cache_capacity_percent_scene const None in
      let* scene_cpu_capacity := get_cpu_cache_capacity_percent_scene const None in
      ret (scene_gpu_capacity, scene_cpu_capacity)
    else ret (default_gpu_capacity, default_cpu_capacity) in
  show_capacities self scene_override default_gpu_capacity default_cpu_capacity
    (fst scene_capacity) (snd scene_capacity).

End Signals.

(** ** Reads and writes *)

(** The event is a query or a read, not a write. *)
Definition is_read_event (ev : Event) : Prop :=
  match ev with
  | EvSceneSet _ _ | EvConfigWrite => False
  | _ => True
  end.

(** The three configuration keys are three different names. *)
Definition config_keys_distinct (c : Constants) : Prop :=
  CONFIG_UPDATE_EVERY_N_SECONDS_KEY c <> CONFIG_GPU_CAPACITY_PERCENT_KEY c
  /\ CONFIG_UPDATE_EVERY_N_SECONDS_KEY c <> CONFIG_CPU_CAPACITY_PERCENT_KEY c
  /\ CONFIG_GPU_CAPACITY_PERCENT_KEY c <> CONFIG_CPU_CAPACITY_PERCENT_KEY c.

(** The twelve labels [update_resource_values] writes. *)
Definition is_telemetry_label (i : label_id) : bool :=
  match i with
  | gpuCacheDefaultCapacityValue_label | cpuCacheDefaultCapacityValue_label
  | gpuCacheSceneCapacityValue_label | cpuCacheSceneCapacityValue_label => false
  | _ => true
  end.

(** The queries of [update_resource_values], in the order it makes them. *)
Definition telemetry_queries : list lib.query :=
  [lib.get_gpu_cache_item_count; lib.get_cpu_cache_item_count;
   lib.get_gpu_cache_group_count; lib.get_cpu_cache_group_count;
   lib.get_gpu_cache_used_bytes; lib.get_cpu_cache_used_bytes;
   lib.get_gpu_cache_capacity_bytes; lib.get_cpu_cache_capacity_bytes;
   lib.get_gpu_memory_total_bytes; lib.get_cpu_memory_total_bytes;
   lib.get_gpu_memory_used_bytes; lib.get_cpu_memory_used_bytes].

(** What [update_resource_values] shows in each label: the setter it
    calls on it and the queries whose answers it hands over; the four
    capacity labels of the settings are not its business. *)
Definition telemetry_label (c : Constants) (cache : lib.query -> Z)
    (i : label_id) (l : QLabel) : result QLabel :=
  match i with
  | gpuMemoryTotalValue_label =>
      set_memory_total_label c l (cache lib.get_gpu_memory_total_bytes)
  | cpuMemoryTotalValue_label =>
      set_memory_total_label c l (cache lib.get_cpu_memory_total_bytes)
  | gpuMemoryUsedValue_label =>
      set_memory_used_label c l (cache lib.get_gpu_memory_used_bytes)
        (cache lib.get_gpu_memory_total_bytes)
  | cpuMemoryUsedValue_label =>
      set_memory_used_label c l (cache lib.get_cpu_memory_used_bytes)
        (cache lib.get_cpu_memory_total_bytes)
  | gpuCacheItemCountValue_label =>
      Ok (set_count_label l (cache lib.get_gpu_cache_item_count))
  | cpuCacheItemCountValue_label =>
      Ok (set_count_label l (cache lib.get_cpu_cache_item_count))
  | gpuCacheGroupCountValue_label =>
      Ok (set_count_label l (cache lib.get_gpu_cache_group_count))
  | cpuCacheGroupCountValue_label =>
      Ok (set_count_label l (cache lib.get_cpu_cache_group_count))
  | gpuCacheCapacityValue_label =>
      set_capacity_size_label c l (cache lib.get_gpu_cache_capacity_bytes)
  | cpuCacheCapacityValue_label =>
      set_capacity_size_label c l (cache lib.get_cpu_cache_capacity_bytes)
  | gpuCacheUsedValue_label =>
      set_used_size_label c l (cache lib.get_gpu_cache_used_bytes)
        (cache lib.get_gpu_cache_capacity_bytes)
  | cpuCacheUsedValue_label =>
      set_used_size_label c l (cache lib.get_cpu_cache_used_bytes)
        (cache lib.get_cpu_cache_capacity_bytes)
  | gpuCacheDefaultCapacityValue_label | cpuCacheDefaultCapacityValue_label
  | gpuCacheSceneCapacityValue_label | cpuCacheSceneCapacityValue_label => Ok l
  end.

(** Two layouts that differ at most in their labels. *)
Definition same_settings (ui1 ui2 : ImageCachePrefsLayout) : Prop :=
  sliders ui1 = sliders ui2
  /\ double_spin_boxes ui1 = double_spin_boxes ui2
  /\ updateEvery_spinBox ui1 = updateEvery_spinBox ui2
  /\ imageCacheSceneSettings_groupBox ui1 = imageCacheSceneSettings_groupBox ui2.

(** The [Config] that [get_config] answers in [w]. *)
Definition config_of (w : World) : config_utils.Config :=
  {| config_utils.values := default ∅ (config_file w) |}.

(** [y = float(int(p))]: the float [y] is [p] truncated toward zero. *)
Definition truncation_of (y p : float) : Prop :=
  exists n, Py.int p = Ok n /\ Py.float_of_int n = Ok y.

(** The capacity the getters resolve for each pool in [w]: the one of the
    scene when the override flag is [True], the default one otherwise. *)
Definition stored_gpu_capacity (c : Constants) (w : World) : result CapacityValue :=
  let? scene_override := value (get_cache_scene_override c w) in
  if is_True scene_override
  then value (get_gpu_cache_capacity_percent_scene c None w)
  else value (get_gpu_cache_capacity_percent_default c (Some (config_of w)) None w).

Definition stored_cpu_capacity (c : Constants) (w : World) : result CapacityValue :=
  let? scene_override := value (get_cache_scene_override c w) in
  if is_True scene_override
  then value (get_cpu_cache_capacity_percent_scene c None w)
  else value (get_cpu_cache_capacity_percent_default c (Some (config_of w)) None w).

(** The four [valueChanged] slots of the spin boxes, each with the label
    and the slider it updates and the memory total it asks for. *)
Definition spin_box_slots (c : Constants)
    (remap : float -> float -> float -> float -> float -> result float)
  : list ((ImageCachePrefsLayout -> float -> M ImageCachePrefsLayout)
          * label_id * slider_id * lib.query) :=
  [(_gpu_default_capacity_spin_box_changed c remap,
    gpuCacheDefaultCapacityValue_label, gpuCacheDefaultCapacity_horizontalSlider,
    lib.get_gpu_memory_total_bytes);
   (_cpu_default_capacity_spin_box_changed c remap,
    cpuCacheDefaultCapacityValue_label, cpuCacheDefaultCapacity_horizontalSlider,
    lib.get_cpu_memory_total_bytes);
   (_gpu_scene_capacity_spin_box_changed c remap,
    gpuCacheSceneCapacityValue_label, gpuCacheSceneCapacity_horizontalSlider,
    lib.get_gpu_memory_total_bytes);
   (_cpu_scene_capacity_spin_box_changed c remap,
    cpuCacheSceneCapacityValue_label, cpuCacheSceneCapacity_horizontalSlider,
    lib.get_cpu_memory_total_bytes)].

(** A stored percent that is absent, or a float within [0, 100]. *)
Definition percent_in_range (v : option PyValue) : Prop :=
  match v with
  | None => True
  | Some (PyFloat p) => (0 <=? p)%float = true /\ (p <=? 100)%float = true
  | Some _ => False
  end.

(** The settings stored in [w] have the types the getters assert, and the
    percents are within [0, 100]. *)
Definition settings_in_range (c : Constants) (w : World) : Prop :=
  match config_file w ≫= (fun data => data !! CONFIG_UPDATE_EVERY_N_SECONDS_KEY c) with
  | None | Some (PyInt _) | Some (PyBool _) => True
  | Some _ => False
  end
  /\ percent_in_range
       (config_file w ≫= (fun data => data !! CONFIG_GPU_CAPACITY_PERCENT_KEY c))
  /\ percent_in_range
       (config_file w ≫= (fun data => data !! CONFIG_CPU_CAPACITY_PERCENT_KEY c))
  /\ match scene_options w !! CONFIG_SCENE_CAPACITY_OVERRIDE_KEY c with
     | None | Some PyNone | Some (PyBool _) => True
     | Some _ => False
     end
  /\ percent_in_range (scene_options w !! CONFIG_SCENE_GPU_CAPACITY_PERCENT_KEY c)
  /\ percent_in_range (scene_options w !! CONFIG_SCENE_CPU_CAPACITY_PERCENT_KEY c).

(** A capacity a getter answers from a percent within [0, 100] and a
    [u64] total. *)
Definition capacity_in_range (capacity : CapacityValue) : Prop :=
  (0 <=? percent capacity)%float = true
  /\ (percent capacity <=? 100)%float = true
  /\ Zdigits2 (size_bytes capacity) <= 70.

(** Two refreshes raise the same exception, or return layouts whose
    telemetry labels show the same. *)
Definition same_telemetry (r1 r2 : result ImageCachePrefsLayout) : Prop :=
  match r1, r2 with
  | Ok ui1, Ok ui2 => forall i, is_telemetry_label i = true -> labels ui1 i = labels ui2 i
  | Raise e1, Raise e2 => e1 = e2
  | _, _ => False
  end.

(** [ui] differs from [self] at most in the label [label], the value of
    the slider [slider] and the spin box [spin_box]. *)
Definition capacity_frame (label : label_id) (slider : slider_id) (spin_box : spin_id)
    (self ui : ImageCachePrefsLayout) : Prop :=
  (forall i, i <> label -> labels ui i = labels self i)
  /\ (forall j, j <> slider -> sliders ui j = sliders self j)
  /\ minimum (sliders ui slider) = minimum (sliders self slider)
  /\ maximum (sliders ui slider) = maximum (sliders self slider)
  /\ (forall j, j <> spin_box -> double_spin_boxes ui j = double_spin_boxes self j)
  /\ updateEvery_spinBox ui = updateEvery_spinBox self
  /\ imageCacheSceneSettings_groupBox ui = imageCacheSceneSettings_groupBox self
  /\ update_timer ui = update_timer self.

(** The world [_update_every_changed(value)] leaves behind: the
    configuration file holds [value] under the key of the update interval,
    next to what it held under the other keys. *)
Definition update_every_stored (c : Constants) (value : Z) (w : World) : World :=
  {| config_file :=
       Some (<[CONFIG_UPDATE_EVERY_N_SECONDS_KEY c := PyInt value]>
               (default ∅ (config_file w)));
     scene_options := scene_options w;
     image_cache := image_cache w |}.

(** The events a [reset_options] can make: queries of the library, reads
    of the configuration file, a write of the file when the stored update
    interval is not the one the update spin box held ([interval_changed]),
    the read of the override flag, and reads of the two per-scene percents
    when the flag is [True] ([scene_override]). *)
Definition reset_event (c : Constants) (interval_changed scene_override : bool)
    (ev : Event) : Prop :=
  match ev with
  | EvLib _ | EvConfigRead => True
  | EvConfigWrite => interval_changed = true
  | EvSceneGet name =>
      name = CONFIG_SCENE_CAPACITY_OVERRIDE_KEY c
      \/ (scene_override = true
          /\ (name = CONFIG_SCENE_GPU_CAPACITY_PERCENT_KEY c
              \/ name = CONFIG_SCENE_CPU_CAPACITY_PERCENT_KEY c))
  | EvSceneSet _ _ => False
  end.

(** The percent a slider slot computes from the value of its slider. *)
Definition slider_percent
    (remap : float -> float -> float -> float -> float -> result float)
    (slider : QSlider) (value : Z) : result float :=
  let? old_min := Py.float_of_int (minimum slider) in
  let? old_max := Py.float_of_int (maximum slider) in
  let new_min := 0%float in
  let new_max := 100%float in
  let? value := Py.float_of_int value in
  remap old_min old_max new_min new_max value.

(** [remap] takes every percent within [0, 100] to a value of the slider,
    and that value back to a percent within [0, 100]. *)
Definition remap_round_trips
    (remap : float -> float -> float -> float -> float -> result float)
    (slider : QSlider) : Prop :=
  forall p, (0 <=? p)%float = true -> (p <=? 100)%float = true ->
    exists s' q,
      set_percent_slider remap slider p = Ok s'
      /\ slider_percent remap s' (slider_value s') = Ok q
      /\ (0 <=? q)%float = true /\ (q <=? 100)%float = true.

(** ** The code's formula, as a floor

    [math.floor(percent / 100.0 * total)] in the arithmetic of the code:
    the floor of the binary64 product that [int] truncates. *)
Definition floor_of_float_product (percent : float) (total : Z) : result Z :=
  let? total := Py.float_of_int total in
  Py.floor (percent / 100 * total)%float.

(** [x] is a zero or a finite float: neither an infinity nor a NaN. *)
Definition is_finite_float (x : float) : Prop :=
  match Prim2SF x with
  | S754_zero _ | S754_finite _ _ _ => True
  | _ => False
  end.

(** ** The specification's formulas

    Written from the words of the specification (sections 3 and 4.1), to be
    compared with the code above.  They are read as the mathematics they
    write: a percent is the rational number a float denotes, and the
    quotient, the product and the floor are exact. *)

Module Spec.

(** The number a finite float denotes; an infinity and a NaN denote none. *)
Definition exact (x : float) : option Q :=
  match Prim2SF x with
  | S754_zero _ => Some 0%Q
  | S754_finite s m e => Some (inject_Z (cond_Zopp s (Zpos m)) * Qpower 2 e)%Q
  | _ => None
  end.

(** [clamp(p, lo, hi)] *)
Definition clamp (p lo hi : Q) : Q :=
  if Qle_bool lo p then (if Qle_bool p hi then p else hi) else lo.

(** [bytes = floor(percent/100 × pool_total_bytes)] *)
Definition floor_percent_of (percent : Q) (pool_total_bytes : Z) : Z :=
  Qfloor (percent / 100 * inject_Z pool_total_bytes)%Q.

(** [percent_to_bytes(p, total) = floor(clamp(p, 0, 100) / 100 × total)] *)
Definition percent_to_bytes (p : Q) (total : Z) : Z :=
  floor_percent_of (clamp p 0 100) total.

(** Resolution rule: the override percent when the override is enabled
    and present, the default percent otherwise. *)
Definition get_effective_capacity (override_enabled : bool)
    (override_percent : option Q) (default_percent : Q)
    (pool_total_bytes : Z) : Z :=
  match override_enabled, override_percent with
  | true, Some o => percent_to_bytes o pool_total_bytes
  | _, _ => percent_to_bytes default_percent pool_total_bytes
  end.

End Spec.

(** ** Magnitude and sign of a float, read off its [spec_float] *)

(** [x] is a zero, or finite and below [2 ^ k] in absolute value. *)
Definition SFmag (k : Z) (x : spec_float) : Prop :=
  match x with
  | S754_zero _ => True
  | S754_finite _ m e => Zdigits2 (Zpos m) + e <= k
  | _ => False
  end.

(** [x] is a zero or a NaN, or carries the sign [s]. *)
Definition SFsign (s : bool) (x : spec_float) : Prop :=
  match x with
  | S754_finite s' _ _ | S754_infinity s' => s' = s
  | _ => True
  end.

(** The number [x] denotes: [±m × 2^e] for a finite float, zero for a
    zero (and, by convention, for an infinity and a NaN). *)
Definition SFvalue (x : spec_float) : Q :=
  match x with
  | S754_finite s m e => (inject_Z (cond_Zopp s (Zpos m)) * Qpower 2 e)%Q
  | _ => 0%Q
  end.

(** A byte count as the specification types it (section 6): a [u64]. *)
Definition is_u64 (n : Z) : Prop := 0 <= n < 2 ^ 64.

(** ** Runs from related worlds *)




(** The outcome of a run that asked the library [q] once, computed [r]
    from the answer and left the world as it was. *)
Definition queried_live {A} (q : lib.query) (r : result A) (w : World)
  : result (A * World * list Event) :=
  match r with
  | Ok a => Ok (a, w, [EvLib q])
  | Raise e => Raise e
  end.

(** The outcome of a run that read the scene option [name], then asked the
    library [q] once, computed [r] and left the world as it was. *)
Definition scene_queried {A} (name : string) (q : lib.query) (r : result A) (w : World)
  : result (A * World * list Event) :=
  match r with
  | Ok a => Ok (a, w, [EvSceneGet name; EvLib q])
  | Raise e => Raise e
  end.

(** [CapacityValue(int(percent / 100.0 * total), percent)], as the getters
    build it. *)
Definition capacity_value (percent : float) (total : Z) : result CapacityValue :=
  let? b := (let? x := Py.mul_float_int (percent / 100) total in Py.int x) in
  Ok {| size_bytes := b; percent := percent |}.

(** The percent [_get_capacity_bytes] resolves for each pool. *)
Definition resolved_gpu_percent (self : ImageCachePrefsLayout) : float :=
  if imageCacheSceneSettings_groupBox self
  then spin_value (double_spin_boxes self gpuCacheSceneCapacity_doubleSpinBox)
  else spin_value (double_spin_boxes self gpuCacheDefaultCapacity_doubleSpinBox).

Definition resolved_cpu_percent (self : ImageCachePrefsLayout) : float :=
  if imageCacheSceneSettings_groupBox self
  then spin_value (double_spin_boxes self cpuCacheSceneCapacity_doubleSpinBox)
  else spin_value (double_spin_boxes self cpuCacheDefaultCapacity_doubleSpinBox).

(** [CapacityValue(math.floor(percent / 100.0 * total), percent)], in the
    arithmetic of the code. *)
Definition floor_capacity_value (percent : float) (total : Z) : result CapacityValue :=
  let? b := floor_of_float_product percent total in
  Ok {| size_bytes := b; percent := percent |}.

(** What [save_options] leaves in the configuration file, in the scene
    options and in the event log. *)
Definition saved_config (c : Constants) (self : ImageCachePrefsLayout)
    (old : option (gmap string PyValue)) : gmap string PyValue :=
  <[CONFIG_CPU_CAPACITY_PERCENT_KEY c :=
      PyFloat (spin_value (double_spin_boxes self cpuCacheDefaultCapacity_doubleSpinBox))]>
    (<[CONFIG_GPU_CAPACITY_PERCENT_KEY c :=
         PyFloat (spin_value (double_spin_boxes self gpuCacheDefaultCapacity_doubleSpinBox))]>
       (<[CONFIG_UPDATE_EVERY_N_SECONDS_KEY c := PyInt (updateEvery_spinBox self)]>
          (default ∅ old))).

Definition saved_scene (c : Constants) (self : ImageCachePrefsLayout)
    (old : gmap string PyValue) : gmap string PyValue :=
  let flagged :=
    <[CONFIG_SCENE_CAPACITY_OVERRIDE_KEY c :=
        PyBool (imageCacheSceneSettings_groupBox self)]> old in
  if imageCacheSceneSettings_groupBox self
  then
    <[CONFIG_SCENE_CPU_CAPACITY_PERCENT_KEY c :=
        PyFloat (spin_value (double_spin_boxes self cpuCacheSceneCapacity_doubleSpinBox))]>
      (<[CONFIG_SCENE_GPU_CAPACITY_PERCENT_KEY c :=
           PyFloat (spin_value (double_spin_boxes self gpuCacheSceneCapacity_doubleSpinBox))]>
         flagged)
  else flagged.

Definition save_events (c : Constants) (self : ImageCachePrefsLayout)
    (old : option (gmap string PyValue)) : list Event :=
  match old with Some _ => [EvConfigRead] | None => [] end
  ++ [EvConfigWrite;
      EvSceneSet (CONFIG_SCENE_CAPACITY_OVERRIDE_KEY c)
        (PyBool (imageCacheSceneSettings_groupBox self))]
  ++ (if imageCacheSceneSettings_groupBox self
      then [EvSceneSet (CONFIG_SCENE_GPU_CAPACITY_PERCENT_KEY c)
              (PyFloat (spin_value
                          (double_spin_boxes self gpuCacheSceneCapacity_doubleSpinBox)));
            EvSceneSet (CONFIG_SCENE_CPU_CAPACITY_PERCENT_KEY c)
              (PyFloat (spin_value
                          (double_spin_boxes self cpuCacheSceneCapacity_doubleSpinBox)))]
      else []).



(** ** Sample data for the examples *)

Definition sample_const : Constants := {|
  CONFIG_UPDATE_EVERY_N_SECONDS_KEY := "update_every_n_seconds";
  CONFIG_UPDATE_EVERY_N_SECONDS_DEFAULT_VALUE := 2;
  CONFIG_GPU_CAPACITY_PERCENT_KEY := "gpu_capacity_percent";
  CONFIG_CPU_CAPACITY_PERCENT_KEY := "cpu_capacity_percent";
  CONFIG_SCENE_CAPACITY_OVERRIDE_KEY := "scene_capacity_override";
  CONFIG_SCENE_GPU_CAPACITY_PERCENT_KEY := "scene_gpu_capacity_percent";
  CONFIG_SCENE_CPU_CAPACITY_PERCENT_KEY := "scene_cpu_capacity_percent";
  BYTES_TO_GIGABYTES := NumInt 1073741824
|}.

(** The usual linear interpolation, to run the examples with; like any
    Python division, it raises on an empty old range. *)
Definition remap_linear (old_min old_max new_min new_max value : float) : result float :=
  let? ratio := Py.truediv_float (value - old_min) (old_max - old_min) in
  Ok (ratio * (new_max - new_min) + new_min)%float.

(** A remap between two equal ranges, answering the value itself as the
    linear interpolation does in exact arithmetic. *)
Definition remap_same_range (old_min old_max new_min new_max value : float)
  : result float := Ok value.

Definition box (x : float) : QDoubleSpinBox := {| spin_value := x |}.

(** A machine with a pool total of [gpu_total] bytes on the GPU and 16 GiB
    on the CPU, and an idle cache. *)
Definition sample_cache (gpu_total : Z) (q : lib.query) : Z :=
  match q with
  | lib.get_gpu_memory_total_bytes => gpu_total
  | lib.get_cpu_memory_total_bytes => 17179869184
  | _ => 0
  end.

Definition sample_world_with (gpu_total : Z) (config : option (gmap string PyValue))
    (scene : gmap string PyValue) : World :=
  {| config_file := config; scene_options := scene;
     image_cache := sample_cache gpu_total |}.

Definition sample_world := sample_world_with 1000.

(** The layout as the designer file leaves it. *)
Definition sample_layout : ImageCachePrefsLayout := {|
  labels := fun _ => {| text := TextDesigner |};
  sliders := fun _ => {| minimum := 0; maximum := 100; slider_value := 0 |};
  double_spin_boxes := fun _ => box 0;
  updateEvery_spinBox := 1;
  imageCacheSceneSettings_groupBox := false;
  update_timer := {| interval := 2000 |}
|}.

(** A layout whose default spin boxes hold [d], whose scene spin boxes hold
    [o] and whose override group box is checked when [e]. *)
Definition sample_layout_with (e : bool) (d o : float) : ImageCachePrefsLayout := {|
  labels := fun _ => {| text := TextDesigner |};
  sliders := fun _ => {| minimum := 0; maximum := 100; slider_value := 0 |};
  double_spin_boxes := fun i =>
    match i with
    | gpuCacheDefaultCapacity_doubleSpinBox
    | cpuCacheDefaultCapacity_doubleSpinBox => box d
    | _ => box o
    end;
  updateEvery_spinBox := 2;
  imageCacheSceneSettings_groupBox := e;
  update_timer := {| interval := 2000 |}
|}.

(** A stored state: default percents 12.5 (GPU) and 50 (CPU) in the
    configuration file; in the scene, the override disabled and override
    percents 90 (GPU) and 80 (CPU). *)
Definition sample_stored_world : World :=
  sample_world
    (Some {[ "gpu_capacity_percent" := PyFloat 12.5;
             "cpu_capacity_percent" := PyFloat 50 ]})
    {[ "scene_capacity_override" := PyBool false;
       "scene_gpu_capacity_percent" := PyFloat 90;
       "scene_cpu_capacity_percent" := PyFloat 80 ]}.

(** The same stored state with the override enabled. *)
Definition sample_override_world : World :=
  sample_world
    (Some {[ "gpu_capacity_percent" := PyFloat 12.5;
             "cpu_capacity_percent" := PyFloat 50 ]})
    {[ "scene_capacity_override" := PyBool true;
       "scene_gpu_capacity_percent" := PyFloat 90.5;
       "scene_cpu_capacity_percent" := PyFloat 80 ]}.

(** The panel is opened, the override group box is ticked, and the options
    are saved. *)
Definition toggle_and_save : M unit :=
  let* ui := reset_options sample_const remap_linear sample_layout in
  save_options sample_const (setChecked ui true).

(** * Facts about binary64 arithmetic *)

(** digits *)
Lemma digits2_pos_size (p : positive) : digits2_pos p = Pos.size p.
Proof. induction p; simpl; congruence. Qed.

Lemma Zdigits2_bounds (p : positive) :
  2 ^ (Zdigits2 (Zpos p) - 1) <= Zpos p < 2 ^ Zdigits2 (Zpos p).
Proof.
  unfold Zdigits2. rewrite digits2_pos_size. split.
  - pose proof (Pos.size_le p) as H.
    apply Pos2Z.pos_le_pos in H. rewrite Pos2Z.inj_pow in H.
    assert (2 ^ Zpos (Pos.size p) = 2 * 2 ^ (Zpos (Pos.size p) - 1)).
    { rewrite <- Z.pow_succ_r by lia. f_equal. lia. }
    change (Zpos p~0) with (2 * Zpos p) in H. change (Zpos 2) with 2 in H. lia.
  - pose proof (Pos.size_gt p) as H.
    apply Pos2Z.pos_lt_pos in H. rewrite Pos2Z.inj_pow in H. exact H.
Qed.

Lemma Zdigits2_nonneg (n : Z) : 0 <= Zdigits2 n.
Proof. destruct n; simpl; lia. Qed.

Lemma Zdigits2_le_of_lt (n k : Z) : 0 <= n < 2 ^ k -> 0 <= k -> Zdigits2 n <= k.
Proof.
  intros [H0 H1] Hk. destruct n as [|p|p]; [simpl; lia| |lia].
  destruct (Zdigits2_bounds p) as [Hl _].
  destruct (Z_le_gt_dec (Zdigits2 (Zpos p)) k) as [|Hgt]; [assumption|exfalso].
  assert (2 ^ k <= 2 ^ (Zdigits2 (Zpos p) - 1)) by (apply Z.pow_le_mono_r; lia).
  lia.
Qed.

Lemma Zdigits2_lt_pow (n : Z) : 0 <= n -> n < 2 ^ Zdigits2 n.
Proof.
  intros H. destruct n as [|p|p]; [simpl; lia| |lia].
  apply Zdigits2_bounds.
Qed.

Lemma Zdigits2_succ_le (n : Z) : 0 <= n -> Zdigits2 (n + 1) <= Zdigits2 n + 1.
Proof.
  intros H. pose proof (Zdigits2_lt_pow n H). pose proof (Zdigits2_nonneg n).
  apply Zdigits2_le_of_lt; [|lia].
  rewrite Z.pow_add_r by lia. change (2 ^ 1) with 2. lia.
Qed.

Lemma Zdigits2_div_pow2 (n k : Z) :
  0 <= n -> 0 <= k -> Zdigits2 (n / 2 ^ k) <= Z.max 0 (Zdigits2 n - k).
Proof.
  intros Hn Hk. pose proof (Zdigits2_lt_pow n Hn) as Hlt.
  pose proof (Zdigits2_nonneg n) as Hd.
  assert (Hp : 0 < 2 ^ k) by (apply Z.pow_pos_nonneg; lia).
  assert (Hq : 0 <= n / 2 ^ k) by (apply Z.div_pos; lia).
  apply Zdigits2_le_of_lt; [|lia]. split; [assumption|].
  apply Z.div_lt_upper_bound; [assumption|].
  destruct (Z_le_gt_dec k (Zdigits2 n)).
  - rewrite Z.max_r by lia. rewrite <- Z.pow_add_r by lia.
    replace (k + (Zdigits2 n - k)) with (Zdigits2 n) by lia. assumption.
  - rewrite Z.max_l by lia. rewrite Z.pow_0_r, Z.mul_1_r.
    assert (2 ^ Zdigits2 n <= 2 ^ k) by (apply Z.pow_le_mono_r; lia). lia.
Qed.

(** shifting right *)
Lemma div_pow2_pow2 (a j k : Z) :
  0 <= j -> 0 <= k -> a / 2 ^ j / 2 ^ k = a / 2 ^ (j + k).
Proof.
  intros Hj Hk. rewrite Z.pow_add_r by assumption.
  rewrite Z.div_div; first [reflexivity | apply Z.pow_nonzero; lia | apply Z.pow_pos_nonneg; lia].
Qed.

Lemma shr_1_m (mrs : shr_record) :
  0 <= shr_m mrs -> shr_m (shr_1 mrs) = Z.div2 (shr_m mrs).
Proof.
  destruct mrs as [m r s]. destruct m as [|[p|p|]|p]; simpl; try reflexivity; lia.
Qed.

Lemma iter_pos_shr_m (p : positive) :
  forall mrs, 0 <= shr_m mrs -> shr_m (SpecFloat.iter_pos shr_1 p mrs) = shr_m mrs / 2 ^ Zpos p.
Proof.
  assert (Hstep : forall mrs, 0 <= shr_m mrs -> shr_m (shr_1 mrs) = shr_m mrs / 2 ^ 1).
  { intros mrs H. rewrite shr_1_m, Z.div2_div by assumption. reflexivity. }
  assert (Hpos : forall a k, 0 <= a -> 0 <= k -> 0 <= a / 2 ^ k).
  { intros a k Ha Hk. apply Z.div_pos; [assumption|]. apply Z.pow_pos_nonneg; lia. }
  induction p as [p IH|p IH|]; intros mrs Hm; simpl SpecFloat.iter_pos.
  - assert (H1 : 0 <= shr_m (shr_1 mrs)) by (rewrite Hstep by assumption; apply Hpos; lia).
    assert (H2 : 0 <= shr_m (SpecFloat.iter_pos shr_1 p (shr_1 mrs)))
      by (rewrite IH by assumption; apply Hpos; lia).
    rewrite (IH _ H2), (IH _ H1), (Hstep _ Hm).
    rewrite !div_pow2_pow2 by lia. f_equal. f_equal. lia.
  - assert (H1 : 0 <= shr_m (SpecFloat.iter_pos shr_1 p mrs))
      by (rewrite IH by assumption; apply Hpos; lia).
    rewrite (IH _ H1), (IH _ Hm).
    rewrite !div_pow2_pow2 by lia. f_equal. f_equal. lia.
  - apply Hstep. assumption.
Qed.

Lemma shr_m_of_loc (m : Z) (l : location) : shr_m (shr_record_of_loc m l) = m.
Proof. destruct l as [|[]]; reflexivity. Qed.

Lemma shr_spec (mrs : shr_record) (e n : Z) :
  0 <= shr_m mrs ->
  shr_m (fst (shr mrs e n)) = shr_m mrs / 2 ^ Z.max 0 n
  /\ snd (shr mrs e n) = e + Z.max 0 n.
Proof.
  intros Hm. destruct n as [|p|p]; simpl.
  - rewrite Z.div_1_r. lia.
  - rewrite iter_pos_shr_m by assumption. split; [reflexivity|lia].
  - rewrite Z.div_1_r. lia.
Qed.

Lemma round_nearest_even_bounds (m : Z) (l : location) :
  m <= round_nearest_even m l <= m + 1.
Proof. destruct l as [|[]]; simpl; try lia. destruct (Z.even m); lia. Qed.

Lemma Zdigits2_mono (a b : Z) : 0 <= a <= b -> Zdigits2 a <= Zdigits2 b.
Proof.
  intros [Ha Hab]. pose proof (Zdigits2_lt_pow b ltac:(lia)).
  apply Zdigits2_le_of_lt; [lia|apply Zdigits2_nonneg].
Qed.

Lemma fexp_unfold (x : Z) : fexp prec emax x = Z.max (x - 53) (-1074).
Proof. reflexivity. Qed.

Lemma binary_round_aux_sign (s : bool) (m e : Z) (l : location) :
  SFsign s (binary_round_aux prec emax s m e l).
Proof.
  unfold binary_round_aux.
  destruct (shr_fexp prec emax m e l) as [mrs' e'].
  destruct (shr_fexp prec emax _ e' loc_Exact) as [mrs'' e''].
  destruct (shr_m mrs''); [exact I| |exact I].
  destruct (e'' <=? emax - prec); reflexivity.
Qed.

Lemma binary_round_aux_mag (s : bool) (m e : Z) (l : location) (k : Z) :
  0 <= m -> e <= 971 -> Zdigits2 m + e <= k -> -1074 <= k <= 1023 ->
  SFmag (k + 1) (binary_round_aux prec emax s m e l).
Proof.
  intros Hm He Hk Hrange.
  unfold binary_round_aux, shr_fexp.
  remember (fexp prec emax (Zdigits2 m + e) - e) as n1 eqn:Hn1.
  rewrite fexp_unfold in Hn1.
  destruct (shr_spec (shr_record_of_loc m l) e n1) as [Hm' He'].
  { rewrite shr_m_of_loc. assumption. }
  rewrite shr_m_of_loc in Hm'.
  destruct (shr (shr_record_of_loc m l) e n1) as [mrs' e']. simpl in Hm', He'.
  set (m1 := round_nearest_even (shr_m mrs') (loc_of_shr_record mrs')).
  pose proof (round_nearest_even_bounds (shr_m mrs') (loc_of_shr_record mrs')) as Hm1.
  fold m1 in Hm1.
  assert (H0' : 0 <= shr_m mrs').
  { rewrite Hm'. apply Z.div_pos; [assumption|]. apply Z.pow_pos_nonneg; lia. }
  pose proof (Zdigits2_div_pow2 m (Z.max 0 n1) Hm ltac:(lia)) as Hd'. rewrite <- Hm' in Hd'.
  pose proof (Zdigits2_mono m1 (shr_m mrs' + 1) ltac:(lia)) as Hd1.
  pose proof (Zdigits2_succ_le (shr_m mrs') H0') as Hd1'.
  pose proof (Zdigits2_nonneg m1) as Hd1nn.
  pose proof (Zdigits2_nonneg (shr_m mrs')) as Hd'nn.
  pose proof (Zdigits2_nonneg m) as Hdnn.
  remember (fexp prec emax (Zdigits2 m1 + e') - e') as n2 eqn:Hn2.
  rewrite fexp_unfold in Hn2.
  destruct (shr_spec (shr_record_of_loc m1 loc_Exact) e' n2) as [Hm'' He''].
  { simpl. lia. }
  simpl shr_m in Hm'' at 2.
  destruct (shr (shr_record_of_loc m1 loc_Exact) e' n2) as [mrs'' e'']. simpl in Hm'', He''.
  pose proof (Zdigits2_div_pow2 m1 (Z.max 0 n2) ltac:(lia) ltac:(lia)) as Hd''.
  rewrite <- Hm'' in Hd''.
  assert (H0'' : 0 <= shr_m mrs'').
  { rewrite Hm''. apply Z.div_pos; [lia|]. apply Z.pow_pos_nonneg; lia. }
  destruct (shr_m mrs'') as [|q|q] eqn:Eq; [exact I| |lia].
  assert (Hq : 1 <= Zdigits2 (Zpos q)) by (simpl; lia).
  assert (Hle : e'' <= 971) by lia.
  change (emax - prec) with 971.
  destruct (Z.leb_spec e'' 971) as [_|Hbad]; [|lia].
  unfold SFmag. lia.
Qed.

Lemma SFmag_weaken (k k' : Z) (x : spec_float) : k <= k' -> SFmag k x -> SFmag k' x.
Proof. destruct x; simpl; auto. lia. Qed.

Lemma digits2_pos_iter_xO (m d : positive) :
  Zpos (digits2_pos (Pos.iter xO m d)) = Zpos (digits2_pos m) + Zpos d.
Proof.
  induction d as [|d IH] using Pos.peano_ind.
  - simpl. lia.
  - rewrite Pos.iter_succ. simpl digits2_pos. lia.
Qed.

Lemma shl_align_spec (mx : positive) (ex ex' : Z) :
  snd (shl_align mx ex ex') <= ex
  /\ Zdigits2 (Zpos (fst (shl_align mx ex ex'))) + snd (shl_align mx ex ex')
     = Zdigits2 (Zpos mx) + ex.
Proof.
  unfold shl_align. destruct (ex' - ex) as [|d|d] eqn:E; simpl fst; simpl snd; try lia.
  unfold Zdigits2. rewrite digits2_pos_iter_xO. lia.
Qed.

Lemma binary_round_sign (s : bool) (mx : positive) (ex : Z) :
  SFsign s (binary_round prec emax s mx ex).
Proof.
  unfold binary_round. destruct (shl_align _ _ _) as [mz ez].
  apply binary_round_aux_sign.
Qed.

Lemma binary_round_mag (s : bool) (mx : positive) (ex k : Z) :
  ex <= 971 -> Zdigits2 (Zpos mx) + ex <= k -> -1074 <= k <= 1023 ->
  SFmag (k + 1) (binary_round prec emax s mx ex).
Proof.
  intros He Hk Hr. unfold binary_round.
  destruct (shl_align_spec mx ex (fexp prec emax (Zpos (digits2_pos mx) + ex))) as [H1 H2].
  destruct (shl_align _ _ _) as [mz ez]. cbn [fst snd] in H1, H2.
  apply binary_round_aux_mag; lia.
Qed.

Lemma binary_normalize_sign (n e : Z) (sz : bool) :
  SFsign (n <? 0) (binary_normalize prec emax n e sz).
Proof.
  destruct n as [|p|p]; simpl; [exact I| |]; apply binary_round_sign.
Qed.

Lemma binary_normalize_mag (n e : Z) (sz : bool) (k : Z) :
  e <= 971 -> Zdigits2 n + e <= k -> -1074 <= k <= 1023 ->
  SFmag (k + 1) (binary_normalize prec emax n e sz).
Proof.
  intros He Hk Hr. destruct n as [|p|p]; simpl; [exact I| |]; apply binary_round_mag; assumption.
Qed.

(** products *)
Lemma Zdigits2_mul (a b : positive) :
  Zdigits2 (Zpos (a * b)) <= Zdigits2 (Zpos a) + Zdigits2 (Zpos b).
Proof.
  pose proof (Zdigits2_lt_pow (Zpos a) ltac:(lia)).
  pose proof (Zdigits2_lt_pow (Zpos b) ltac:(lia)).
  pose proof (Zdigits2_nonneg (Zpos a)). pose proof (Zdigits2_nonneg (Zpos b)).
  apply Zdigits2_le_of_lt; [|lia].
  rewrite Z.pow_add_r by lia. rewrite Pos2Z.inj_mul. split; [lia|].
  apply Z.mul_lt_mono_nonneg; lia.
Qed.

Lemma SFmul_sign (s1 s2 : bool) (x y : spec_float) :
  SFsign s1 x -> SFsign s2 y -> SFsign (xorb s1 s2) (SFmul prec emax x y).
Proof.
  destruct x as [sx|sx| |sx mx ex], y as [sy|sy| |sy my ey]; simpl; intros H1 H2; subst;
    try exact I; try reflexivity.
  apply binary_round_aux_sign.
Qed.

Lemma SFmul_mag (k1 k2 K : Z) (x y : spec_float) :
  SFmag k1 x -> SFmag k2 y -> k1 + k2 <= K -> -1074 <= K <= 973 ->
  SFmag (K + 1) (SFmul prec emax x y).
Proof.
  destruct x as [sx|sx| |sx mx ex], y as [sy|sy| |sy my ey]; unfold SFmag at 1 2;
    intros H1 H2 HK Hr; try contradiction; try exact I.
  unfold SFmul. pose proof (Zdigits2_mul mx my).
  assert (1 <= Zdigits2 (Zpos mx)) by (simpl; lia).
  assert (1 <= Zdigits2 (Zpos my)) by (simpl; lia).
  apply binary_round_aux_mag; lia.
Qed.

(** quotients *)
Lemma SFdiv_core_binary_spec (mx my : positive) (ex ey : Z) :
  let d := Zdigits2 (Zpos mx) + ex - (Zdigits2 (Zpos my) + ey) in
  let '(q, e', _) := SFdiv_core_binary prec emax (Zpos mx) ex (Zpos my) ey in
  0 <= q /\ e' <= Z.max (d - 53) (-1074) /\ Zdigits2 q + e' <= Z.max e' (d + 1).
Proof.
  intros d. unfold SFdiv_core_binary. rewrite fexp_unfold. fold d.
  set (e' := Z.min (Z.max (d - 53) (-1074)) (ex - ey)).
  set (s := ex - ey - e').
  set (m' := match s with Z.pos _ => Z.shiftl (Zpos mx) s | 0 => Zpos mx | Z.neg _ => 0 end).
  assert (Hs : 0 <= s) by (unfold s, e'; lia).
  assert (Hm' : m' = Zpos mx * 2 ^ s).
  { unfold m'. destruct s as [|p|p]; [simpl; lia| |lia].
    apply Z.shiftl_mul_pow2. lia. }
  pose proof (Z_div_mod m' (Zpos my) ltac:(lia)) as Hdm.
  destruct (Z.div_eucl m' (Zpos my)) as [q r] eqn:Eqr.
  assert (Hq : q = m' / Zpos my) by (unfold Z.div; rewrite Eqr; reflexivity).
  assert (H2s : 0 < 2 ^ s) by (apply Z.pow_pos_nonneg; lia).
  assert (Hm'0 : 0 <= m') by (rewrite Hm'; lia).
  destruct (Zdigits2_bounds my) as [Hmy _].
  pose proof (Zdigits2_lt_pow (Zpos mx) ltac:(lia)) as Hmx.
  set (d1 := Zdigits2 (Zpos mx)) in *. set (d2 := Zdigits2 (Zpos my)) in *.
  assert (Hd1 : 1 <= d1) by (unfold d1; simpl; lia).
  assert (Hd2 : 1 <= d2) by (unfold d2; simpl; lia).
  assert (Hp2 : 0 < 2 ^ (d2 - 1)) by (apply Z.pow_pos_nonneg; lia).
  assert (Hq0 : 0 <= q) by (rewrite Hq; apply Z.div_pos; lia).
  assert (Hqle : q <= m' / 2 ^ (d2 - 1)).
  { rewrite Hq. apply Z.div_le_compat_l; lia. }
  assert (Hdm' : Zdigits2 m' <= d1 + s).
  { apply Zdigits2_le_of_lt; [|lia]. rewrite Hm', Z.pow_add_r by lia. split; [lia|].
    apply Z.mul_lt_mono_pos_r; lia. }
  pose proof (Zdigits2_div_pow2 m' (d2 - 1) Hm'0 ltac:(lia)) as Hdq.
  pose proof (Zdigits2_mono q (m' / 2 ^ (d2 - 1)) ltac:(lia)) as Hmono.
  repeat split; [assumption|unfold e'; lia|].
  unfold s, d in *. lia.
Qed.

Lemma SFdiv_sign (s1 : bool) (x : spec_float) (sy : bool) (my : positive) (ey : Z) :
  SFsign s1 x -> SFsign (xorb s1 sy) (SFdiv prec emax x (S754_finite sy my ey)).
Proof.
  destruct x as [sx|sx| |sx mx ex]; simpl; intros H1; subst;
    try exact I; try reflexivity.
  destruct (SFdiv_core_binary prec emax (Zpos mx) ex (Zpos my) ey) as [[mz ez] lz].
  apply binary_round_aux_sign.
Qed.

Lemma SFdiv_mag (k K : Z) (x : spec_float) (sy : bool) (my : positive) (ey : Z) :
  SFmag k x -> k - (Zdigits2 (Zpos my) + ey) + 1 <= K -> -1074 <= K <= 1023 ->
  SFmag (K + 1) (SFdiv prec emax x (S754_finite sy my ey)).
Proof.
  destruct x as [sx|sx| |sx mx ex]; unfold SFmag at 1; intros Hx HK Hr;
    try contradiction; [exact I|].
  unfold SFdiv. pose proof (SFdiv_core_binary_spec mx my ex ey) as H. cbv zeta in H.
  destruct (SFdiv_core_binary prec emax (Zpos mx) ex (Zpos my) ey) as [[mz ez] lz].
  destruct H as (H0 & He & Hd).
  apply binary_round_aux_mag; lia.
Qed.

(** back to primitive floats *)
Lemma SFopp_sign (s : bool) (x : spec_float) : SFsign s x -> SFsign (negb s) (SFopp x).
Proof. destruct x; simpl; intros; subst; auto. Qed.

Lemma SFopp_mag (k : Z) (x : spec_float) : SFmag k x -> SFmag k (SFopp x).
Proof. destruct x; simpl; auto. Qed.

Lemma SFldexp_sign (s : bool) (x : spec_float) (e : Z) :
  SFsign s x -> SFsign s (SFldexp prec emax x e).
Proof.
  destruct x as [sx|sx| |sx mx ex]; simpl; intros; subst; auto.
  apply binary_round_sign.
Qed.

Lemma SFldexp_mag (k K : Z) (x : spec_float) (e : Z) :
  SFmag k x -> k + e <= K -> -1074 <= K <= 972 ->
  SFmag (K + 1) (SFldexp prec emax x e).
Proof.
  destruct x as [sx|sx| |sx mx ex]; unfold SFmag at 1; intros Hx HK Hr;
    try contradiction; [exact I|].
  unfold SFldexp. assert (1 <= Zdigits2 (Zpos mx)) by (simpl; lia).
  apply binary_round_mag; lia.
Qed.

Lemma of_pos_uint63_sign_mag (m : positive) :
  SFsign false (Prim2SF (of_uint63 (Uint63.of_Z (Zpos m))))
  /\ SFmag (Zdigits2 (Zpos m) + 1) (Prim2SF (of_uint63 (Uint63.of_Z (Zpos m)))).
Proof.
  rewrite of_uint63_spec, Uint63.of_Z_spec.
  pose proof (Z.mod_pos_bound (Zpos m) Uint63.wB ltac:(reflexivity)) as Hb.
  pose proof (Z.mod_le (Zpos m) Uint63.wB ltac:(lia) ltac:(reflexivity)) as Hle.
  set (n := Zpos m mod Uint63.wB) in *.
  split.
  - pose proof (binary_normalize_sign n 0 false) as H.
    destruct (Z.ltb_spec n 0); [lia|exact H].
  - pose proof (Zdigits2_mono n (Zpos m) ltac:(lia)) as Hmono.
    assert (Hn : Zdigits2 n <= 63).
    { apply Zdigits2_le_of_lt; [|lia]. exact Hb. }
    pose proof (Zdigits2_nonneg n).
    apply SFmag_weaken with (k := Zdigits2 n + 1); [lia|].
    apply binary_normalize_mag; lia.
Qed.

Lemma Prim2SF_SF2Prim_sign (s : bool) (x : spec_float) :
  SFsign s x -> SFsign s (Prim2SF (SF2Prim x)).
Proof.
  destruct x as [sx|sx| |sx mx ex]; simpl SFsign at 1; intros H.
  - destruct sx; exact I.
  - subst s. destruct sx; reflexivity.
  - exact I.
  - subst s. unfold SF2Prim. destruct (of_pos_uint63_sign_mag mx) as [Hs _].
    pose proof (SFldexp_sign false _ ex Hs) as Hl. rewrite <- Z_ldexp_spec in Hl.
    destruct sx; [|exact Hl].
    rewrite FloatAxioms.opp_spec. apply (SFopp_sign false). exact Hl.
Qed.

Lemma Prim2SF_SF2Prim_mag (k : Z) (x : spec_float) :
  SFmag k x -> -1074 <= k <= 970 -> SFmag (k + 2) (Prim2SF (SF2Prim x)).
Proof.
  destruct x as [sx|sx| |sx mx ex]; unfold SFmag at 1; intros H Hr; try contradiction.
  - destruct sx; exact I.
  - unfold SF2Prim. destruct (of_pos_uint63_sign_mag mx) as [_ Hm].
    pose proof (SFldexp_mag _ (k + 1) _ ex Hm ltac:(lia) ltac:(lia)) as Hl.
    rewrite <- Z_ldexp_spec in Hl. replace (k + 1 + 1) with (k + 2) in Hl by lia.
    destruct sx; [|exact Hl].
    rewrite FloatAxioms.opp_spec. apply SFopp_mag. exact Hl.
Qed.

(** comparisons *)
Lemma leb_zero_sign (p : float) : (0 <=? p)%float = true -> SFsign false (Prim2SF p).
Proof.
  rewrite leb_spec. change (Prim2SF 0) with (S754_zero false).
  destruct (Prim2SF p) as [s|s| |s m e]; try (intros; exact I);
    destruct s; simpl; try discriminate; reflexivity.
Qed.

Lemma ltb_zero_sign (p : float) : (0 <? p)%float = true -> SFsign false (Prim2SF p).
Proof.
  rewrite ltb_spec. change (Prim2SF 0) with (S754_zero false).
  destruct (Prim2SF p) as [s|s| |s m e]; try (intros; exact I);
    destruct s; simpl; try discriminate; reflexivity.
Qed.

Lemma ltb_leb_zero (p : float) : (0 <? p)%float = true -> (0 <=? p)%float = true.
Proof.
  rewrite ltb_spec, leb_spec. unfold SFltb, SFleb.
  destruct (SFcompare _ _) as [[]|]; intros H; try discriminate H; reflexivity.
Qed.

Lemma valid_finite_digits (s : bool) (m : positive) (e : Z) :
  valid_binary (S754_finite s m e) = true -> Zdigits2 (Zpos m) <= 53.
Proof.
  unfold valid_binary, bounded, canonical_mantissa. rewrite fexp_unfold.
  intros H. apply andb_prop in H. destruct H as [H _].
  apply Z.eqb_eq in H. unfold Zdigits2. lia.
Qed.

Lemma leb_finite_mag (p : float) (mb : positive) (eb : Z) (b : float) :
  Prim2SF b = S754_finite false mb eb ->
  SFsign false (Prim2SF p) -> (p <=? b)%float = true -> SFmag (53 + eb) (Prim2SF p).
Proof.
  intros Hb Hs. rewrite leb_spec, Hb. pose proof (Prim2SF_valid p) as Hv.
  destruct (Prim2SF p) as [s|s| |s m e]; simpl in Hs; subst; try discriminate;
    [intros; exact I|].
  apply valid_finite_digits in Hv. unfold SFleb, SFcompare.
  destruct (Z.compare_spec e eb); try discriminate; intros _; unfold SFmag; lia.
Qed.

Lemma percent_in_range_mag (p : float) :
  (0 <=? p)%float = true -> (p <=? 100)%float = true -> SFmag 7 (Prim2SF p).
Proof.
  intros H0 H1.
  apply (leb_finite_mag p 7036874417766400 (-46) 100 eq_refl (leb_zero_sign p H0) H1).
Qed.

(** integers that are floats convert back exactly *)
Lemma iter_pos_shr_1_exact (p : positive) :
  forall z, 0 < z ->
    SpecFloat.iter_pos shr_1 p {| shr_m := 2 ^ Zpos p * z; shr_r := false; shr_s := false |}
    = {| shr_m := z; shr_r := false; shr_s := false |}.
Proof.
  assert (Hstep : forall z, 0 < z ->
            shr_1 {| shr_m := 2 * z; shr_r := false; shr_s := false |}
            = {| shr_m := z; shr_r := false; shr_s := false |}).
  { intros [|q|q] Hz; try lia. reflexivity. }
  assert (Hpow : forall q, 0 < 2 ^ Zpos q) by (intros q; apply Z.pow_pos_nonneg; lia).
  induction p as [p IH|p IH|]; intros z Hz; cbn [SpecFloat.iter_pos].
  - replace (2 ^ Zpos p~1 * z) with (2 * (2 ^ Zpos p * (2 ^ Zpos p * z))).
    + pose proof (Hpow p). rewrite Hstep, IH, IH by nia. reflexivity.
    + assert (E : 2 ^ Zpos p~1 = 2 * (2 ^ Zpos p * 2 ^ Zpos p)).
      { rewrite <- Z.pow_add_r, <- Z.pow_succ_r by lia. f_equal. lia. }
      rewrite E. ring.
  - replace (2 ^ Zpos p~0 * z) with (2 ^ Zpos p * (2 ^ Zpos p * z)).
    + pose proof (Hpow p). rewrite IH, IH by nia. reflexivity.
    + assert (E : 2 ^ Zpos p~0 = 2 ^ Zpos p * 2 ^ Zpos p).
      { rewrite <- Z.pow_add_r by lia. f_equal. lia. }
      rewrite E. ring.
  - rewrite Z.pow_1_r. apply Hstep. assumption.
Qed.

Lemma Zdigits2_unique (n k : Z) : 2 ^ (k - 1) <= n < 2 ^ k -> 1 <= k -> Zdigits2 n = k.
Proof.
  intros [Hl Hu] Hk.
  assert (Hn : 0 < n) by (pose proof (Z.pow_pos_nonneg 2 (k - 1)); lia).
  pose proof (Zdigits2_le_of_lt n k ltac:(lia) ltac:(lia)) as Hle.
  pose proof (Zdigits2_lt_pow n ltac:(lia)) as Hlt.
  pose proof (Zdigits2_nonneg n).
  destruct (Z_le_gt_dec k (Zdigits2 n)); [lia|exfalso].
  assert (2 ^ Zdigits2 n <= 2 ^ (k - 1)) by (apply Z.pow_le_mono_r; lia).
  lia.
Qed.

Lemma Zdigits2_mul_pow2 (m : positive) (e : Z) :
  0 <= e -> Zdigits2 (Zpos m * 2 ^ e) = Zdigits2 (Zpos m) + e.
Proof.
  intros He. destruct (Zdigits2_bounds m) as [Hl Hu].
  assert (Hd : 1 <= Zdigits2 (Zpos m)) by (simpl; lia).
  assert (Hp : 0 < 2 ^ e) by (apply Z.pow_pos_nonneg; lia).
  apply Zdigits2_unique; [|lia]. split.
  - replace (Zdigits2 (Zpos m) + e - 1) with (Zdigits2 (Zpos m) - 1 + e) by lia.
    rewrite Z.pow_add_r by lia. apply Z.mul_le_mono_nonneg_r; lia.
  - rewrite Z.pow_add_r by lia. apply Z.mul_lt_mono_pos_r; lia.
Qed.

Lemma binary_round_exact (s : bool) (m p : positive) (e : Z) :
  Zpos p = Zpos m * 2 ^ e -> 0 <= e ->
  valid_binary (S754_finite s m e) = true ->
  binary_round prec emax s p 0 = S754_finite s m e.
Proof.
  intros Hp He Hv.
  unfold valid_binary, bounded, canonical_mantissa in Hv.
  apply andb_prop in Hv. destruct Hv as [Hc Hb].
  apply Z.eqb_eq in Hc. apply Z.leb_le in Hb.
  change (Zpos (digits2_pos m)) with (Zdigits2 (Zpos m)) in Hc.
  assert (Hdp : Zdigits2 (Zpos p) = Zdigits2 (Zpos m) + e)
    by (rewrite Hp; apply Zdigits2_mul_pow2; assumption).
  assert (Hf : fexp prec emax (Zpos (digits2_pos p) + 0) = e).
  { change (Zpos (digits2_pos p)) with (Zdigits2 (Zpos p)).
    rewrite Z.add_0_r, Hdp. exact Hc. }
  unfold binary_round. rewrite Hf.
  assert (Hal : shl_align p 0 e = (p, 0)).
  { unfold shl_align. rewrite Z.sub_0_r. destruct e; try reflexivity. lia. }
  rewrite Hal. unfold binary_round_aux, shr_fexp.
  rewrite Z.add_0_r, Hdp, Hc, Z.sub_0_r.
  destruct e as [|q|q]; [| |lia].
  - rewrite Z.pow_0_r, Z.mul_1_r in Hp. injection Hp as ->.
    simpl shr. cbn [shr_m loc_of_shr_record round_nearest_even].
    rewrite Z.add_0_r in Hc. rewrite Z.add_0_r, Hc. simpl shr. cbn [shr_m].
    destruct (Z.leb_spec 0 (emax - prec)); [reflexivity|lia].
  - simpl shr. simpl shr_record_of_loc. rewrite Hp, Z.mul_comm.
    rewrite iter_pos_shr_1_exact by lia.
    cbn [shr_m loc_of_shr_record round_nearest_even]. rewrite ?Z.add_0_l, Hc, Z.sub_diag.
    simpl shr. cbn [shr_m].
    destruct (Z.leb_spec (Zpos q) (emax - prec)); [reflexivity|lia].
Qed.

(** ** Python's operations on the floats above *)

Lemma mul_SFmul (x y : float) :
  Prim2SF (x * y)%float = SFmul prec emax (Prim2SF x) (Prim2SF y).
Proof. apply mul_spec. Qed.

Lemma div_100_SFdiv (p : float) :
  Prim2SF (p / 100)%float
  = SFdiv prec emax (Prim2SF p) (S754_finite false 7036874417766400 (-46)).
Proof. rewrite div_spec. reflexivity. Qed.

Lemma SFmul_comm (x y : spec_float) : SFmul prec emax x y = SFmul prec emax y x.
Proof.
  destruct x as [sx|sx| |sx mx ex], y as [sy|sy| |sy my ey]; simpl;
    rewrite ?(xorb_comm sx sy); try reflexivity.
  rewrite (Pos.mul_comm mx my), (Z.add_comm ex ey). reflexivity.
Qed.

Lemma float_mul_comm (x y : float) : (x * y)%float = (y * x)%float.
Proof. apply Prim2SF_inj. rewrite !mul_SFmul. apply SFmul_comm. Qed.

Lemma mul_int_float_comm (n : Z) (x : float) :
  Py.mul_int_float n x = Py.mul_float_int x n.
Proof.
  unfold Py.mul_int_float, Py.mul_float_int.
  destruct (Py.float_of_int n); simpl; [|reflexivity].
  rewrite float_mul_comm. reflexivity.
Qed.

Lemma int_of_mag (k : Z) (x : spec_float) : SFmag k x -> returns (Py.int_of_spec_float x).
Proof. destruct x; simpl; intros H; try contradiction; eexists; reflexivity. Qed.

Lemma floor_eq_int_of_sign (x : spec_float) :
  SFsign false x -> Py.floor_of_spec_float x = Py.int_of_spec_float x.
Proof. destruct x as [s|s| |s m e]; simpl; intros H; subst; reflexivity. Qed.

Lemma floor_opp_of_sign (x : spec_float) (n : Z) :
  SFsign true x -> Py.int_of_spec_float x = Ok n ->
  Py.floor_of_spec_float (SFopp x) = Ok (- n).
Proof.
  destruct x as [s|s| |s m e]; simpl; intros H E; subst; try discriminate.
  - injection E as <-. reflexivity.
  - injection E as <-. simpl. rewrite Z.opp_involutive. reflexivity.
Qed.

(** [int] truncates toward zero and [floor] rounds down: on the float
    [±m × 2^e] they are the quotient [÷] and the division [/] of [Z]. *)
Lemma int_of_spec_float_quot (s : bool) (m : positive) (e : Z) :
  Py.int_of_spec_float (S754_finite s m e)
  = Ok (if e <? 0 then cond_Zopp s (Zpos m) ÷ 2 ^ (- e)
        else cond_Zopp s (Zpos m) * 2 ^ e).
Proof.
  unfold Py.int_of_spec_float. f_equal. destruct (Z.ltb_spec e 0) as [He|He].
  - assert (Hp : 0 < 2 ^ (- e)) by (apply Z.pow_pos_nonneg; lia).
    rewrite Z.shiftl_div_pow2 by lia.
    rewrite <- Z.quot_div_nonneg by lia.
    destruct s; unfold cond_Zopp; [|reflexivity].
    rewrite Z.quot_opp_l by lia. reflexivity.
  - rewrite Z.shiftl_mul_pow2 by lia. destruct s; unfold cond_Zopp; lia.
Qed.

Lemma floor_of_spec_float_div (s : bool) (m : positive) (e : Z) :
  Py.floor_of_spec_float (S754_finite s m e)
  = Ok (if e <? 0 then cond_Zopp s (Zpos m) / 2 ^ (- e)
        else cond_Zopp s (Zpos m) * 2 ^ e).
Proof.
  unfold Py.floor_of_spec_float. f_equal. destruct (Z.ltb_spec e 0) as [He|He].
  - apply Z.shiftl_div_pow2. lia.
  - apply Z.shiftl_mul_pow2. lia.
Qed.

Lemma Zdigits2_opp (n : Z) : Zdigits2 (- n) = Zdigits2 n.
Proof. destruct n; reflexivity. Qed.

Lemma is_u64_digits (n : Z) : is_u64 n -> Zdigits2 n <= 64.
Proof. intros H. apply Zdigits2_le_of_lt; [exact H|lia]. Qed.

Lemma float_of_int_Ok (n : Z) (y : float) :
  Py.float_of_int n = Ok y -> y = SF2Prim (binary_normalize prec emax n 0 false).
Proof.
  unfold Py.float_of_int.
  destruct (binary_normalize prec emax n 0 false); intros H; try discriminate;
    injection H as <-; reflexivity.
Qed.

Lemma float_of_int_sign (n : Z) (y : float) :
  Py.float_of_int n = Ok y -> SFsign (n <? 0) (Prim2SF y).
Proof.
  intros H. rewrite (float_of_int_Ok n y H).
  apply Prim2SF_SF2Prim_sign, binary_normalize_sign.
Qed.

Lemma float_of_int_mag (n k : Z) :
  Zdigits2 n <= k -> -1074 <= k <= 969 ->
  exists y, Py.float_of_int n = Ok y /\ SFmag (k + 3) (Prim2SF y).
Proof.
  intros Hd Hr.
  pose proof (binary_normalize_mag n 0 false k ltac:(lia) ltac:(lia) ltac:(lia)) as Hm.
  pose proof (Prim2SF_SF2Prim_mag (k + 1) _ Hm ltac:(lia)) as Hp.
  replace (k + 1 + 2) with (k + 3) in Hp by lia.
  exists (SF2Prim (binary_normalize prec emax n 0 false)). split; [|exact Hp].
  unfold Py.float_of_int.
  destruct (binary_normalize prec emax n 0 false); try contradiction; reflexivity.
Qed.

(** [float(int(x))] never overflows. *)
Lemma float_of_int_of_int (x : float) (n : Z) :
  Py.int x = Ok n -> returns (Py.float_of_int n).
Proof.
  unfold Py.int. pose proof (Prim2SF_valid x) as Hv.
  destruct (Prim2SF x) as [s|s| |s m e] eqn:E; simpl; intros H; try discriminate;
    injection H as <-.
  - eexists. reflexivity.
  - destruct (Z_lt_le_dec e 0) as [Hneg|Hpos].
    + apply valid_finite_digits in Hv.
      assert (Hd : Zdigits2 (cond_Zopp s (Z.shiftl (Zpos m) e)) <= 53).
      { assert (Hsh : Zdigits2 (Z.shiftl (Zpos m) e) <= 53).
        { rewrite Z.shiftl_div_pow2 by lia.
          pose proof (Zdigits2_div_pow2 (Zpos m) (- e) ltac:(lia) ltac:(lia)). lia. }
        destruct s; simpl cond_Zopp; [rewrite Zdigits2_opp|]; exact Hsh. }
      destruct (float_of_int_mag _ 53 Hd ltac:(lia)) as (y & Hy & _).
      exists y. exact Hy.
    + assert (Hp : exists p, Zpos p = Zpos m * 2 ^ e).
      { pose proof (Z.pow_pos_nonneg 2 e ltac:(lia) Hpos).
        destruct (Zpos m * 2 ^ e) as [|p|p] eqn:Ep; try lia. exists p. reflexivity. }
      destruct Hp as [p Hp].
      rewrite Z.shiftl_mul_pow2, <- Hp by assumption.
      unfold Py.float_of_int.
      assert (Hn : binary_normalize prec emax (cond_Zopp s (Zpos p)) 0 false
                   = S754_finite s m e).
      { destruct s; simpl; apply binary_round_exact; assumption. }
      rewrite Hn. eexists. reflexivity.
Qed.

(** *** The percent pipeline: [int(percent / 100.0 * total)] *)

Lemma ratio_sign (p : float) :
  SFsign false (Prim2SF p) -> SFsign false (Prim2SF (p / 100)%float).
Proof. intros H. rewrite div_100_SFdiv. apply (SFdiv_sign false). exact H. Qed.

Lemma ratio_mag (p : float) : SFmag 7 (Prim2SF p) -> SFmag 2 (Prim2SF (p / 100)%float).
Proof.
  intros H. rewrite div_100_SFdiv.
  apply (SFdiv_mag 7 1); [exact H|simpl; lia|lia].
Qed.

Lemma scaled_sign (p y : float) (t : Z) :
  SFsign false (Prim2SF p) -> 0 <= t -> Py.float_of_int t = Ok y ->
  SFsign false (Prim2SF (p / 100 * y)%float).
Proof.
  intros Hp Ht Hy. rewrite mul_SFmul.
  apply (SFmul_sign false false); [apply ratio_sign; exact Hp|].
  pose proof (float_of_int_sign t y Hy) as Hs.
  destruct (Z.ltb_spec t 0); [lia|exact Hs].
Qed.

Lemma scaled_mag (p : float) (t : Z) :
  SFmag 7 (Prim2SF p) -> is_u64 t ->
  exists y, Py.float_of_int t = Ok y /\ SFmag 70 (Prim2SF (p / 100 * y)%float).
Proof.
  intros Hp Ht.
  destruct (float_of_int_mag t 64 (is_u64_digits t Ht) ltac:(lia)) as (y & Hy & Hm).
  exists y. split; [exact Hy|]. rewrite mul_SFmul.
  apply (SFmul_mag 2 67 69); [apply ratio_mag; exact Hp|exact Hm|lia|lia].
Qed.

(** The code's truncation is the specification's floor on percents and
    totals that are not negative. *)
Lemma int_percent_is_floor (p : float) (t : Z) :
  SFsign false (Prim2SF p) -> 0 <= t ->
  (let? x := Py.mul_float_int (p / 100) t in Py.int x) = floor_of_float_product p t.
Proof.
  intros Hp Ht. unfold Py.mul_float_int, floor_of_float_product.
  destruct (Py.float_of_int t) as [y|e] eqn:Hy; simpl; [|reflexivity].
  unfold Py.int, Py.floor. symmetry. apply floor_eq_int_of_sign.
  apply (scaled_sign p y t); assumption.
Qed.

Lemma int_percent_returns (p : float) (t : Z) :
  SFmag 7 (Prim2SF p) -> is_u64 t ->
  returns (let? x := Py.mul_float_int (p / 100) t in Py.int x).
Proof.
  intros Hp Ht. destruct (scaled_mag p t Hp Ht) as (y & Hy & Hm).
  unfold Py.mul_float_int. rewrite Hy. simpl. apply (int_of_mag 70). exact Hm.
Qed.


(** ** Floats that round to themselves *)

Lemma binary_round_aux_canonical (s : bool) (m : positive) (e : Z) :
  valid_binary (S754_finite s m e) = true ->
  binary_round_aux prec emax s (Zpos m) e loc_Exact = S754_finite s m e.
Proof.
  intros Hv. unfold valid_binary, bounded, canonical_mantissa in Hv.
  apply andb_prop in Hv. destruct Hv as [Hc Hb].
  apply Z.eqb_eq in Hc. apply Z.leb_le in Hb.
  change (Zpos (digits2_pos m)) with (Zdigits2 (Zpos m)) in Hc.
  unfold binary_round_aux, shr_fexp. rewrite Hc, Z.sub_diag.
  simpl shr. cbn [shr_m loc_of_shr_record round_nearest_even fst snd].
  rewrite Hc, Z.sub_diag. simpl shr. cbn [shr_m fst snd].
  destruct (Z.leb_spec e (emax - prec)); [reflexivity|lia].
Qed.

(** A positive integer of at most 53 binary digits is rounded to itself. *)
Lemma binary_round_small :
  forall s p, Zdigits2 (Zpos p) <= 53 ->
    exists m e, binary_round prec emax s p 0 = S754_finite s m e
                /\ valid_binary (S754_finite s m e) = true
                /\ e <= 0 /\ Zpos m = Zpos p * 2 ^ (- e).
Proof.
  intros s p Hp. assert (H1 : 1 <= Zdigits2 (Zpos p)) by (simpl; lia).
  unfold binary_round.
  change (Zpos (digits2_pos p)) with (Zdigits2 (Zpos p)).
  rewrite fexp_unfold, Z.add_0_r.
  replace (Z.max (Zdigits2 (Zpos p) - 53) (-1074)) with (Zdigits2 (Zpos p) - 53) by lia.
  unfold shl_align. rewrite Z.sub_0_r.
  destruct (Zdigits2 (Zpos p) - 53) as [|k|k] eqn:Ek; [|lia|].
  - assert (Hv : valid_binary (S754_finite s p 0) = true).
    { unfold valid_binary, bounded, canonical_mantissa.
      change (Zpos (digits2_pos p)) with (Zdigits2 (Zpos p)).
      rewrite fexp_unfold.
      apply andb_true_intro. split; [apply Z.eqb_eq; lia|apply Z.leb_le].
      unfold emax, prec. lia. }
    exists p, 0. split; [apply binary_round_aux_canonical; exact Hv|].
    split; [exact Hv|]. split; [lia|]. simpl. lia.
  - assert (Hdig : Zdigits2 (Zpos (shift_pos k p)) = 53).
    { unfold Zdigits2, shift_pos. rewrite digits2_pos_iter_xO.
      change (Zpos (digits2_pos p)) with (Zdigits2 (Zpos p)). lia. }
    assert (Hv : valid_binary (S754_finite s (shift_pos k p) (Zneg k)) = true).
    { unfold valid_binary, bounded, canonical_mantissa.
      change (Zpos (digits2_pos (shift_pos k p)))
        with (Zdigits2 (Zpos (shift_pos k p))).
      rewrite Hdig, fexp_unfold.
      apply andb_true_intro. split; [apply Z.eqb_eq; lia|apply Z.leb_le].
      unfold emax, prec. lia. }
    exists (shift_pos k p), (Zneg k).
    split; [apply binary_round_aux_canonical; exact Hv|].
    split; [exact Hv|]. split; [lia|].
    rewrite shift_pos_correct. change (- Z.neg k) with (Z.pos k).
    change (2 ^ Z.pos k) with (Z.pow_pos 2 k). unfold Zpower_pos. lia.
Qed.

(** ** Rounding errors

    How far the rounded quotient and product of the percent pipeline can
    be from the exact ones, in the rationals. *)

Lemma pow2_pos (e : Z) : (0 < Qpower 2 e)%Q.
Proof. apply Qpower_0_lt. reflexivity. Qed.

Lemma pow2_add (a b : Z) : (Qpower 2 (a + b) == Qpower 2 a * Qpower 2 b)%Q.
Proof. apply Qpower_plus. discriminate. Qed.

Lemma pow2_le (a b : Z) : a <= b -> (Qpower 2 a <= Qpower 2 b)%Q.
Proof. intros H. apply Qpower_le_compat_l; [exact H|]. discriminate. Qed.

Lemma pow2_inject (k : Z) : 0 <= k -> (inject_Z (2 ^ k) == Qpower 2 k)%Q.
Proof. intros H. apply (Zpower_Qpower 2 k H). Qed.

(** [m × 2^e], scaled. *)
Lemma scaled_shift (m e n : Z) :
  0 <= n ->
  (inject_Z (m * 2 ^ n) * Qpower 2 e == inject_Z m * Qpower 2 (e + n))%Q.
Proof.
  intros Hn. rewrite inject_Z_mult, pow2_inject, pow2_add by assumption. ring.
Qed.

Lemma scaled_le (a b e : Z) : a <= b -> (inject_Z a * Qpower 2 e <= inject_Z b * Qpower 2 e)%Q.
Proof.
  intros H. apply Qmult_le_compat_r; [|apply Qlt_le_weak, pow2_pos].
  rewrite <- Zle_Qle. exact H.
Qed.

(** Dropping the low [n] bits of [m]: the truncated mantissa, one unit
    higher at the new exponent, brackets [m] and [m + 1]. *)
Lemma shift_brackets (m e n : Z) :
  0 <= m -> 0 <= n ->
  (inject_Z (m / 2 ^ n) * Qpower 2 (e + n) <= inject_Z m * Qpower 2 e)%Q
  /\ (inject_Z (m + 1) * Qpower 2 e <= inject_Z (m / 2 ^ n + 1) * Qpower 2 (e + n))%Q.
Proof.
  intros Hm Hn.
  assert (Hp : 0 < 2 ^ n) by (apply Z.pow_pos_nonneg; lia).
  pose proof (Z.div_mod m (2 ^ n) ltac:(lia)) as Hdm.
  pose proof (Z.mod_pos_bound m (2 ^ n) Hp) as Hr.
  split.
  - rewrite <- scaled_shift by assumption. apply scaled_le. nia.
  - rewrite <- scaled_shift by assumption. apply scaled_le. nia.
Qed.

Lemma Zdigits2_pow2_le (n : Z) : 0 < n -> 2 ^ (Zdigits2 n - 1) <= n.
Proof. intros H. destruct n as [|p|p]; try lia. apply Zdigits2_bounds. Qed.

(** What [binary_round_aux] answers on a mantissa that is not negative:
    the mantissa at the exponent [E1] of the format, truncated and then
    left alone or raised by one. *)
Lemma binary_round_aux_value (m e : Z) (l : location) (k : Z) :
  0 <= m -> e <= 971 -> Zdigits2 m + e <= k -> -1074 <= k <= 1023 ->
  let E1 := Z.max e (fexp prec emax (Zdigits2 m + e)) in
  exists m1,
    (SFvalue (binary_round_aux prec emax false m e l) == inject_Z m1 * Qpower 2 E1)%Q
    /\ m / 2 ^ (E1 - e) <= m1 <= m / 2 ^ (E1 - e) + 1
    /\ (l = loc_Exact -> E1 = e -> m1 = m).
Proof.
  intros Hm He Hk Hrange E1.
  unfold binary_round_aux, shr_fexp.
  remember (fexp prec emax (Zdigits2 m + e) - e) as n1 eqn:Hn1.
  assert (HE1 : E1 = e + Z.max 0 n1) by (unfold E1; lia).
  rewrite fexp_unfold in Hn1.
  assert (Hexact : l = loc_Exact -> E1 = e ->
            shr (shr_record_of_loc m l) e n1 = (shr_record_of_loc m loc_Exact, e)).
  { intros -> HEe. destruct n1 as [|p|p]; try reflexivity. lia. }
  destruct (shr_spec (shr_record_of_loc m l) e n1) as [Hm' He'].
  { rewrite shr_m_of_loc. assumption. }
  rewrite shr_m_of_loc in Hm'.
  destruct (shr (shr_record_of_loc m l) e n1) as [mrs' e']. simpl in Hm', He'.
  set (m1 := round_nearest_even (shr_m mrs') (loc_of_shr_record mrs')).
  pose proof (round_nearest_even_bounds (shr_m mrs') (loc_of_shr_record mrs')) as Hm1.
  fold m1 in Hm1.
  assert (H0' : 0 <= shr_m mrs').
  { rewrite Hm'. apply Z.div_pos; [assumption|]. apply Z.pow_pos_nonneg; lia. }
  pose proof (Zdigits2_div_pow2 m (Z.max 0 n1) Hm ltac:(lia)) as Hd'. rewrite <- Hm' in Hd'.
  pose proof (Zdigits2_mono m1 (shr_m mrs' + 1) ltac:(lia)) as Hd1.
  pose proof (Zdigits2_succ_le (shr_m mrs') H0') as Hd1'.
  pose proof (Zdigits2_nonneg m1) as Hd1nn.
  pose proof (Zdigits2_nonneg (shr_m mrs')) as Hd'nn.
  pose proof (Zdigits2_nonneg m) as Hdnn.
  pose proof (Zdigits2_lt_pow (shr_m mrs') H0') as Hlt'.
  assert (Hd53 : Zdigits2 (shr_m mrs') <= 53) by lia.
  assert (Hm'53 : shr_m mrs' < 2 ^ 53).
  { assert (2 ^ Zdigits2 (shr_m mrs') <= 2 ^ 53) by (apply Z.pow_le_mono_r; lia). lia. }
  remember (fexp prec emax (Zdigits2 m1 + e') - e') as n2 eqn:Hn2.
  rewrite fexp_unfold in Hn2.
  destruct (shr_spec (shr_record_of_loc m1 loc_Exact) e' n2) as [Hm'' He''].
  { simpl. lia. }
  simpl shr_m in Hm'' at 2.
  destruct (shr (shr_record_of_loc m1 loc_Exact) e' n2) as [mrs'' e'']. simpl in Hm'', He''.
  (* the second shift loses nothing *)
  assert (Hsecond : shr_m mrs'' * 2 ^ Z.max 0 n2 = m1 /\ 0 <= Z.max 0 n2).
  { destruct (Z_le_gt_dec n2 0) as [Hle|Hgt].
    - rewrite Hm''. rewrite Z.max_l by lia. rewrite Z.pow_0_r, Z.div_1_r. lia.
    - assert (Hd54 : Zdigits2 m1 = 54) by lia.
      assert (Hn21 : n2 = 1) by lia.
      assert (H1pos : 0 < m1).
      { destruct (Z.eq_dec m1 0) as [E0|]; [rewrite E0 in Hd54; discriminate Hd54|lia]. }
      pose proof (Zdigits2_pow2_le m1 H1pos) as Hlow. rewrite Hd54 in Hlow.
      change (2 ^ (54 - 1)) with (2 ^ 53) in Hlow.
      assert (Em1 : m1 = 2 ^ 53) by lia.
      rewrite Hm'', Hn21, Em1. split; [reflexivity|lia]. }
  destruct Hsecond as [Hsecond Hn2nn].
  assert (Hval : Qeq (SFvalue (match shr_m mrs'' with
                               | 0 => S754_zero false
                               | Z.pos q =>
                                   if e'' <=? emax - prec then S754_finite false q e''
                                   else S754_infinity false
                               | Z.neg _ => S754_nan
                               end))
                     (inject_Z m1 * Qpower 2 e')%Q).
  { assert (H0'' : 0 <= shr_m mrs'').
    { rewrite Hm''. apply Z.div_pos; [lia|]. apply Z.pow_pos_nonneg; lia. }
    pose proof (Zdigits2_div_pow2 m1 (Z.max 0 n2) ltac:(lia) ltac:(lia)) as Hd''.
    rewrite <- Hm'' in Hd''.
    destruct (shr_m mrs'') as [|q|q] eqn:Eq; [| |lia].
    - replace m1 with 0 by lia. simpl SFvalue. change (inject_Z 0) with 0%Q. ring.
    - assert (Hq : 1 <= Zdigits2 (Zpos q)) by (simpl; lia).
      change (emax - prec) with 971.
      destruct (Z.leb_spec e'' 971) as [_|Hbad]; [|lia].
      simpl SFvalue. rewrite <- Hsecond, He''. symmetry. apply scaled_shift. exact Hn2nn. }
  exists m1. split.
  { rewrite Hval. rewrite He', HE1. reflexivity. }
  split.
  { rewrite HE1. replace (e + Z.max 0 n1 - e) with (Z.max 0 n1) by lia.
    rewrite <- Hm'. exact Hm1. }
  intros Hl HEe. specialize (Hexact Hl HEe).
  injection Hexact as -> _. reflexivity.
Qed.

(** Rounding a bracketed number moves it by at most one unit of the
    exponent it is rounded at. *)
Lemma binary_round_aux_error (m e : Z) (l : location) (k : Z) (X : Q) :
  0 <= m -> e <= 971 -> Zdigits2 m + e <= k -> -1074 <= k <= 1023 ->
  (inject_Z m * Qpower 2 e <= X)%Q -> (X <= inject_Z (m + 1) * Qpower 2 e)%Q ->
  let E1 := Z.max e (fexp prec emax (Zdigits2 m + e)) in
  let V := SFvalue (binary_round_aux prec emax false m e l) in
  (X - Qpower 2 E1 <= V)%Q /\ (V <= X + Qpower 2 E1)%Q.
Proof.
  intros Hm He Hk Hr Hlo Hhi E1 V.
  destruct (binary_round_aux_value m e l k Hm He Hk Hr) as (m1 & HV & Hm1 & _).
  fold E1 in HV, Hm1. fold V in HV.
  assert (Hn : 0 <= E1 - e) by (unfold E1; lia).
  destruct (shift_brackets m e (E1 - e) Hm Hn) as [B1 B2].
  replace (e + (E1 - e)) with E1 in B1, B2 by lia.
  set (m' := m / 2 ^ (E1 - e)) in *.
  assert (L1 : (inject_Z m' * Qpower 2 E1 <= V)%Q).
  { rewrite HV. apply scaled_le. lia. }
  assert (L2 : (V <= inject_Z (m' + 1) * Qpower 2 E1)%Q).
  { rewrite HV. apply scaled_le. lia. }
  rewrite (inject_Z_plus m' 1) in L2, B2. rewrite (inject_Z_plus m 1) in B2, Hhi.
  change (inject_Z 1) with 1%Q in L2, B2, Hhi.
  split; lra.
Qed.

Lemma binary_round_aux_exact_error (m e k : Z) :
  0 <= m -> e <= 971 -> Zdigits2 m + e <= k -> -1074 <= k <= 1023 ->
  let F := fexp prec emax (Zdigits2 m + e) in
  let V := SFvalue (binary_round_aux prec emax false m e loc_Exact) in
  (inject_Z m * Qpower 2 e - Qpower 2 F <= V)%Q
  /\ (V <= inject_Z m * Qpower 2 e + Qpower 2 F)%Q.
Proof.
  intros Hm He Hk Hr F V.
  destruct (Z_le_gt_dec F e) as [Hle|Hgt].
  - destruct (binary_round_aux_value m e loc_Exact k Hm He Hk Hr) as (m1 & HV & _ & Hex).
    fold F in HV, Hex. fold V in HV.
    assert (HE : Z.max e F = e) by lia.
    rewrite HE in HV. rewrite (Hex eq_refl HE) in HV.
    pose proof (pow2_pos F). rewrite HV. split; lra.
  - pose proof (binary_round_aux_error m e loc_Exact k (inject_Z m * Qpower 2 e)
                  Hm He Hk Hr ltac:(apply Qle_refl) ltac:(apply scaled_le; lia)) as H.
    cbv zeta in H. fold F in H. fold V in H.
    replace (Z.max e F) with F in H by lia. exact H.
Qed.

(** The quotient [SFdiv_core_binary] hands to the rounding, with the
    exponent it is given at, brackets the exact quotient. *)
Lemma SFdiv_core_binary_value (mx my : positive) (ex ey : Z) :
  let X := (inject_Z (Zpos mx) * Qpower 2 ex / (inject_Z (Zpos my) * Qpower 2 ey))%Q in
  let '(q, e', _) := SFdiv_core_binary prec emax (Zpos mx) ex (Zpos my) ey in
  (inject_Z q * Qpower 2 e' <= X)%Q /\ (X <= inject_Z (q + 1) * Qpower 2 e')%Q.
Proof.
  intros X. unfold SFdiv_core_binary. rewrite fexp_unfold.
  set (d := Zdigits2 (Zpos mx) + ex - (Zdigits2 (Zpos my) + ey)).
  set (e' := Z.min (Z.max (d - 53) (-1074)) (ex - ey)).
  set (s := ex - ey - e').
  set (m' := match s with Z.pos _ => Z.shiftl (Zpos mx) s | 0 => Zpos mx | Z.neg _ => 0 end).
  assert (Hs : 0 <= s) by (unfold s, e'; lia).
  assert (Hm' : m' = Zpos mx * 2 ^ s).
  { unfold m'. destruct s as [|p|p]; [simpl; lia| |lia].
    apply Z.shiftl_mul_pow2. lia. }
  pose proof (Z_div_mod m' (Zpos my) ltac:(lia)) as Hdm.
  destruct (Z.div_eucl m' (Zpos my)) as [q r] eqn:Eqr.
  destruct Hdm as [Hdm Hr].
  (* the exact quotient, at the exponent e' *)
  assert (HX : (X * inject_Z (Zpos my) == inject_Z m' * Qpower 2 e')%Q).
  { unfold X. rewrite Hm', inject_Z_mult, pow2_inject by exact Hs.
    replace ex with (s + e' + ey) at 1 by (unfold s; lia).
    rewrite !pow2_add. field. split.
    - pose proof (pow2_pos ey). lra.
    - change 0%Q with (inject_Z 0). rewrite inject_Z_injective. lia. }
  assert (Hmy : (0 < inject_Z (Zpos my))%Q).
  { change 0%Q with (inject_Z 0). rewrite <- Zlt_Qlt. lia. }
  pose proof (pow2_pos e') as Hpe.
  assert (Hq1 : (inject_Z q * inject_Z (Zpos my) <= inject_Z m')%Q).
  { rewrite <- inject_Z_mult, <- Zle_Qle. lia. }
  assert (Hq2 : (inject_Z m' <= inject_Z (q + 1) * inject_Z (Zpos my))%Q).
  { rewrite <- inject_Z_mult, <- Zle_Qle. lia. }
  split.
  - apply (Qmult_le_r _ _ (inject_Z (Zpos my)) Hmy). rewrite HX.
    setoid_replace (inject_Z q * Qpower 2 e' * inject_Z (Zpos my))%Q
      with (inject_Z q * inject_Z (Zpos my) * Qpower 2 e')%Q using relation Qeq by ring.
    apply Qmult_le_compat_r; [exact Hq1|lra].
  - apply (Qmult_le_r _ _ (inject_Z (Zpos my)) Hmy). rewrite HX.
    setoid_replace (inject_Z (q + 1) * Qpower 2 e' * inject_Z (Zpos my))%Q
      with (inject_Z (q + 1) * inject_Z (Zpos my) * Qpower 2 e')%Q
      using relation Qeq by ring.
    apply Qmult_le_compat_r; [exact Hq2|lra].
Qed.

(** The ratio [percent / 100.0] of a percent below 128 is within
    [2^-52] of the exact quotient. *)
Lemma ratio_error (mp : positive) (ep : Z) :
  Zdigits2 (Zpos mp) + ep <= 7 ->
  let P := (inject_Z (Zpos mp) * Qpower 2 ep)%Q in
  let V := SFvalue (SFdiv prec emax (S754_finite false mp ep)
                      (S754_finite false 7036874417766400 (-46))) in
  (P / 100 - Qpower 2 (-52) <= V)%Q /\ (V <= P / 100 + Qpower 2 (-52))%Q.
Proof.
  intros Hp P V. unfold V, SFdiv.
  pose proof (SFdiv_core_binary_spec mp 7036874417766400 ep (-46)) as Hs.
  pose proof (SFdiv_core_binary_value mp 7036874417766400 ep (-46)) as Hv.
  cbv zeta in Hs, Hv.
  destruct (SFdiv_core_binary prec emax (Zpos mp) ep 7036874417766400 (-46))
    as [[q e'] lz].
  destruct Hs as (Hq & He' & Hd). destruct Hv as [Hlo Hhi].
  change (Zdigits2 7036874417766400 + -46) with 7 in He', Hd.
  assert (HX : (inject_Z (Zpos mp) * Qpower 2 ep
                / (inject_Z 7036874417766400 * Qpower 2 (-46)) == P / 100)%Q).
  { unfold P. apply Qdiv_comp; reflexivity. }
  rewrite HX in Hlo, Hhi.
  simpl xorb.
  pose proof (binary_round_aux_error q e' lz 1 (P / 100)%Q
                Hq ltac:(lia) ltac:(lia) ltac:(lia) Hlo Hhi) as [B1 B2].
  pose proof (pow2_le (Z.max e' (fexp prec emax (Zdigits2 q + e'))) (-52)
                ltac:(rewrite fexp_unfold; lia)) as Hpow.
  split; lra.
Qed.

(** A product of two floats that are not negative is within one unit of
    the exponent it is rounded at of the exact product. *)
Lemma SFmul_error (a b : spec_float) (ka kb : Z) :
  SFsign false a -> SFsign false b -> SFmag ka a -> SFmag kb b ->
  -1074 <= ka + kb <= 973 ->
  let F := Z.max (ka + kb - 53) (-1074) in
  let V := SFvalue (SFmul prec emax a b) in
  (SFvalue a * SFvalue b - Qpower 2 F <= V)%Q /\ (V <= SFvalue a * SFvalue b + Qpower 2 F)%Q.
Proof.
  intros Sa Sb Ma Mb Hk F V. unfold V. pose proof (pow2_pos F) as HF.
  destruct a as [sa|sa| |sa ma ea], b as [sb|sb| |sb mb eb];
    cbn [SFsign SFmag] in Sa, Sb, Ma, Mb; try contradiction; subst;
    cbn [SFmul SFvalue xorb cond_Zopp]; try (split; lra).
  assert (Hda : 1 <= Zdigits2 (Zpos ma)) by (simpl; lia).
  assert (Hdb : 1 <= Zdigits2 (Zpos mb)) by (simpl; lia).
  pose proof (Zdigits2_mul ma mb) as Hd.
  pose proof (binary_round_aux_exact_error (Zpos (ma * mb)) (ea + eb) (ka + kb)
                ltac:(lia) ltac:(lia) ltac:(lia) ltac:(lia)) as [B1 B2].
  pose proof (pow2_le (fexp prec emax (Zdigits2 (Zpos (ma * mb)) + (ea + eb))) F
                ltac:(rewrite fexp_unfold; unfold F; lia)) as Hpow.
  assert (HX : (inject_Z (Zpos (ma * mb)) * Qpower 2 (ea + eb)
                == inject_Z (Zpos ma) * Qpower 2 ea * (inject_Z (Zpos mb) * Qpower 2 eb))%Q).
  { rewrite Pos2Z.inj_mul, inject_Z_mult, pow2_add. ring. }
  rewrite HX in B1, B2. split; lra.
Qed.

(** An integer of at most 53 binary digits is a float, with its value. *)
Lemma float_of_int_value (t : Z) :
  0 <= t -> Zdigits2 t <= 53 ->
  exists y, Py.float_of_int t = Ok y
            /\ SFsign false (Prim2SF y)
            /\ SFmag (Zdigits2 t) (Prim2SF y)
            /\ (SFvalue (Prim2SF y) == inject_Z t)%Q.
Proof.
  intros Ht Hd. destruct t as [|p|p]; [| |lia].
  - exists (SF2Prim (S754_zero false)). split; [reflexivity|].
    rewrite Prim2SF_SF2Prim by reflexivity. repeat split; reflexivity.
  - destruct (binary_round_small false p Hd) as (m & e & Hr & Hv & He & Hm).
    exists (SF2Prim (S754_finite false m e)). split.
    { unfold Py.float_of_int. simpl binary_normalize. rewrite Hr. reflexivity. }
    rewrite Prim2SF_SF2Prim by exact Hv. split; [reflexivity|]. split.
    + cbn [SFmag]. rewrite Hm, Zdigits2_mul_pow2 by lia. lia.
    + cbn [SFvalue cond_Zopp]. rewrite Hm. rewrite scaled_shift by lia.
      replace (e + - e) with 0 by lia. change (Qpower 2 0) with 1%Q. ring.
Qed.

(** [int] of a float that is not negative is the floor of its value. *)
Lemma int_of_spec_float_floor (x : spec_float) (n : Z) :
  SFsign false x -> Py.int_of_spec_float x = Ok n -> n = Qfloor (SFvalue x).
Proof.
  destruct x as [s|s| |s m e]; cbn [SFsign Py.int_of_spec_float SFvalue];
    intros Hs H; try discriminate; injection H as <-; [reflexivity|].
  subst s. cbn [cond_Zopp]. destruct (Z_lt_le_dec e 0) as [Hneg|Hpos].
  - rewrite Z.shiftl_div_pow2 by lia. rewrite Zdiv_Qdiv.
    apply Qfloor_comp. unfold Qdiv. apply Qmult_comp; [reflexivity|].
    rewrite pow2_inject by lia. rewrite <- Qpower_opp.
    replace (- - e) with e by lia. reflexivity.
  - rewrite Z.shiftl_mul_pow2 by lia. rewrite <- (Qfloor_Z (Zpos m * 2 ^ e)) at 1.
    apply Qfloor_comp. rewrite inject_Z_mult, pow2_inject by lia. reflexivity.
Qed.

Lemma floor_within_one (x y : Q) :
  (y - 1 < x)%Q -> (x < y + 1)%Q -> Qfloor y - 1 <= Qfloor x <= Qfloor y + 1.
Proof.
  intros H1 H2.
  pose proof (Qfloor_le x) as Lx. pose proof (Qlt_floor x) as Ux.
  pose proof (Qfloor_le y) as Ly. pose proof (Qlt_floor y) as Uy.
  rewrite inject_Z_plus in Ux, Uy. change (inject_Z 1) with 1%Q in Ux, Uy.
  split.
  - assert (H : (inject_Z (Qfloor y) < inject_Z (Qfloor x + 2))%Q).
    { rewrite inject_Z_plus. change (inject_Z 2) with 2%Q. lra. }
    rewrite <- Zlt_Qlt in H. lia.
  - assert (H : (inject_Z (Qfloor x) < inject_Z (Qfloor y + 2))%Q).
    { rewrite inject_Z_plus. change (inject_Z 2) with 2%Q. lra. }
    rewrite <- Zlt_Qlt in H. lia.
Qed.

(** The code's [int(percent / 100.0 * total)] against the exact
    [floor(percent/100 × total)]: for a percent within [0, 100] and a
    total below [2^50] bytes the two differ by one byte at most. *)
Lemma int_percent_near_exact (p : float) (t : Z) :
  (0 <=? p)%float = true -> (p <=? 100)%float = true -> 0 <= t < 2 ^ 50 ->
  exists b P,
    (let? x := Py.mul_float_int (p / 100) t in Py.int x) = Ok b
    /\ Spec.exact p = Some P
    /\ Spec.floor_percent_of P t - 1 <= b <= Spec.floor_percent_of P t + 1.
Proof.
  intros H0 H100 Ht.
  pose proof (leb_zero_sign p H0) as Sp.
  pose proof (percent_in_range_mag p H0 H100) as Mp.
  assert (Hdt : Zdigits2 t <= 50) by (apply Zdigits2_le_of_lt; lia).
  destruct (float_of_int_value t ltac:(lia) ltac:(lia)) as (y & Hy & Sy & My & Vy).
  apply (SFmag_weaken _ 50) in My; [|exact Hdt].
  unfold Py.mul_float_int. rewrite Hy. cbn [rbind]. unfold Py.int.
  rewrite mul_SFmul, div_100_SFdiv.
  set (r := SFdiv prec emax (Prim2SF p) (S754_finite false 7036874417766400 (-46))).
  assert (Sr : SFsign false r) by (apply (SFdiv_sign false); exact Sp).
  assert (Mr : SFmag 2 r) by (apply (SFdiv_mag 7 1); [exact Mp|simpl; lia|lia]).
  (* the ratio *)
  assert (HP : exists P, Spec.exact p = Some P
                 /\ (P / 100 - Qpower 2 (-52) <= SFvalue r)%Q
                 /\ (SFvalue r <= P / 100 + Qpower 2 (-52))%Q).
  { unfold Spec.exact, r.
    destruct (Prim2SF p) as [s|s| |s mp ep]; cbn [SFsign SFmag] in Sp, Mp;
      try contradiction.
    - exists 0%Q. split; [reflexivity|]. cbn [SFdiv SFvalue].
      pose proof (pow2_pos (-52)). setoid_replace (0 / 100)%Q with 0%Q using relation Qeq by reflexivity.
      split; lra.
    - subst s. eexists. split; [reflexivity|]. cbn [cond_Zopp].
      apply ratio_error. exact Mp. }
  destruct HP as (P & HP & R1 & R2).
  (* the product *)
  pose proof (SFmul_error r (Prim2SF y) 2 50 Sr Sy Mr My ltac:(lia)) as [M1 M2].
  change (Z.max (2 + 50 - 53) (-1074)) with (-1) in M1, M2.
  set (x := SFmul prec emax r (Prim2SF y)) in *.
  assert (Sx : SFsign false x) by (apply (SFmul_sign false false); assumption).
  assert (Mx : SFmag 53 x) by (apply (SFmul_mag 2 50 52); [assumption|assumption|lia|lia]).
  destruct (int_of_mag 53 x Mx) as [b Hb].
  exists b, P. split; [exact Hb|]. split; [exact HP|].
  rewrite (int_of_spec_float_floor x b Sx Hb). unfold Spec.floor_percent_of.
  rewrite Vy in M1, M2.
  assert (T0 : (0 <= inject_Z t)%Q).
  { change 0%Q with (inject_Z 0). rewrite <- Zle_Qle. lia. }
  assert (T1 : (inject_Z t <= inject_Z (2 ^ 50))%Q) by (rewrite <- Zle_Qle; lia).
  assert (D1 : ((P / 100 - Qpower 2 (-52)) * inject_Z t <= SFvalue r * inject_Z t)%Q)
    by (apply Qmult_le_compat_r; assumption).
  assert (D2 : (SFvalue r * inject_Z t <= (P / 100 + Qpower 2 (-52)) * inject_Z t)%Q)
    by (apply Qmult_le_compat_r; assumption).
  assert (D3 : (Qpower 2 (-52) * inject_Z t <= Qpower 2 (-52) * inject_Z (2 ^ 50))%Q).
  { rewrite !(Qmult_comm (Qpower 2 (-52))).
    apply Qmult_le_compat_r; [exact T1|]. apply Qlt_le_weak, pow2_pos. }
  assert (E4 : (Qpower 2 (-52) * inject_Z (2 ^ 50) == 1 # 4)%Q) by reflexivity.
  assert (E2 : (Qpower 2 (-1) == 1 # 2)%Q) by reflexivity.
  rewrite E4 in D3. rewrite E2 in M1, M2.
  apply floor_within_one; lra.
Qed.

(** A percent the float comparisons put within [0, 100] denotes a
    rational within [0, 100]. *)
Lemma percent_in_range_exact (p : float) :
  (0 <=? p)%float = true -> (p <=? 100)%float = true ->
  exists P, Spec.exact p = Some P /\ (0 <= P)%Q /\ (P <= 100)%Q.
Proof.
  intros H0 H100. pose proof (leb_zero_sign p H0) as Sp.
  pose proof (Prim2SF_valid p) as Hv. unfold Spec.exact.
  rewrite leb_spec in H100. change (Prim2SF 100) with (S754_finite false 7036874417766400 (-46)) in H100.
  destruct (Prim2SF p) as [s|s| |s m e]; cbn [SFsign] in Sp; try discriminate H100.
  - exists 0%Q. split; [reflexivity|]. split; lra.
  - subst s. discriminate H100.
  - subst s. eexists. split; [reflexivity|]. cbn [cond_Zopp].
    apply valid_finite_digits in Hv.
    pose proof (Zdigits2_lt_pow (Zpos m) ltac:(lia)) as Hm.
    assert (Hm53 : Zpos m < 2 ^ 53).
    { assert (2 ^ Zdigits2 (Zpos m) <= 2 ^ 53) by (apply Z.pow_le_mono_r; lia). lia. }
    pose proof (pow2_pos e) as He.
    assert (Hm0 : (0 <= inject_Z (Zpos m))%Q).
    { change 0%Q with (inject_Z 0). rewrite <- Zle_Qle. lia. }
    split; [apply Qmult_le_0_compat; [exact Hm0|lra]|].
    unfold SFleb, SFcompare in H100.
    destruct (Z.compare_spec e (-46)) as [Heq|Hlt|Hgt]; [| |discriminate H100].
    + rewrite Heq. assert (Hle : (Zpos m <= 7036874417766400)%Z).
      { change (Zpos m <= Zpos 7036874417766400)%Z. apply Pos2Z.pos_le_pos.
        rewrite Pos.compare_cont_spec in H100. cbn [Pos.switch_Eq] in H100.
        apply Pos.compare_le_iff. intros Hc. rewrite Hc in H100. discriminate H100. }
      apply (Qle_trans _ (inject_Z 7036874417766400 * Qpower 2 (-46))%Q);
        [apply scaled_le; exact Hle|]. apply Qle_lteq. right. reflexivity.
    + apply (Qle_trans _ (inject_Z (2 ^ 53) * Qpower 2 e)%Q);
        [apply scaled_le; lia|].
      apply (Qle_trans _ (inject_Z (2 ^ 53) * Qpower 2 (-47))%Q).
      * rewrite !(Qmult_comm (inject_Z (2 ^ 53))).
        apply Qmult_le_compat_r; [apply pow2_le; lia|discriminate].
      * discriminate.
Qed.

Lemma clamp_in_range (P : Q) : (0 <= P)%Q -> (P <= 100)%Q -> Spec.clamp P 0 100 = P.
Proof.
  intros H0 H1. unfold Spec.clamp.
  apply Qle_bool_iff in H0, H1. rewrite H0, H1. reflexivity.
Qed.

(** The code against the specification's [percent_to_bytes]: within one
    byte, for percents within [0, 100] and totals below [2^50] bytes. *)
Lemma int_percent_near_spec (p : float) (t : Z) :
  (0 <=? p)%float = true -> (p <=? 100)%float = true -> 0 <= t < 2 ^ 50 ->
  exists b P,
    (let? x := Py.mul_float_int (p / 100) t in Py.int x) = Ok b
    /\ Spec.exact p = Some P
    /\ Spec.percent_to_bytes P t - 1 <= b <= Spec.percent_to_bytes P t + 1.
Proof.
  intros H0 H100 Ht.
  destruct (int_percent_near_exact p t H0 H100 Ht) as (b & P & Hb & HP & Hnear).
  destruct (percent_in_range_exact p H0 H100) as (P' & HP' & L0 & L100).
  rewrite HP in HP'. injection HP' as <-.
  exists b, P. split; [exact Hb|]. split; [exact HP|].
  unfold Spec.percent_to_bytes. rewrite (clamp_in_range P L0 L100). exact Hnear.
Qed.

(** * Examples of the Python operations *)

Example int_examples :
  Py.int 12.7 = Ok 12 /\ Py.int (-12.7) = Ok (-12) /\ Py.floor (-12.7) = Ok (-13)
  /\ Py.int infinity = Raise OverflowError /\ Py.int nan = Raise ValueError.
Proof. repeat split; reflexivity. Qed.

Example truediv_examples :
  Py.truediv_int 1 3 = Ok (1 / 3)%float
  /\ Py.truediv_int 5 0 = Raise ZeroDivisionError
  /\ Py.float_of_int (2 ^ 53 + 3) = Ok 9007199254740996%float.
Proof. repeat split; reflexivity. Qed.

(** Values CPython gives for the same expressions. *)
Example big_int_examples :
  Py.truediv_int 1152921504606846977 3 = Ok 3.843071682022823e+17%float
  /\ Py.truediv_int (-7) 2 = Ok (-3.5)%float
  /\ Py.float_of_int 18446744073709551615 = Ok 1.8446744073709552e+19%float
  /\ Py.float_of_int (2 ^ 1024) = Raise OverflowError
  /\ Py.int 1e+22 = Ok 10000000000000000000000.
Proof. repeat split; reflexivity. Qed.

(** Float rounding is part of the result: 29 percent of 100 bytes is 28,
    as its floor in the same arithmetic is. *)
Example rounding_example :
  _get_capacity_bytes false (box 29) (box 0) 100 = Ok 28
  /\ floor_of_float_product 29 100 = Ok 28.
Proof. split; reflexivity. Qed.

(** * Capacity resolution *)

Lemma get_capacity_bytes_unfold (e : bool) (d o : float) (t : Z) :
  _get_capacity_bytes e (box d) (box o) t
  = (let? x := Py.mul_float_int ((if e then o else d) / 100) t in Py.int x).
Proof. destruct e; reflexivity. Qed.

Lemma box_spin_value (b : QDoubleSpinBox) : box (spin_value b) = b.
Proof. destruct b; reflexivity. Qed.

(** C1, as stated, fails: the capacity is computed in binary64, so 29
    percent of a pool of 100 bytes resolves to 28 bytes where
    [floor(29/100 × 100)] is 29, and 100 percent of a pool of [2^64 - 1]
    bytes resolves to [2^64] bytes. *)
Lemma C1_counterexample :
  _get_capacity_bytes false (box 29) (box 0) 100 = Ok 28
  /\ option_map (fun d => Spec.floor_percent_of d 100) (Spec.exact 29) = Some 29
  /\ _get_capacity_bytes true (box 0) (box 100) (2 ^ 64 - 1) = Ok (2 ^ 64)
  /\ option_map (fun o => Spec.floor_percent_of o (2 ^ 64 - 1)) (Spec.exact 100)
     = Some (2 ^ 64 - 1).
Proof. repeat split; vm_compute; reflexivity. Qed.

(** C1, amended.  Scope resolution: the effective capacity is computed
    from the override percent when the override is enabled and from the
    default percent when it is not, as [int(p / 100.0 * t)] in binary64
    arithmetic; for a percent and a pool total that are not negative this
    is the floor of the rounded product, not of the exact one.  For
    percents within [0, 100] and a [u64] total the computation returns,
    and for a total below [2^50] bytes what it returns is within one byte
    of what the specification's resolution rule gives in exact
    arithmetic.  With [d = 50], [o = 90] and [t = 1000] it is 500 bytes
    with the override disabled and 900 bytes with it enabled, as the
    resolution rule gives. *)
Theorem C1_capacity_scope_resolution (e : bool) (d o : float) (t : Z) :
  (0 <=? d)%float = true -> (0 <=? o)%float = true -> 0 <= t ->
  _get_capacity_bytes e (box d) (box o) t
  = (let? x := Py.mul_float_int ((if e then o else d) / 100) t in Py.int x)
  /\ _get_capacity_bytes e (box d) (box o) t
     = floor_of_float_product (if e then o else d) t
  /\ ((d <=? 100)%float = true -> (o <=? 100)%float = true -> is_u64 t ->
      returns (_get_capacity_bytes e (box d) (box o) t))
  /\ ((d <=? 100)%float = true -> (o <=? 100)%float = true -> t < 2 ^ 50 ->
      exists b D O,
        _get_capacity_bytes e (box d) (box o) t = Ok b
        /\ Spec.exact d = Some D /\ Spec.exact o = Some O
        /\ Spec.get_effective_capacity e (Some O) D t - 1 <= b
           <= Spec.get_effective_capacity e (Some O) D t + 1)
  /\ (_get_capacity_bytes false (box 50) (box 90) 1000 = Ok 500
      /\ Spec.get_effective_capacity false (Some 90%Q) 50 1000 = 500)
  /\ (_get_capacity_bytes true (box 50) (box 90) 1000 = Ok 900
      /\ Spec.get_effective_capacity true (Some 90%Q) 50 1000 = 900).
Proof.
  intros Hd Ho Ht.
  assert (Hp : (0 <=? (if e then o else d))%float = true) by (destruct e; assumption).
  split; [apply get_capacity_bytes_unfold|].
  split.
  { rewrite get_capacity_bytes_unfold.
    apply int_percent_is_floor; [apply leb_zero_sign; exact Hp|exact Ht]. }
  split; [|split; [|split; split; reflexivity]].
  - intros Hd' Ho' Hu.
    assert (Hp' : ((if e then o else d) <=? 100)%float = true) by (destruct e; assumption).
    rewrite get_capacity_bytes_unfold.
    apply int_percent_returns; [apply percent_in_range_mag; assumption|exact Hu].
  - intros Hd' Ho' Hu.
    destruct (percent_in_range_exact d Hd Hd') as (D & HD & _).
    destruct (percent_in_range_exact o Ho Ho') as (O & HO & _).
    assert (Hp' : ((if e then o else d) <=? 100)%float = true) by (destruct e; assumption).
    destruct (int_percent_near_spec _ t Hp Hp' ltac:(lia)) as (b & P & Hb & HP & Hnear).
    exists b, D, O. rewrite get_capacity_bytes_unfold.
    split; [exact Hb|]. split; [exact HD|]. split; [exact HO|].
    unfold Spec.get_effective_capacity.
    destruct e; [rewrite HO in HP|rewrite HD in HP]; injection HP as <-; exact Hnear.
Qed.

Lemma C1_witness :
  _get_capacity_bytes true (box 50) (box 90) 1000 = floor_of_float_product 90 1000.
Proof.
  refine (proj1 (proj2 (C1_capacity_scope_resolution true 50 90 1000 _ _ _)));
    [reflexivity|reflexivity|lia].
Defined.

Lemma get_gpu_capacity_bytes_run (self : ImageCachePrefsLayout) (w : World) :
  get_gpu_capacity_bytes self w
  = queried_live lib.get_gpu_memory_total_bytes
      (let? x := Py.mul_float_int (resolved_gpu_percent self / 100)
                   (image_cache w lib.get_gpu_memory_total_bytes) in Py.int x) w.
Proof.
  unfold get_gpu_capacity_bytes, resolved_gpu_percent, _get_capacity_bytes, bind, call,
    lift, queried_live.
  destruct (imageCacheSceneSettings_groupBox self);
    match goal with |- context [rbind ?r ?k] => destruct (rbind r k) end; reflexivity.
Qed.

Lemma get_cpu_capacity_bytes_run (self : ImageCachePrefsLayout) (w : World) :
  get_cpu_capacity_bytes self w
  = queried_live lib.get_cpu_memory_total_bytes
      (let? x := Py.mul_float_int (resolved_cpu_percent self / 100)
                   (image_cache w lib.get_cpu_memory_total_bytes) in Py.int x) w.
Proof.
  unfold get_cpu_capacity_bytes, resolved_cpu_percent, _get_capacity_bytes, bind, call,
    lift, queried_live.
  destruct (imageCacheSceneSettings_groupBox self);
    match goal with |- context [rbind ?r ?k] => destruct (rbind r k) end; reflexivity.
Qed.

Lemma capacity_value_of_run (q : lib.query) (p : float) (w : World) :
  capacity_value_of q p w
  = queried_live q
      (let? b := (let? x := Py.mul_float_int (p / 100) (image_cache w q) in Py.int x) in
       Ok {| size_bytes := b; percent := p |}) w.
Proof.
  unfold capacity_value_of, bind, call, lift, ret, queried_live.
  rewrite mul_int_float_comm.
  destruct (let? x := Py.mul_float_int (p / 100) (image_cache w q) in Py.int x);
    reflexivity.
Qed.

(** C6, as stated, fails: the total is asked live on every call, but what
    comes back is computed in binary64; at 29 percent the two calls return
    28 of 100 bytes and 57 of 200 bytes, where [floor(29/100 × t)] is 29
    and 58. *)
Lemma C6_counterexample :
  value (get_gpu_capacity_bytes (sample_layout_with false 29 0)
           (sample_world_with 100 None ∅)) = Ok 28
  /\ value (get_gpu_capacity_bytes (sample_layout_with false 29 0)
              (sample_world_with 200 None ∅)) = Ok 57
  /\ option_map (fun p => (Spec.floor_percent_of p 100, Spec.floor_percent_of p 200))
       (Spec.exact 29) = Some (29, 58).
Proof. repeat split; vm_compute; reflexivity. Qed.

(** C6, amended.  The pool total is asked from the library on every
    resolution and never kept: with a resolved percent above zero, a call
    of [get_gpu_capacity_bytes] (resp. [get_cpu_capacity_bytes]) made while
    the library reports the total [t1] returns [int(p / 100.0 * t1)] and a
    call made while it reports [t2] returns [int(p / 100.0 * t2)], each
    after one query and without changing the world; in binary64 arithmetic
    that is the floor of the rounded product.  The same holds for the tail
    of the four percent getters.  With the percents at most 100 and [u64]
    totals all four calls return, and for totals below [2^50] bytes what
    each returns is within one byte of the exact [floor(p/100 × t)]. *)
Theorem C6_pool_total_queried_live (self : ImageCachePrefsLayout) (w1 w2 : World) :
  let gpu := lib.get_gpu_memory_total_bytes in
  let cpu := lib.get_cpu_memory_total_bytes in
  let pg := resolved_gpu_percent self in
  let pc := resolved_cpu_percent self in
  (0 <? pg)%float = true -> (0 <? pc)%float = true ->
  0 <= image_cache w1 gpu -> 0 <= image_cache w2 gpu ->
  0 <= image_cache w1 cpu -> 0 <= image_cache w2 cpu ->
  (get_gpu_capacity_bytes self w1
     = queried_live gpu (floor_of_float_product pg (image_cache w1 gpu)) w1
   /\ get_gpu_capacity_bytes self w2
     = queried_live gpu (floor_of_float_product pg (image_cache w2 gpu)) w2)
  /\ (get_cpu_capacity_bytes self w1
        = queried_live cpu (floor_of_float_product pc (image_cache w1 cpu)) w1
      /\ get_cpu_capacity_bytes self w2
        = queried_live cpu (floor_of_float_product pc (image_cache w2 cpu)) w2)
  /\ (forall q, 0 <= image_cache w1 q -> 0 <= image_cache w2 q ->
        capacity_value_of q pg w1
          = queried_live q (floor_capacity_value pg (image_cache w1 q)) w1
        /\ capacity_value_of q pg w2
          = queried_live q (floor_capacity_value pg (image_cache w2 q)) w2)
  /\ ((pg <=? 100)%float = true -> (pc <=? 100)%float = true ->
      (forall q, is_u64 (image_cache w1 q) /\ is_u64 (image_cache w2 q)) ->
      (returns (value (get_gpu_capacity_bytes self w1))
       /\ returns (value (get_gpu_capacity_bytes self w2)))
      /\ (returns (value (get_cpu_capacity_bytes self w1))
          /\ returns (value (get_cpu_capacity_bytes self w2))))
  /\ ((pg <=? 100)%float = true ->
      image_cache w1 gpu < 2 ^ 50 -> image_cache w2 gpu < 2 ^ 50 ->
      exists b1 b2 P,
        value (get_gpu_capacity_bytes self w1) = Ok b1
        /\ value (get_gpu_capacity_bytes self w2) = Ok b2
        /\ Spec.exact pg = Some P
        /\ Spec.floor_percent_of P (image_cache w1 gpu) - 1 <= b1
           <= Spec.floor_percent_of P (image_cache w1 gpu) + 1
        /\ Spec.floor_percent_of P (image_cache w2 gpu) - 1 <= b2
           <= Spec.floor_percent_of P (image_cache w2 gpu) + 1)
  /\ ((pc <=? 100)%float = true ->
      image_cache w1 cpu < 2 ^ 50 -> image_cache w2 cpu < 2 ^ 50 ->
      exists b1 b2 P,
        value (get_cpu_capacity_bytes self w1) = Ok b1
        /\ value (get_cpu_capacity_bytes self w2) = Ok b2
        /\ Spec.exact pc = Some P
        /\ Spec.floor_percent_of P (image_cache w1 cpu) - 1 <= b1
           <= Spec.floor_percent_of P (image_cache w1 cpu) + 1
        /\ Spec.floor_percent_of P (image_cache w2 cpu) - 1 <= b2
           <= Spec.floor_percent_of P (image_cache w2 cpu) + 1).
Proof.
  intros gpu cpu pg pc Hpg Hpc G1 G2 C1 C2.
  pose proof (ltb_zero_sign pg Hpg) as Sg. pose proof (ltb_zero_sign pc Hpc) as Sc.
  assert (Hnear : forall (p : float) (q : lib.query),
            (0 <? p)%float = true -> (p <=? 100)%float = true ->
            0 <= image_cache w1 q < 2 ^ 50 -> 0 <= image_cache w2 q < 2 ^ 50 ->
            exists b1 b2 P,
              value (queried_live q
                       (let? x := Py.mul_float_int (p / 100) (image_cache w1 q) in
                        Py.int x) w1) = Ok b1
              /\ value (queried_live q
                          (let? x := Py.mul_float_int (p / 100) (image_cache w2 q) in
                           Py.int x) w2) = Ok b2
              /\ Spec.exact p = Some P
              /\ Spec.floor_percent_of P (image_cache w1 q) - 1 <= b1
                 <= Spec.floor_percent_of P (image_cache w1 q) + 1
              /\ Spec.floor_percent_of P (image_cache w2 q) - 1 <= b2
                 <= Spec.floor_percent_of P (image_cache w2 q) + 1).
  { intros p q Hp Hp' Q1 Q2. pose proof (ltb_leb_zero p Hp) as Hp0.
    destruct (int_percent_near_exact p _ Hp0 Hp' Q1) as (b1 & P & Hb1 & HP & N1).
    destruct (int_percent_near_exact p _ Hp0 Hp' Q2) as (b2 & P' & Hb2 & HP' & N2).
    rewrite HP in HP'. injection HP' as <-.
    exists b1, b2, P. rewrite Hb1, Hb2. repeat split; first [assumption|apply N1|apply N2]. }
  split; [split|split; [split|split; [|split; [|split]]]].
  - rewrite get_gpu_capacity_bytes_run. fold pg. now rewrite int_percent_is_floor.
  - rewrite get_gpu_capacity_bytes_run. fold pg. now rewrite int_percent_is_floor.
  - rewrite get_cpu_capacity_bytes_run. fold pc. now rewrite int_percent_is_floor.
  - rewrite get_cpu_capacity_bytes_run. fold pc. now rewrite int_percent_is_floor.
  - intros q Q1 Q2. unfold floor_capacity_value. split;
      rewrite capacity_value_of_run; now rewrite int_percent_is_floor.
  - intros Lg Lc Hu.
    assert (Hmg : SFmag 7 (Prim2SF pg))
      by (apply (leb_finite_mag pg 7036874417766400 (-46) 100 eq_refl Sg); assumption).
    assert (Hmc : SFmag 7 (Prim2SF pc))
      by (apply (leb_finite_mag pc 7036874417766400 (-46) 100 eq_refl Sc); assumption).
    assert (Hret : forall (p : float) (q : lib.query) (w : World),
              SFmag 7 (Prim2SF p) -> is_u64 (image_cache w q) ->
              returns (value (queried_live q
                                (let? x := Py.mul_float_int (p / 100) (image_cache w q) in
                                 Py.int x) w))).
    { intros p q w Hm Hq. destruct (int_percent_returns p _ Hm Hq) as [b Hb].
      rewrite Hb. exists b. reflexivity. }
    rewrite !get_gpu_capacity_bytes_run, !get_cpu_capacity_bytes_run. fold pg pc.
    repeat split; apply Hret; try assumption; apply Hu.
  - intros Lg T1 T2. rewrite !get_gpu_capacity_bytes_run. fold pg.
    apply (Hnear pg gpu Hpg Lg); split; assumption.
  - intros Lc T1 T2. rewrite !get_cpu_capacity_bytes_run. fold pc.
    apply (Hnear pc cpu Hpc Lc); split; assumption.
Qed.

Lemma C6_witness :
  get_gpu_capacity_bytes (sample_layout_with false 50 90) (sample_world_with 1000 None ∅)
    = Ok (500, sample_world_with 1000 None ∅, [EvLib lib.get_gpu_memory_total_bytes])
  /\ get_gpu_capacity_bytes (sample_layout_with false 50 90) (sample_world_with 2000 None ∅)
    = Ok (1000, sample_world_with 2000 None ∅, [EvLib lib.get_gpu_memory_total_bytes]).
Proof.
  apply (C6_pool_total_queried_live (sample_layout_with false 50 90)
           (sample_world_with 1000 None ∅) (sample_world_with 2000 None ∅));
    first [reflexivity | simpl; lia].
Defined.

(** * Defaults *)

Lemma zero_percent_of (t : Z) :
  is_u64 t -> (let? x := Py.mul_float_int (0 / 100) t in Py.int x) = Ok 0.
Proof.
  intros Ht.
  destruct (float_of_int_mag t 64 (is_u64_digits t Ht) ltac:(lia)) as (y & Hy & Hm).
  unfold Py.mul_float_int. rewrite Hy. simpl rbind. unfold Py.int.
  rewrite float_mul_comm, mul_SFmul.
  change (Prim2SF (0 / 100)) with (S754_zero false).
  destruct (Prim2SF y); simpl in Hm; try contradiction; reflexivity.
Qed.

Lemma get_config_value_unset (config : option config_utils.Config)
    (key : string) (fallback : PyValue) :
  (forall cfg, config = Some cfg -> config_utils.values cfg !! key = None) ->
  get_config_value config key fallback = fallback.
Proof.
  intros H. destruct config as [cfg|]; [|reflexivity].
  unfold get_config_value, config_utils.get_value. now rewrite (H cfg eq_refl).
Qed.

Lemma bind_get_config_absent {A} (k : config_utils.Config -> M A) (w : World) :
  config_file w = None -> bind get_config k w = k config_utils.empty w.
Proof.
  intros H. unfold bind, get_config, config_utils.read_if_file. rewrite H.
  destruct (k config_utils.empty w) as [[[a w'] t]|]; reflexivity.
Qed.

(** C7. With the default capacity percent key unset (no such key in the
    configuration, or no configuration at all, as when the file is absent),
    [get_gpu_cache_capacity_percent_default] and
    [get_cpu_cache_capacity_percent_default] return the built-in percent
    [0.0] and a size of 0 bytes, whatever [u64] total the pool reports. *)
Theorem C7_default_percent_lazily_defaulted
    (c : Constants) (config : option config_utils.Config) (w : World) :
  let gpu := lib.get_gpu_memory_total_bytes in
  let cpu := lib.get_cpu_memory_total_bytes in
  let zero := {| size_bytes := 0; percent := 0 |} in
  (forall cfg, config = Some cfg ->
     config_utils.values cfg !! CONFIG_GPU_CAPACITY_PERCENT_KEY c = None
     /\ config_utils.values cfg !! CONFIG_CPU_CAPACITY_PERCENT_KEY c = None) ->
  is_u64 (image_cache w gpu) -> is_u64 (image_cache w cpu) ->
  get_gpu_cache_capacity_percent_default c config None w = queried_live gpu (Ok zero) w
  /\ get_cpu_cache_capacity_percent_default c config None w = queried_live cpu (Ok zero) w
  /\ (config_file w = None ->
      (let* cfg := get_config in
       get_gpu_cache_capacity_percent_default c (Some cfg) None) w
        = queried_live gpu (Ok zero) w
      /\ (let* cfg := get_config in
          get_cpu_cache_capacity_percent_default c (Some cfg) None) w
        = queried_live cpu (Ok zero) w).
Proof.
  intros gpu cpu zero Hunset Hg Hc.
  assert (G : forall config', (forall cfg, config' = Some cfg ->
               config_utils.values cfg !! CONFIG_GPU_CAPACITY_PERCENT_KEY c = None) ->
             get_gpu_cache_capacity_percent_default c config' None w
             = queried_live gpu (Ok zero) w).
  { intros config' H. unfold get_gpu_cache_capacity_percent_default, bind, lift.
    rewrite get_config_value_unset by exact H. simpl.
    rewrite capacity_value_of_run, zero_percent_of by exact Hg. reflexivity. }
  assert (C : forall config', (forall cfg, config' = Some cfg ->
               config_utils.values cfg !! CONFIG_CPU_CAPACITY_PERCENT_KEY c = None) ->
             get_cpu_cache_capacity_percent_default c config' None w
             = queried_live cpu (Ok zero) w).
  { intros config' H. unfold get_cpu_cache_capacity_percent_default, bind, lift.
    rewrite get_config_value_unset by exact H. simpl.
    rewrite capacity_value_of_run, zero_percent_of by exact Hc. reflexivity. }
  split; [apply G; intros cfg E; apply (Hunset cfg E)|].
  split; [apply C; intros cfg E; apply (Hunset cfg E)|].
  intros Hfile. rewrite !bind_get_config_absent by exact Hfile.
  rewrite G, C by (intros cfg E; injection E as <-; reflexivity).
  split; reflexivity.
Qed.

Lemma C7_witness :
  get_gpu_cache_capacity_percent_default sample_const None None (sample_world None ∅)
  = Ok ({| size_bytes := 0; percent := 0 |}, sample_world None ∅,
        [EvLib lib.get_gpu_memory_total_bytes]).
Proof.
  refine (proj1 (C7_default_percent_lazily_defaulted sample_const None
                   (sample_world None ∅) _ _ _)).
  - intros cfg E. discriminate E.
  - unfold is_u64. cbn. lia.
  - unfold is_u64. cbn. lia.
Defined.

(** * Percents outside [0, 100] *)

(** C2, as stated, fails: a stored percent of 150 is not clamped; with a
    pool total of 1000 bytes the getter answers 1500 bytes, above the pool
    total, where the clamped formula gives 1000, and a negative percent
    gives a negative capacity. *)
Lemma C2_counterexample :
  value (get_gpu_cache_capacity_percent_default sample_const
           (Some {| config_utils.values := {[ "gpu_capacity_percent" := PyFloat 150 ]} |})
           None (sample_world None ∅))
    = Ok {| size_bytes := 1500; percent := 150 |}
  /\ image_cache (sample_world None ∅) lib.get_gpu_memory_total_bytes = 1000
  /\ ~ (0 <= 1500 <= 1000)
  /\ option_map (fun p => Spec.percent_to_bytes p 1000) (Spec.exact 150) = Some 1000
  /\ _get_capacity_bytes false (box 150) (box 0) 1000 = Ok 1500
  /\ _get_capacity_bytes false (box (-50)) (box 0) 1000 = Ok (-500).
Proof. repeat split; try (vm_compute; reflexivity). lia. Qed.

Lemma int_percent_returns_finite (p : float) (t : Z) :
  SFmag 900 (Prim2SF p) -> is_u64 t ->
  returns (let? x := Py.mul_float_int (p / 100) t in Py.int x).
Proof.
  intros Hp Ht.
  destruct (float_of_int_mag t 64 (is_u64_digits t Ht) ltac:(lia)) as (y & Hy & Hm).
  assert (Hr : SFmag 895 (Prim2SF (p / 100)%float)).
  { rewrite div_100_SFdiv. apply (SFdiv_mag 900 894); [exact Hp|simpl; lia|lia]. }
  unfold Py.mul_float_int. rewrite Hy. simpl. apply (int_of_mag 963).
  rewrite mul_SFmul. apply (SFmul_mag 895 67 962); [exact Hr|exact Hm|lia|lia].
Qed.

Lemma int_percent_rejects (p : float) (t : Z) :
  ~ is_finite_float p ->
  exists e, (let? x := Py.mul_float_int (p / 100) t in Py.int x) = Raise e.
Proof.
  unfold is_finite_float. intros Hp. unfold Py.mul_float_int.
  destruct (Py.float_of_int t) as [y|e]; simpl; [|eexists; reflexivity].
  unfold Py.int. rewrite mul_SFmul, div_100_SFdiv.
  destruct (Prim2SF p) as [s|s| |s m e]; try (exfalso; apply Hp; exact I);
    simpl SFdiv; destruct (Prim2SF y); simpl; eexists; reflexivity.
Qed.

(** C2, amended.  The conversion does not clamp: the getter computes
    [int(p / 100.0 * total)] from the stored percent [p] as it is and,
    when that succeeds, hands [p] back unchanged, so that outside [0, 100]
    the capacity can fall outside [0, pool total].  It succeeds for every
    finite [p] below [2 ^ 900] in magnitude and a [u64] total; a stored
    infinity or NaN it does reject: the getter raises.  For [p] within
    [0, 100] and a total below [2^50] bytes the capacity is within one
    byte of the specification's [percent_to_bytes(p, total)]. *)
Theorem C2_percent_applied_unclamped
    (c : Constants) (config : option config_utils.Config) (w : World) (p : float) :
  let gpu := lib.get_gpu_memory_total_bytes in
  let t := image_cache w gpu in
  get_config_value config (CONFIG_GPU_CAPACITY_PERCENT_KEY c) (PyFloat 0) = PyFloat p ->
  get_gpu_cache_capacity_percent_default c config None w
  = queried_live gpu
      (let? b := (let? x := Py.mul_float_int (p / 100) t in Py.int x) in
       Ok {| size_bytes := b; percent := p |}) w
  /\ (forall capacity,
        value (get_gpu_cache_capacity_percent_default c config None w) = Ok capacity ->
        percent capacity = p)
  /\ (SFmag 900 (Prim2SF p) -> is_u64 t ->
      returns (value (get_gpu_cache_capacity_percent_default c config None w)))
  /\ (~ is_finite_float p ->
      exists e, get_gpu_cache_capacity_percent_default c config None w = Raise e)
  /\ ((0 <=? p)%float = true -> (p <=? 100)%float = true -> 0 <= t < 2 ^ 50 ->
      exists capacity P,
        value (get_gpu_cache_capacity_percent_default c config None w) = Ok capacity
        /\ Spec.exact p = Some P
        /\ Spec.percent_to_bytes P t - 1 <= size_bytes capacity
           <= Spec.percent_to_bytes P t + 1).
Proof.
  intros gpu t Hcfg.
  assert (Hrun : get_gpu_cache_capacity_percent_default c config None w
                 = queried_live gpu
                     (let? b := (let? x := Py.mul_float_int (p / 100) t in Py.int x) in
                      Ok {| size_bytes := b; percent := p |}) w).
  { unfold get_gpu_cache_capacity_percent_default, bind, lift. simpl or_zero.
    rewrite Hcfg. simpl assert_float. cbv iota beta.
    rewrite capacity_value_of_run. fold gpu. fold t.
    destruct (let? x := Py.mul_float_int (p / 100) t in Py.int x); reflexivity. }
  split; [exact Hrun|]. rewrite Hrun. split; [|split; [|split]].
  - intros capacity.
    destruct (let? x := Py.mul_float_int (p / 100) t in Py.int x) as [b|e]; simpl;
      [|discriminate].
    intros H. injection H as <-. reflexivity.
  - intros Hm Hu. destruct (int_percent_returns_finite p t Hm Hu) as [b Hb].
    rewrite Hb. eexists. reflexivity.
  - intros Hp. destruct (int_percent_rejects p t Hp) as [e He].
    rewrite He. exists e. reflexivity.
  - intros H0 H100 Ht.
    destruct (int_percent_near_spec p t H0 H100 Ht) as (b & P & Hb & HP & Hnear).
    rewrite Hb. eexists. exists P. split; [reflexivity|]. split; [exact HP|exact Hnear].
Qed.

Lemma C2_witness :
  get_gpu_cache_capacity_percent_default sample_const
    (Some {| config_utils.values := {[ "gpu_capacity_percent" := PyFloat 50 ]} |})
    None (sample_world None ∅)
  = Ok ({| size_bytes := 500; percent := 50 |}, sample_world None ∅,
        [EvLib lib.get_gpu_memory_total_bytes]).
Proof.
  refine (proj1 (C2_percent_applied_unclamped sample_const
                   (Some {| config_utils.values :=
                              {[ "gpu_capacity_percent" := PyFloat 50 ]} |})
                   (sample_world None ∅) 50 _)).
  reflexivity.
Defined.

(** * The scene override flag *)

(** C3, as stated, fails: in a scene where the option has never been set
    the query answers [None], which is not a [bool]. *)
Lemma C3_counterexample :
  value (get_cache_scene_override sample_const (sample_world None ∅)) = Ok PyNone
  /\ forall b : bool, PyNone <> PyBool b.
Proof. split; [reflexivity|discriminate]. Qed.

Lemma get_cache_scene_override_run (c : Constants) (w : World) :
  get_cache_scene_override c w
  = match assert_none_or_bool
            (match scene_options w !! CONFIG_SCENE_CAPACITY_OVERRIDE_KEY c with
             | Some v => v
             | None => PyNone
             end) with
    | Ok v => Ok (v, w, [EvSceneGet (CONFIG_SCENE_CAPACITY_OVERRIDE_KEY c)])
    | Raise e => Raise e
    end.
Proof.
  unfold get_cache_scene_override, bind, configmaya.get_scene_option, lift.
  destruct (assert_none_or_bool _); reflexivity.
Qed.

Lemma set_cache_scene_override_run (c : Constants) (b : bool) (w : World) :
  set_cache_scene_override c (PyBool b) w
  = Ok (tt,
        {| config_file := config_file w;
           scene_options :=
             <[CONFIG_SCENE_CAPACITY_OVERRIDE_KEY c := PyBool b]> (scene_options w);
           image_cache := image_cache w |},
        [EvSceneSet (CONFIG_SCENE_CAPACITY_OVERRIDE_KEY c) (PyBool b)]).
Proof. reflexivity. Qed.

(** C3, amended.  The query answers [None] or a [bool]: [None] in a scene
    where the option has never been set (or holds [None]), the stored
    [bool] where one has been stored, and it raises [AssertionError] on any
    other stored value; right after [set_cache_scene_override(b)] it
    answers [b]. *)
Theorem C3_scene_override_is_none_or_bool (c : Constants) (w : World) :
  let key := CONFIG_SCENE_CAPACITY_OVERRIDE_KEY c in
  match scene_options w !! key with
  | None | Some PyNone => get_cache_scene_override c w = Ok (PyNone, w, [EvSceneGet key])
  | Some (PyBool b) => get_cache_scene_override c w = Ok (PyBool b, w, [EvSceneGet key])
  | Some _ => get_cache_scene_override c w = Raise AssertionError
  end
  /\ (forall v, value (get_cache_scene_override c w) = Ok v ->
        v = PyNone \/ exists b, v = PyBool b)
  /\ (forall b,
        value ((do* set_cache_scene_override c (PyBool b) in
                get_cache_scene_override c) w) = Ok (PyBool b)).
Proof.
  intros key. repeat split.
  - rewrite get_cache_scene_override_run. fold key.
    destruct (scene_options w !! key) as [[]|]; reflexivity.
  - intros v. rewrite get_cache_scene_override_run. fold key.
    destruct (scene_options w !! key) as [[| b | | |]|]; simpl; intros H;
      try discriminate; injection H as <-; eauto.
  - intros b. unfold bind. rewrite set_cache_scene_override_run.
    rewrite get_cache_scene_override_run. cbn [scene_options].
    rewrite lookup_insert_eq. reflexivity.
Qed.

(** * Writing options *)

Lemma save_options_run (c : Constants) (self : ImageCachePrefsLayout) (w : World) :
  save_options c self w
  = Ok (tt,
        {| config_file := Some (saved_config c self (config_file w));
           scene_options := saved_scene c self (scene_options w);
           image_cache := image_cache w |},
        save_events c self (config_file w)).
Proof.
  unfold save_options, saved_config, saved_scene, save_events, bind, get_config,
    config_utils.read_if_file.
  destruct (config_file w); destruct (imageCacheSceneSettings_groupBox self); reflexivity.
Qed.

Lemma save_events_no_lib (c : Constants) (self : ImageCachePrefsLayout)
    (old : option (gmap string PyValue)) :
  Forall (fun ev => is_lib_event ev = false) (save_events c self old).
Proof.
  unfold save_events.
  destruct old; destruct (imageCacheSceneSettings_groupBox self);
    repeat constructor.
Qed.

(** C5. Writing a capacity percent only updates the stored configuration:
    the two scene setters store the percent under their scene option and
    do nothing else, and [save_options] returns having written the
    configuration file and the scene options only; none of them calls the
    image cache library, and what the cache reports is unchanged, so no
    eviction and no resize is triggered. *)
Theorem C5_percent_writes_leave_cache_alone
    (c : Constants) (self : ImageCachePrefsLayout) (p : float) (w : World) :
  set_gpu_cache_capacity_percent_scene c p w
    = Ok (tt,
          {| config_file := config_file w;
             scene_options :=
               <[CONFIG_SCENE_GPU_CAPACITY_PERCENT_KEY c := PyFloat p]> (scene_options w);
             image_cache := image_cache w |},
          [EvSceneSet (CONFIG_SCENE_GPU_CAPACITY_PERCENT_KEY c) (PyFloat p)])
  /\ set_cpu_cache_capacity_percent_scene c p w
    = Ok (tt,
          {| config_file := config_file w;
             scene_options :=
               <[CONFIG_SCENE_CPU_CAPACITY_PERCENT_KEY c := PyFloat p]> (scene_options w);
             image_cache := image_cache w |},
          [EvSceneSet (CONFIG_SCENE_CPU_CAPACITY_PERCENT_KEY c) (PyFloat p)])
  /\ value (save_options c self w) = Ok tt
  /\ image_cache (world_after (save_options c self w) w) = image_cache w
  /\ Forall (fun ev => is_lib_event ev = false) (events (save_options c self w)).
Proof.
  rewrite save_options_run. repeat split; try reflexivity.
  apply save_events_no_lib.
Qed.

(** C4, as stated, fails for [save_options]: from stored override percents
    of 90 and 80 and a stored default of 12.5, opening the panel, ticking
    the override group box and saving stores 12 as the GPU override percent
    and 12 as the GPU default percent. *)
Lemma C4_counterexample :
  value (toggle_and_save sample_stored_world) = Ok tt
  /\ scene_options sample_stored_world !! "scene_gpu_capacity_percent"
     = Some (PyFloat 90)
  /\ scene_options (world_after (toggle_and_save sample_stored_world) sample_stored_world)
       !! "scene_gpu_capacity_percent" = Some (PyFloat 12)
  /\ (config_file sample_stored_world ≫= fun data => data !! "gpu_capacity_percent")
     = Some (PyFloat 12.5)
  /\ (config_file (world_after (toggle_and_save sample_stored_world) sample_stored_world)
        ≫= fun data => data !! "gpu_capacity_percent") = Some (PyFloat 12).
Proof. repeat split; vm_compute; reflexivity. Qed.

(** C4, amended.  Writing the flag alone ([set_cache_scene_override])
    changes neither the stored per-scene override percents nor the
    configuration file with the default percents.  [save_options] writes
    more than the flag: it always stores the values of the default spin
    boxes as the default percents, and with the override group box checked
    it stores the values of the scene spin boxes as the per-scene percents;
    with the group box unchecked the stored per-scene percents stay as they
    are, and resolution ignores them. *)
Theorem C4_override_flag_frame
    (c : Constants) (self : ImageCachePrefsLayout) (w : World) (b : bool) :
  scene_keys_distinct c ->
  let gk := CONFIG_SCENE_GPU_CAPACITY_PERCENT_KEY c in
  let ck := CONFIG_SCENE_CPU_CAPACITY_PERCENT_KEY c in
  let flagged := world_after (set_cache_scene_override c (PyBool b) w) w in
  let saved := world_after (save_options c self w) w in
  (value (set_cache_scene_override c (PyBool b) w) = Ok tt
   /\ scene_options flagged !! gk = scene_options w !! gk
   /\ scene_options flagged !! ck = scene_options w !! ck
   /\ config_file flagged = config_file w)
  /\ (imageCacheSceneSettings_groupBox self = false ->
      scene_options saved !! gk = scene_options w !! gk
      /\ scene_options saved !! ck = scene_options w !! ck)
  /\ (imageCacheSceneSettings_groupBox self = true ->
      scene_options saved !! gk
      = Some (PyFloat (spin_value
                         (double_spin_boxes self gpuCacheSceneCapacity_doubleSpinBox)))
      /\ scene_options saved !! ck
         = Some (PyFloat (spin_value
                            (double_spin_boxes self cpuCacheSceneCapacity_doubleSpinBox))))
  /\ config_file saved = Some (saved_config c self (config_file w))
  /\ (forall d o o' t,
        _get_capacity_bytes false (box d) (box o) t
        = _get_capacity_bytes false (box d) (box o') t).
Proof.
  intros (Hog & Hoc & Hgc) gk ck flagged saved.
  subst flagged saved. rewrite set_cache_scene_override_run, save_options_run.
  cbn [value world_after scene_options config_file]. unfold saved_scene.
  repeat split.
  - apply lookup_insert_ne. exact Hog.
  - apply lookup_insert_ne. exact Hoc.
  - rewrite H. apply lookup_insert_ne. exact Hog.
  - rewrite H. apply lookup_insert_ne. exact Hoc.
  - rewrite H. rewrite lookup_insert_ne by (intros E; apply Hgc; symmetry; exact E).
    apply lookup_insert_eq.
  - rewrite H. apply lookup_insert_eq.
Qed.

Lemma C4_witness :
  scene_options
    (world_after (save_options sample_const (sample_layout_with false 50 10)
                    sample_stored_world) sample_stored_world)
    !! "scene_gpu_capacity_percent"
  = scene_options sample_stored_world !! "scene_gpu_capacity_percent".
Proof.
  refine (proj1 (proj1 (proj2 (C4_override_flag_frame sample_const
                                 (sample_layout_with false 50 10)
                                 sample_stored_world false _)) eq_refl)).
  repeat split; discriminate.
Defined.

(** * Telemetry labels *)

Lemma float_of_int_not_zero_division (n : Z) :
  Py.float_of_int n <> Raise ZeroDivisionError.
Proof.
  unfold Py.float_of_int. destruct (binary_normalize prec emax n 0 false); discriminate.
Qed.

Lemma truediv_int_not_zero_division (a b : Z) :
  b <> 0 -> Py.truediv_int a b <> Raise ZeroDivisionError.
Proof.
  intros Hb. unfold Py.truediv_int. destruct (Z.eqb_spec b 0) as [E|_]; [contradiction|].
  destruct (SFdiv prec emax _ _); discriminate.
Qed.

Lemma spec_float_of_int_mag (a : Z) : SFmag (Zdigits2 a) (Py.spec_float_of_int a).
Proof. destruct a; simpl; [exact I|lia|lia]. Qed.

Lemma truediv_int_returns (a b : Z) :
  b <> 0 -> Zdigits2 a <= 1023 -> returns (Py.truediv_int a b).
Proof.
  intros Hb Ha. unfold Py.truediv_int. destruct (Z.eqb_spec b 0) as [E|_]; [contradiction|].
  pose proof (Zdigits2_nonneg a) as Hnn.
  assert (Hm : SFmag (Zdigits2 a + 1)
                 (SFdiv prec emax (Py.spec_float_of_int a) (Py.spec_float_of_int b))).
  { destruct b as [|q|q]; [contradiction| |]; simpl Py.spec_float_of_int;
      (apply (SFdiv_mag (Zdigits2 a) (Zdigits2 a)); [apply spec_float_of_int_mag| |lia]);
      assert (1 <= Zdigits2 (Zpos q)) by (simpl; lia); lia. }
  destruct (SFdiv prec emax _ _); simpl in Hm; try contradiction; eexists; reflexivity.
Qed.

Lemma truediv_int_num_not_zero_division (n : Z) (d : PyNum) :
  num_is_zero d = false -> truediv_int_num n d <> Raise ZeroDivisionError.
Proof.
  destruct d as [b|y]; simpl; intros Hd.
  - apply truediv_int_not_zero_division. apply Z.eqb_neq. exact Hd.
  - pose proof (float_of_int_not_zero_division n) as Hn.
    destruct (Py.float_of_int n) as [x|[]]; simpl; try discriminate; try contradiction.
    unfold Py.truediv_float. rewrite Hd. discriminate.
Qed.

Lemma truediv_int_num_returns (n : Z) (d : PyNum) :
  num_is_zero d = false -> Zdigits2 n <= 969 -> returns (truediv_int_num n d).
Proof.
  destruct d as [b|y]; simpl; intros Hd Hn.
  - apply truediv_int_returns; [apply Z.eqb_neq; exact Hd|lia].
  - pose proof (Zdigits2_nonneg n).
    destruct (float_of_int_mag n (Zdigits2 n) ltac:(lia) ltac:(lia)) as (x & Hx & _).
    rewrite Hx. simpl. unfold Py.truediv_float. rewrite Hd. eexists. reflexivity.
Qed.

Lemma gigabytes_of_not_zero_division (c : Constants) (n : Z) :
  num_is_zero (BYTES_TO_GIGABYTES c) = false ->
  gigabytes_of c n <> Raise ZeroDivisionError.
Proof.
  intros Hc. unfold gigabytes_of. destruct (0 <? n); [|discriminate].
  apply truediv_int_num_not_zero_division. exact Hc.
Qed.

Lemma gigabytes_of_returns (c : Constants) (n : Z) :
  num_is_zero (BYTES_TO_GIGABYTES c) = false -> n < 2 ^ 64 ->
  returns (gigabytes_of c n).
Proof.
  intros Hc Hn. unfold gigabytes_of. destruct (Z.ltb_spec 0 n); [|eexists; reflexivity].
  apply truediv_int_num_returns; [exact Hc|].
  pose proof (Zdigits2_le_of_lt n 64 ltac:(lia) ltac:(lia)). lia.
Qed.

Lemma used_percent_of_not_zero_division (used total : Z) :
  used_percent_of used total <> Raise ZeroDivisionError.
Proof.
  unfold used_percent_of.
  destruct (Z.ltb_spec 0 used); destruct (Z.ltb_spec 0 total); simpl; try discriminate.
  pose proof (truediv_int_not_zero_division used total ltac:(lia)) as Hq.
  destruct (Py.truediv_int used total) as [q|[]]; simpl; try discriminate; contradiction.
Qed.

Lemma used_percent_of_zero (used total : Z) :
  used <= 0 \/ total <= 0 -> used_percent_of used total = Ok 0%float.
Proof.
  intros H. unfold used_percent_of.
  destruct (Z.ltb_spec 0 used); destruct (Z.ltb_spec 0 total); simpl; try reflexivity; lia.
Qed.

Lemma used_percent_of_returns (used total : Z) :
  used < 2 ^ 64 -> returns (used_percent_of used total).
Proof.
  intros Hu. unfold used_percent_of.
  destruct (Z.ltb_spec 0 used); destruct (Z.ltb_spec 0 total); simpl;
    try (eexists; reflexivity).
  pose proof (Zdigits2_le_of_lt used 64 ltac:(lia) ltac:(lia)).
  destruct (truediv_int_returns used total ltac:(lia) ltac:(lia)) as [q Hq].
  rewrite Hq. eexists. reflexivity.
Qed.

(** C8. The two usage labels never divide by zero (with a conversion
    constant that is not zero): the percentage is the quotient
    [(used / total) * 100.0] only when used and total are both positive,
    and [0.0] whenever the total (or capacity) is zero or negative or the
    used bytes are not positive; so a pool of zero capacity is shown as
    0.0 percent, and for used byte counts below [2 ^ 64] the setters
    return. *)
Theorem C8_usage_labels_never_divide_by_zero
    (c : Constants) (label : QLabel) (used total : Z) :
  num_is_zero (BYTES_TO_GIGABYTES c) = false ->
  (set_memory_used_label c label used total <> Raise ZeroDivisionError
   /\ set_used_size_label c label used total <> Raise ZeroDivisionError)
  /\ (0 < used -> 0 < total ->
      used_percent_of used total
      = (let? q := Py.truediv_int used total in Ok (q * 100)%float))
  /\ (used <= 0 \/ total <= 0 ->
      used_percent_of used total = Ok 0%float
      /\ (used < 2 ^ 64 ->
          exists g,
            set_memory_used_label c label used total
              = Ok {| text := TextGBPercent g 0 |}
            /\ set_used_size_label c label used total
              = Ok {| text := TextGBPercent g 0 |}))
  /\ (used < 2 ^ 64 ->
      returns (set_memory_used_label c label used total)
      /\ returns (set_used_size_label c label used total)).
Proof.
  intros Hc.
  assert (Hsame : set_used_size_label c label used total
                  = set_memory_used_label c label used total) by reflexivity.
  rewrite Hsame.
  pose proof (gigabytes_of_not_zero_division c used Hc) as Hg.
  pose proof (used_percent_of_not_zero_division used total) as Hp.
  split; [|split; [|split]].
  - assert (H : set_memory_used_label c label used total <> Raise ZeroDivisionError).
    { unfold set_memory_used_label.
      destruct (gigabytes_of c used) as [g|[]]; simpl; try discriminate;
        try contradiction.
      destruct (used_percent_of used total) as [q|[]]; simpl; try discriminate;
        contradiction. }
    split; exact H.
  - intros Hu Ht. unfold used_percent_of.
    destruct (Z.ltb_spec 0 used); destruct (Z.ltb_spec 0 total); simpl;
      try reflexivity; lia.
  - intros Hz. split; [apply used_percent_of_zero; exact Hz|]. intros Hu.
    destruct (gigabytes_of_returns c used Hc Hu) as [g Hgo].
    exists g. unfold set_memory_used_label.
    rewrite Hgo, (used_percent_of_zero used total Hz). split; reflexivity.
  - intros Hu.
    destruct (gigabytes_of_returns c used Hc Hu) as [g Hgo].
    destruct (used_percent_of_returns used total Hu) as [q Hq].
    unfold set_memory_used_label. rewrite Hgo, Hq.
    split; eexists; reflexivity.
Qed.

Lemma C8_witness :
  set_used_size_label sample_const {| text := TextDesigner |} 5368709120 0
  <> Raise ZeroDivisionError.
Proof.
  refine (proj2 (proj1 (C8_usage_labels_never_divide_by_zero sample_const
                          {| text := TextDesigner |} 5368709120 0 _))).
  reflexivity.
Defined.

Example zero_capacity_label :
  set_used_size_label sample_const {| text := TextDesigner |} 5368709120 0
  = Ok {| text := TextGBPercent 5 0 |}
  /\ set_memory_used_label sample_const {| text := TextDesigner |} 250 1000
  = Ok {| text := TextGBPercent 2.3283064365386963e-07 25 |}.
Proof. split; reflexivity. Qed.

(** * Populating the capacity widgets *)

Lemma leb_zero_sign_neg (p : float) : (p <=? 0)%float = true -> SFsign true (Prim2SF p).
Proof.
  rewrite leb_spec. change (Prim2SF 0) with (S754_zero false).
  destruct (Prim2SF p) as [s|s| |s m e]; try (intros; exact I);
    destruct s; simpl; try discriminate; reflexivity.
Qed.

Lemma set_value_double_spin_box_run (b : QDoubleSpinBox) (p : float) (n : Z) :
  Py.int p = Ok n ->
  exists y, Py.float_of_int n = Ok y
            /\ set_value_double_spin_box b p = Ok {| spin_value := y |}.
Proof.
  intros Hn. destruct (float_of_int_of_int p n Hn) as [y Hy].
  exists y. split; [exact Hy|].
  unfold set_value_double_spin_box, spin_setValue_int. rewrite Hn. simpl. rewrite Hy.
  reflexivity.
Qed.

(** C10. [set_value_double_spin_box] hands [int(p)] to the spin box: for
    every float [p] that [int] accepts (every finite one) the box ends up
    holding [float(int(p))], the truncation of [p] toward zero: [floor(p)]
    for [p >= 0] and [-floor(-p)] for [p <= 0].  So [set_capacity_widgets],
    when its label and slider steps succeed, shows the floor of a percent
    that is not negative: 12.7 becomes 12.0. *)
Theorem C10_spin_box_truncates_percent (b : QDoubleSpinBox) (p : float) (n : Z) :
  Py.int p = Ok n ->
  (exists y, Py.float_of_int n = Ok y
             /\ set_value_double_spin_box b p = Ok {| spin_value := y |})
  /\ ((0 <=? p)%float = true -> Py.floor p = Ok n)
  /\ ((p <=? 0)%float = true -> Py.floor (- p) = Ok (- n))
  /\ (forall c remap label slider capacity_bytes label' slider',
        set_capacity_size_label c label capacity_bytes = Ok label' ->
        set_percent_slider remap slider p = Ok slider' ->
        exists y, Py.float_of_int n = Ok y
                  /\ set_capacity_widgets c remap label slider b capacity_bytes p
                     = Ok (label', slider', {| spin_value := y |}))
  /\ set_value_double_spin_box b 12.7 = Ok {| spin_value := 12 |}
  /\ set_value_double_spin_box b (-12.7) = Ok {| spin_value := -12 |}.
Proof.
  intros Hn. destruct (set_value_double_spin_box_run b p n Hn) as (y & Hy & Hset).
  split; [exists y; split; assumption|].
  split; [|split; [|split; [|split; reflexivity]]].
  - intros H0. unfold Py.floor. rewrite floor_eq_int_of_sign; [exact Hn|].
    apply leb_zero_sign. exact H0.
  - intros H0. unfold Py.floor. rewrite FloatAxioms.opp_spec.
    apply floor_opp_of_sign; [apply leb_zero_sign_neg; exact H0|exact Hn].
  - intros c remap label slider capacity_bytes label' slider' Hl Hs.
    exists y. split; [exact Hy|].
    unfold set_capacity_widgets. rewrite Hl. simpl. rewrite Hs. simpl. rewrite Hset.
    reflexivity.
Qed.

Lemma C10_witness :
  exists y, Py.float_of_int 12 = Ok y
            /\ set_value_double_spin_box (box 0) 12.7 = Ok {| spin_value := y |}.
Proof.
  refine (proj1 (C10_spin_box_truncates_percent (box 0) 12.7 12 _)). reflexivity.
Defined.

Example set_capacity_widgets_example :
  set_capacity_widgets sample_const remap_linear
    {| text := TextDesigner |} {| minimum := 0; maximum := 100; slider_value := 0 |}
    (box 0) 136365211 12.7
  = Ok ({| text := TextGB 0.12699999939650297 |},
        {| minimum := 0; maximum := 100; slider_value := 12 |},
        {| spin_value := 12 |}).
Proof. reflexivity. Qed.

(** * Runs of the monad *)

Section Sim.

Variable c : Constants.








End Sim.

(** * Saving and loading *)

Lemma default_getter_run (c : Constants) (key : string) (total : lib.query)
    (config : option config_utils.Config) (p : float) (w : World) :
  get_config_value config key (PyFloat 0) = PyFloat p ->
  (let* percent := lift (assert_float (get_config_value config key (PyFloat (or_zero None)))) in
   capacity_value_of total percent) w
  = queried_live total
      (let? b := (let? x := Py.mul_float_int (p / 100) (image_cache w total) in Py.int x) in
       Ok {| size_bytes := b; percent := p |}) w.
Proof.
  intros Hcfg. unfold bind, lift. simpl or_zero. rewrite Hcfg. simpl assert_float.
  cbv iota beta. rewrite capacity_value_of_run.
  destruct (let? x := Py.mul_float_int (p / 100) (image_cache w total) in Py.int x);
    reflexivity.
Qed.

Lemma get_config_present (data : gmap string PyValue) (w : World) :
  config_file w = Some data ->
  get_config w = Ok ({| config_utils.values := data |}, w, [EvConfigRead]).
Proof. intros H. unfold get_config, config_utils.read_if_file. rewrite H. reflexivity. Qed.

Lemma saved_config_lookup (c : Constants) (self : ImageCachePrefsLayout)
    (old : option (gmap string PyValue)) :
  config_keys_distinct c ->
  saved_config c self old !! CONFIG_UPDATE_EVERY_N_SECONDS_KEY c
    = Some (PyInt (updateEvery_spinBox self))
  /\ saved_config c self old !! CONFIG_GPU_CAPACITY_PERCENT_KEY c
    = Some (PyFloat (spin_value
                       (double_spin_boxes self gpuCacheDefaultCapacity_doubleSpinBox)))
  /\ saved_config c self old !! CONFIG_CPU_CAPACITY_PERCENT_KEY c
    = Some (PyFloat (spin_value
                       (double_spin_boxes self cpuCacheDefaultCapacity_doubleSpinBox))).
Proof.
  intros (Hug & Huc & Hgc). unfold saved_config. repeat split.
  - rewrite !lookup_insert_ne by congruence. apply lookup_insert_eq.
  - rewrite lookup_insert_ne by congruence. apply lookup_insert_eq.
  - apply lookup_insert_eq.
Qed.

(** X1. What [save_options] writes to the configuration file is what the
    getters read back: after a save, [get_config] reads the file,
    [get_update_every_n_seconds] answers the value of the update spin box,
    and the two default percent getters answer the percents of the default
    spin boxes, unchanged, with the byte size computed from them. *)
Theorem X1_saved_defaults_are_read_back
    (c : Constants) (self : ImageCachePrefsLayout) (w : World) :
  config_keys_distinct c ->
  let w' := world_after (save_options c self w) w in
  let cfg := {| config_utils.values := saved_config c self (config_file w) |} in
  let pg := spin_value (double_spin_boxes self gpuCacheDefaultCapacity_doubleSpinBox) in
  let pc := spin_value (double_spin_boxes self cpuCacheDefaultCapacity_doubleSpinBox) in
  let gpu := lib.get_gpu_memory_total_bytes in
  let cpu := lib.get_cpu_memory_total_bytes in
  get_config w' = Ok (cfg, w', [EvConfigRead])
  /\ get_update_every_n_seconds c (Some cfg) None = Ok (updateEvery_spinBox self)
  /\ get_gpu_cache_capacity_percent_default c (Some cfg) None w'
     = queried_live gpu
         (let? b := (let? x := Py.mul_float_int (pg / 100) (image_cache w gpu) in Py.int x) in
          Ok {| size_bytes := b; percent := pg |}) w'
  /\ get_cpu_cache_capacity_percent_default c (Some cfg) None w'
     = queried_live cpu
         (let? b := (let? x := Py.mul_float_int (pc / 100) (image_cache w cpu) in Py.int x) in
          Ok {| size_bytes := b; percent := pc |}) w'.
Proof.
  intros Hd w' cfg pg pc gpu cpu.
  destruct (saved_config_lookup c self (config_file w) Hd) as (Hu & Hg & Hc).
  assert (Hw' : w' = {| config_file := Some (saved_config c self (config_file w));
                        scene_options := saved_scene c self (scene_options w);
                        image_cache := image_cache w |}).
  { unfold w'. rewrite save_options_run. reflexivity. }
  assert (Hi : image_cache w' = image_cache w) by (rewrite Hw'; reflexivity).
  split; [apply get_config_present; rewrite Hw'; reflexivity|].
  split.
  { unfold get_update_every_n_seconds, get_config_value, config_utils.get_value.
    simpl config_utils.values. rewrite Hu. reflexivity. }
  split.
  - unfold get_gpu_cache_capacity_percent_default.
    rewrite (default_getter_run c _ gpu (Some cfg) pg w'); [rewrite Hi; reflexivity|].
    unfold get_config_value, config_utils.get_value. simpl config_utils.values.
    rewrite Hg. reflexivity.
  - unfold get_cpu_cache_capacity_percent_default.
    rewrite (default_getter_run c _ cpu (Some cfg) pc w'); [rewrite Hi; reflexivity|].
    unfold get_config_value, config_utils.get_value. simpl config_utils.values.
    rewrite Hc. reflexivity.
Qed.

Lemma X1_witness :
  get_update_every_n_seconds sample_const
    (Some {| config_utils.values :=
               saved_config sample_const (sample_layout_with false 50 90) None |})
    None = Ok 2.
Proof.
  refine (proj1 (proj2 (X1_saved_defaults_are_read_back sample_const
                          (sample_layout_with false 50 90) (sample_world None ∅) _))).
  repeat split; discriminate.
Defined.

Lemma scene_getter_run (key : string) (q : lib.query) (w : World) :
  (let* v := configmaya.get_scene_option key (PyFloat (or_zero None)) in
   let* percent := lift (assert_float v) in
   capacity_value_of q percent) w
  = match assert_float (default (PyFloat 0) (scene_options w !! key)) with
    | Ok p => scene_queried key q (capacity_value p (image_cache w q)) w
    | Raise e => Raise e
    end.
Proof.
  unfold bind, configmaya.get_scene_option, lift, scene_queried, capacity_value.
  simpl or_zero.
  destruct (scene_options w !! key) as [v|]; simpl default;
    (destruct (assert_float _) as [p|e]; [|reflexivity]);
    cbv iota beta; rewrite capacity_value_of_run; unfold queried_live;
    destruct (let? x := Py.mul_float_int (p / 100) (image_cache w q) in Py.int x);
    reflexivity.
Qed.

Lemma saved_scene_lookup (c : Constants) (self : ImageCachePrefsLayout)
    (old : gmap string PyValue) :
  scene_keys_distinct c ->
  saved_scene c self old !! CONFIG_SCENE_CAPACITY_OVERRIDE_KEY c
    = Some (PyBool (imageCacheSceneSettings_groupBox self))
  /\ (imageCacheSceneSettings_groupBox self = true ->
      saved_scene c self old !! CONFIG_SCENE_GPU_CAPACITY_PERCENT_KEY c
        = Some (PyFloat (spin_value
                           (double_spin_boxes self gpuCacheSceneCapacity_doubleSpinBox)))
      /\ saved_scene c self old !! CONFIG_SCENE_CPU_CAPACITY_PERCENT_KEY c
        = Some (PyFloat (spin_value
                           (double_spin_boxes self cpuCacheSceneCapacity_doubleSpinBox)))).
Proof.
  intros (Hog & Hoc & Hgc). unfold saved_scene. split.
  - destruct (imageCacheSceneSettings_groupBox self).
    + rewrite !lookup_insert_ne by congruence. apply lookup_insert_eq.
    + apply lookup_insert_eq.
  - intros ->. split.
    + rewrite lookup_insert_ne by congruence. apply lookup_insert_eq.
    + apply lookup_insert_eq.
Qed.

Lemma save_options_world (c : Constants) (self : ImageCachePrefsLayout) (w : World) :
  world_after (save_options c self w) w
  = {| config_file := Some (saved_config c self (config_file w));
       scene_options := saved_scene c self (scene_options w);
       image_cache := image_cache w |}.
Proof. rewrite save_options_run. reflexivity. Qed.

(** X2. What [save_options] stores with the scene is what the scene getters
    read back: after a save [get_cache_scene_override] answers the state of
    the override group box as a [bool], and with the group box checked the
    two scene percent getters answer the percents of the scene spin boxes,
    unchanged, each after one read of its option and one query of the
    live memory total. *)
Theorem X2_saved_scene_options_are_read_back
    (c : Constants) (self : ImageCachePrefsLayout) (w : World) :
  scene_keys_distinct c ->
  let w' := world_after (save_options c self w) w in
  let pg := spin_value (double_spin_boxes self gpuCacheSceneCapacity_doubleSpinBox) in
  let pc := spin_value (double_spin_boxes self cpuCacheSceneCapacity_doubleSpinBox) in
  let gpu := lib.get_gpu_memory_total_bytes in
  let cpu := lib.get_cpu_memory_total_bytes in
  get_cache_scene_override c w'
    = Ok (PyBool (imageCacheSceneSettings_groupBox self), w',
          [EvSceneGet (CONFIG_SCENE_CAPACITY_OVERRIDE_KEY c)])
  /\ (imageCacheSceneSettings_groupBox self = true ->
      get_gpu_cache_capacity_percent_scene c None w'
        = scene_queried (CONFIG_SCENE_GPU_CAPACITY_PERCENT_KEY c) gpu
            (capacity_value pg (image_cache w gpu)) w'
      /\ get_cpu_cache_capacity_percent_scene c None w'
        = scene_queried (CONFIG_SCENE_CPU_CAPACITY_PERCENT_KEY c) cpu
            (capacity_value pc (image_cache w cpu)) w').
Proof.
  intros Hd w' pg pc gpu cpu.
  destruct (saved_scene_lookup c self (scene_options w) Hd) as (Ho & Hp).
  assert (Hs : scene_options w' = saved_scene c self (scene_options w))
    by (unfold w'; rewrite save_options_world; reflexivity).
  assert (Hi : image_cache w' = image_cache w)
    by (unfold w'; rewrite save_options_world; reflexivity).
  split.
  - rewrite get_cache_scene_override_run, Hs, Ho. reflexivity.
  - intros Hb. destruct (Hp Hb) as (Hg & Hc). split.
    + unfold get_gpu_cache_capacity_percent_scene.
      rewrite (scene_getter_run _ gpu w'), Hs, Hg, Hi. reflexivity.
    + unfold get_cpu_cache_capacity_percent_scene.
      rewrite (scene_getter_run _ cpu w'), Hs, Hc, Hi. reflexivity.
Qed.

Lemma X2_witness :
  value (get_cache_scene_override sample_const
           (world_after (save_options sample_const (sample_layout_with true 50 90)
                           (sample_world None ∅)) (sample_world None ∅)))
  = Ok (PyBool true).
Proof.
  rewrite (proj1 (X2_saved_scene_options_are_read_back sample_const
                    (sample_layout_with true 50 90) (sample_world None ∅)
                    ltac:(repeat split; discriminate))).
  reflexivity.
Defined.

(** X3. [save_options] is a read-modify-write of the configuration file and
    a store of at most three scene options: a key of the file other than
    the module's three keys keeps its value (and stays absent if it was),
    and so does every scene option other than the module's three. *)
Theorem X3_save_options_keeps_other_settings
    (c : Constants) (self : ImageCachePrefsLayout) (w : World) (k : string) :
  let w' := world_after (save_options c self w) w in
  (k <> CONFIG_UPDATE_EVERY_N_SECONDS_KEY c ->
   k <> CONFIG_GPU_CAPACITY_PERCENT_KEY c ->
   k <> CONFIG_CPU_CAPACITY_PERCENT_KEY c ->
   (config_file w' ≫= fun data => data !! k) = (config_file w ≫= fun data => data !! k))
  /\ (k <> CONFIG_SCENE_CAPACITY_OVERRIDE_KEY c ->
      k <> CONFIG_SCENE_GPU_CAPACITY_PERCENT_KEY c ->
      k <> CONFIG_SCENE_CPU_CAPACITY_PERCENT_KEY c ->
      scene_options w' !! k = scene_options w !! k).
Proof.
  intros w'. unfold w'. rewrite save_options_world. cbn [config_file scene_options].
  split; intros H1 H2 H3.
  - unfold saved_config. simpl mbind.
    rewrite !lookup_insert_ne by congruence.
    destruct (config_file w); reflexivity.
  - unfold saved_scene. destruct (imageCacheSceneSettings_groupBox self);
      rewrite !lookup_insert_ne by congruence; reflexivity.
Qed.

Lemma X3_witness :
  scene_options
    (world_after (save_options sample_const (sample_layout_with true 50 90)
                    (sample_world None {[ "frame_range" := PyInt 24 ]}))
       (sample_world None {[ "frame_range" := PyInt 24 ]}))
    !! "frame_range" = Some (PyInt 24).
Proof.
  rewrite (proj2 (X3_save_options_keeps_other_settings sample_const
                    (sample_layout_with true 50 90)
                    (sample_world None {[ "frame_range" := PyInt 24 ]}) "frame_range"))
    by discriminate.
  reflexivity.
Defined.

(** X4. Saving twice is saving once: a second [save_options] of the same
    widgets leaves the configuration file, the scene options and the cache
    exactly as the first one left them. *)
Theorem X4_save_options_idempotent
    (c : Constants) (self : ImageCachePrefsLayout) (w : World) :
  let w1 := world_after (save_options c self w) w in
  world_after (save_options c self w1) w1 = w1.
Proof.
  intros w1. unfold w1. rewrite !save_options_world.
  cbn [config_file scene_options image_cache]. f_equal.
  - f_equal. unfold saved_config. simpl default. apply map_eq. intros k.
    destruct (decide (k = CONFIG_CPU_CAPACITY_PERCENT_KEY c)) as [->|Hc];
      [rewrite !lookup_insert_eq; reflexivity|].
    rewrite !(lookup_insert_ne _ (CONFIG_CPU_CAPACITY_PERCENT_KEY c)) by congruence.
    destruct (decide (k = CONFIG_GPU_CAPACITY_PERCENT_KEY c)) as [->|Hg];
      [rewrite !lookup_insert_eq; reflexivity|].
    rewrite !(lookup_insert_ne _ (CONFIG_GPU_CAPACITY_PERCENT_KEY c)) by congruence.
    destruct (decide (k = CONFIG_UPDATE_EVERY_N_SECONDS_KEY c)) as [->|Hu];
      [rewrite !lookup_insert_eq; reflexivity|].
    rewrite !(lookup_insert_ne _ (CONFIG_UPDATE_EVERY_N_SECONDS_KEY c)) by congruence.
    rewrite !(lookup_insert_ne _ (CONFIG_CPU_CAPACITY_PERCENT_KEY c)) by congruence.
    rewrite !(lookup_insert_ne _ (CONFIG_GPU_CAPACITY_PERCENT_KEY c)) by congruence.
    rewrite !(lookup_insert_ne _ (CONFIG_UPDATE_EVERY_N_SECONDS_KEY c)) by congruence.
    reflexivity.
  - unfold saved_scene. apply map_eq. intros k.
    destruct (imageCacheSceneSettings_groupBox self).
    + destruct (decide (k = CONFIG_SCENE_CPU_CAPACITY_PERCENT_KEY c)) as [->|Hc];
        [rewrite !lookup_insert_eq; reflexivity|].
      rewrite !(lookup_insert_ne _ (CONFIG_SCENE_CPU_CAPACITY_PERCENT_KEY c)) by congruence.
      destruct (decide (k = CONFIG_SCENE_GPU_CAPACITY_PERCENT_KEY c)) as [->|Hg];
        [rewrite !lookup_insert_eq; reflexivity|].
      rewrite !(lookup_insert_ne _ (CONFIG_SCENE_GPU_CAPACITY_PERCENT_KEY c)) by congruence.
      destruct (decide (k = CONFIG_SCENE_CAPACITY_OVERRIDE_KEY c)) as [->|Ho];
        [rewrite !lookup_insert_eq; reflexivity|].
      rewrite !lookup_insert_ne by congruence. reflexivity.
    + destruct (decide (k = CONFIG_SCENE_CAPACITY_OVERRIDE_KEY c)) as [->|Ho];
        [rewrite !lookup_insert_eq; reflexivity|].
      rewrite !lookup_insert_ne by congruence. reflexivity.
Qed.

(** * Integers held by a spin box *)

(** An integer of at most 53 binary digits is a float, exactly. *)
Lemma float_of_int_small (n : Z) :
  Zdigits2 n <= 53 -> exists y, Py.float_of_int n = Ok y /\ Py.int y = Ok n.
Proof.
  intros Hd.
  pose proof binary_round_small as Hpos.
  assert (Hint : forall s p m e,
            valid_binary (S754_finite s m e) = true -> e <= 0 ->
            Zpos m = Zpos p * 2 ^ (- e) ->
            Py.int (SF2Prim (S754_finite s m e)) = Ok (cond_Zopp s (Zpos p))).
  { intros s p m e Hv He Hm. unfold Py.int. rewrite Prim2SF_SF2Prim by exact Hv.
    unfold Py.int_of_spec_float. f_equal. f_equal.
    rewrite Z.shiftl_div_pow2 by lia. rewrite Hm.
    apply Z.div_mul. apply Z.pow_nonzero; lia. }
  destruct n as [|p|p].
  - exists (SF2Prim (S754_zero false)). split; reflexivity.
  - destruct (Hpos false p Hd) as (m & e & Hr & Hv & He & Hm).
    exists (SF2Prim (S754_finite false m e)). split.
    + unfold Py.float_of_int. simpl binary_normalize. rewrite Hr. reflexivity.
    + apply (Hint false p m e Hv He Hm).
  - destruct (Hpos true p Hd) as (m & e & Hr & Hv & He & Hm).
    exists (SF2Prim (S754_finite true m e)). split.
    + unfold Py.float_of_int. simpl binary_normalize. rewrite Hr. reflexivity.
    + apply (Hint true p m e Hv He Hm).
Qed.

(** [int(float(int(x))) = int(x)]: what [int] answers is a float. *)
Lemma int_float_int (x : float) (n : Z) :
  Py.int x = Ok n -> exists y, Py.float_of_int n = Ok y /\ Py.int y = Ok n.
Proof.
  intros H. pose proof H as H'. unfold Py.int in H.
  pose proof (Prim2SF_valid x) as Hv.
  destruct (Prim2SF x) as [s|s| |s m e] eqn:E; simpl in H; try discriminate;
    injection H as <-.
  - apply float_of_int_small. simpl. lia.
  - destruct (Z_lt_le_dec e 0) as [Hneg|Hpos].
    + apply float_of_int_small. apply valid_finite_digits in Hv.
      assert (Hsh : Zdigits2 (Z.shiftl (Zpos m) e) <= 53).
      { rewrite Z.shiftl_div_pow2 by lia.
        pose proof (Zdigits2_div_pow2 (Zpos m) (- e) ltac:(lia) ltac:(lia)). lia. }
      destruct s; simpl cond_Zopp; [rewrite Zdigits2_opp|]; exact Hsh.
    + exists x. split; [|exact H'].
      assert (Hp : exists p, Zpos p = Zpos m * 2 ^ e).
      { pose proof (Z.pow_pos_nonneg 2 e ltac:(lia) Hpos).
        destruct (Zpos m * 2 ^ e) as [|p|p] eqn:Ep; try lia. exists p. reflexivity. }
      destruct Hp as [p Hp].
      rewrite Z.shiftl_mul_pow2, <- Hp by assumption.
      unfold Py.float_of_int.
      assert (Hn : binary_normalize prec emax (cond_Zopp s (Zpos p)) 0 false
                   = S754_finite s m e).
      { destruct s; simpl; apply binary_round_exact; assumption. }
      rewrite Hn, <- E, SF2Prim_Prim2SF. reflexivity.
Qed.

(** X5. [set_value_double_spin_box] is idempotent: the value it leaves in
    the spin box is an integer-valued float, so setting the box to the
    value it already holds returns and changes nothing, and [int] of the
    held value is [int] of the value that was set. *)
Theorem X5_spin_box_value_is_a_fixed_point (b b' b1 : QDoubleSpinBox) (p : float) :
  set_value_double_spin_box b p = Ok b1 ->
  set_value_double_spin_box b' (spin_value b1) = Ok b1
  /\ Py.int (spin_value b1) = Py.int p.
Proof.
  unfold set_value_double_spin_box, spin_setValue_int.
  destruct (Py.int p) as [n|e] eqn:Hn; simpl; [|discriminate].
  destruct (int_float_int p n Hn) as (y & Hy & Hi).
  rewrite Hy. simpl. intros H. injection H as <-. simpl spin_value.
  rewrite Hi. simpl. rewrite Hy. split; reflexivity.
Qed.

Lemma X5_witness :
  set_value_double_spin_box (box 0) (spin_value (box 12)) = Ok (box 12).
Proof.
  refine (proj1 (X5_spin_box_value_is_a_fixed_point (box 7) (box 0) (box 12) 12.7 _)).
  reflexivity.
Defined.

(** * The telemetry refresh *)

Lemma update_resource_values_run (c : Constants) (self : ImageCachePrefsLayout) (w : World) :
  update_resource_values c self w
  = match value (update_resource_values c self w) with
    | Ok ui => Ok (ui, w, map EvLib telemetry_queries)
    | Raise e => Raise e
    end.
Proof.
  unfold update_resource_values, bind, call, lift. cbv beta iota.
  match goal with |- context [match ?r with Ok a => Ok (a, w, []) | Raise e => Raise e end] =>
    destruct r end; reflexivity.
Qed.

Lemma set_memory_total_label_returns (c : Constants) (l : QLabel) (n : Z) :
  num_is_zero (BYTES_TO_GIGABYTES c) = false -> n < 2 ^ 64 ->
  exists g, gigabytes_of c n = Ok g
            /\ set_memory_total_label c l n = Ok {| text := TextGB g |}.
Proof.
  intros Hc Hn. destruct (gigabytes_of_returns c n Hc Hn) as [g Hg]. exists g.
  split; [exact Hg|]. unfold set_memory_total_label. rewrite Hg. reflexivity.
Qed.

Lemma set_memory_used_label_returns (c : Constants) (l : QLabel) (used total : Z) :
  num_is_zero (BYTES_TO_GIGABYTES c) = false -> used < 2 ^ 64 ->
  exists g q, gigabytes_of c used = Ok g /\ used_percent_of used total = Ok q
              /\ set_memory_used_label c l used total = Ok {| text := TextGBPercent g q |}.
Proof.
  intros Hc Hn. destruct (gigabytes_of_returns c used Hc Hn) as [g Hg].
  destruct (used_percent_of_returns used total Hn) as [q Hq]. exists g, q.
  split; [exact Hg|]. split; [exact Hq|].
  unfold set_memory_used_label. rewrite Hg, Hq. reflexivity.
Qed.

(** Each setter of [update_resource_values] returns on values below
    [2 ^ 64]. *)
Ltac telemetry_setters_return c self w Hc Hq :=
  destruct (set_memory_total_label_returns c (labels self gpuMemoryTotalValue_label)
              _ Hc (Hq lib.get_gpu_memory_total_bytes)) as (g1 & Hg1 & _);
  destruct (set_memory_total_label_returns c (labels self gpuMemoryTotalValue_label)
              _ Hc (Hq lib.get_cpu_memory_total_bytes)) as (g2 & Hg2 & _);
  destruct (set_memory_used_label_returns c (labels self gpuMemoryTotalValue_label)
              _ (image_cache w lib.get_gpu_memory_total_bytes)
              Hc (Hq lib.get_gpu_memory_used_bytes)) as (g3 & q3 & Hg3 & Hq3 & _);
  destruct (set_memory_used_label_returns c (labels self gpuMemoryTotalValue_label)
              _ (image_cache w lib.get_cpu_memory_total_bytes)
              Hc (Hq lib.get_cpu_memory_used_bytes)) as (g4 & q4 & Hg4 & Hq4 & _);
  destruct (set_memory_total_label_returns c (labels self gpuMemoryTotalValue_label)
              _ Hc (Hq lib.get_gpu_cache_capacity_bytes)) as (g5 & Hg5 & _);
  destruct (set_memory_total_label_returns c (labels self gpuMemoryTotalValue_label)
              _ Hc (Hq lib.get_cpu_cache_capacity_bytes)) as (g6 & Hg6 & _);
  destruct (set_memory_used_label_returns c (labels self gpuMemoryTotalValue_label)
              _ (image_cache w lib.get_cpu_cache_capacity_bytes)
              Hc (Hq lib.get_cpu_cache_used_bytes)) as (g7 & q7 & Hg7 & Hq7 & _);
  destruct (set_memory_used_label_returns c (labels self gpuMemoryTotalValue_label)
              _ (image_cache w lib.get_gpu_cache_capacity_bytes)
              Hc (Hq lib.get_gpu_cache_used_bytes)) as (g8 & q8 & Hg8 & Hq8 & _).

Lemma update_resource_values_returns
    (c : Constants) (self : ImageCachePrefsLayout) (w : World) :
  num_is_zero (BYTES_TO_GIGABYTES c) = false ->
  (forall q, image_cache w q < 2 ^ 64) ->
  exists ui,
    update_resource_values c self w = Ok (ui, w, map EvLib telemetry_queries)
    /\ same_settings ui self.
Proof.
  intros Hc Hq. telemetry_setters_return c self w Hc Hq.
  eexists. split.
  - unfold update_resource_values, bind, call, lift, on_label, set_memory_total_label,
      set_memory_used_label, set_capacity_size_label, set_used_size_label.
    cbv beta iota.
    rewrite Hg1, Hg2, Hg3, Hq3, Hg4, Hq4, Hg5, Hg6, Hg7, Hq7, Hg8, Hq8.
    reflexivity.
  - repeat split.
Qed.

(** X6. With a conversion constant that is not zero and telemetry values
    below [2 ^ 64], [update_resource_values] returns: it makes its twelve
    queries in the order of the source, leaves the world as it found it,
    gives every telemetry label the text of its setter on the answers, and
    touches neither the four capacity labels of the settings nor any
    slider, spin box or check box. *)
Theorem X6_update_resource_values_refreshes_labels
    (c : Constants) (self : ImageCachePrefsLayout) (w : World) :
  num_is_zero (BYTES_TO_GIGABYTES c) = false ->
  (forall q, image_cache w q < 2 ^ 64) ->
  exists ui,
    update_resource_values c self w = Ok (ui, w, map EvLib telemetry_queries)
    /\ (forall i, telemetry_label c (image_cache w) i (labels self i) = Ok (labels ui i))
    /\ (forall i, is_telemetry_label i = false -> labels ui i = labels self i)
    /\ same_settings ui self.
Proof.
  intros Hc Hq. telemetry_setters_return c self w Hc Hq.
  eexists. split; [|split; [|split]].
  - unfold update_resource_values, bind, call, lift, on_label, set_memory_total_label,
      set_memory_used_label, set_capacity_size_label, set_used_size_label.
    cbv beta iota.
    rewrite Hg1, Hg2, Hg3, Hq3, Hg4, Hq4, Hg5, Hg6, Hg7, Hq7, Hg8, Hq8.
    reflexivity.
  - intros i. unfold telemetry_label, set_memory_total_label,
      set_memory_used_label, set_capacity_size_label, set_used_size_label.
    destruct i;
      rewrite ?Hg1, ?Hg2, ?Hg3, ?Hq3, ?Hg4, ?Hq4, ?Hg5, ?Hg6, ?Hg7, ?Hq7, ?Hg8, ?Hq8;
      reflexivity.
  - intros i Hi. destruct i; try discriminate Hi; reflexivity.
  - repeat split.
Qed.

Lemma X6_witness :
  exists ui,
    update_resource_values sample_const sample_layout sample_stored_world
      = Ok (ui, sample_stored_world, map EvLib telemetry_queries)
    /\ (forall i, telemetry_label sample_const (image_cache sample_stored_world) i
                    (labels sample_layout i) = Ok (labels ui i))
    /\ (forall i, is_telemetry_label i = false -> labels ui i = labels sample_layout i)
    /\ same_settings ui sample_layout.
Proof.
  apply (X6_update_resource_values_refreshes_labels sample_const sample_layout
           sample_stored_world).
  - reflexivity.
  - intros q. destruct q; simpl; lia.
Defined.

(** * The update timer *)

Lemma update_every_changed_run (c : Constants) (timer : QTimer) (v : Z) (w : World) :
  _update_every_changed c timer v w
  = Ok ({| interval := v * 1000 |},
        {| config_file :=
             Some (<[CONFIG_UPDATE_EVERY_N_SECONDS_KEY c := PyInt v]>
                     (default ∅ (config_file w)));
           scene_options := scene_options w;
           image_cache := image_cache w |},
        match config_file w with Some _ => [EvConfigRead] | None => [] end
        ++ [EvConfigWrite]).
Proof.
  unfold _update_every_changed, bind, get_config, config_utils.read_if_file.
  destruct (config_file w); reflexivity.
Qed.

(** X7. [_update_every_changed(value)] sets the timer's interval to
    [1000 * value] milliseconds whatever it was, and stores [value] in the
    configuration file, creating the file when there is none: a later
    [get_config] and [get_update_every_n_seconds] answer [value].  Every
    other key of the file keeps its value, and the scene options and the
    cache are left alone. *)
Theorem X7_update_every_changed_stores_seconds
    (c : Constants) (timer : QTimer) (v : Z) (w : World) (k : string) :
  let r := _update_every_changed c timer v w in
  let w' := world_after r w in
  value r = Ok {| interval := v * 1000 |}
  /\ (let? config := value (get_config w') in
      get_update_every_n_seconds c (Some config) None) = Ok v
  /\ (k <> CONFIG_UPDATE_EVERY_N_SECONDS_KEY c ->
      (config_file w' ≫= fun data => data !! k) = (config_file w ≫= fun data => data !! k))
  /\ scene_options w' = scene_options w
  /\ image_cache w' = image_cache w.
Proof.
  intros r w'. unfold w', r. rewrite update_every_changed_run.
  cbn [value world_after config_file scene_options image_cache].
  split; [reflexivity|]. split; [|split; [|split; reflexivity]].
  - unfold get_config, config_utils.read_if_file. cbn [config_file value rbind].
    unfold get_update_every_n_seconds, get_config_value, config_utils.get_value.
    cbn [config_utils.values]. rewrite lookup_insert_eq. reflexivity.
  - intros Hk. simpl mbind. rewrite lookup_insert_ne by congruence.
    destruct (config_file w); reflexivity.
Qed.

Lemma X7_witness :
  (config_file (world_after (_update_every_changed sample_const {| interval := 0 |} 5
                               sample_stored_world) sample_stored_world)
     ≫= fun data => data !! "gpu_capacity_percent")
  = Some (PyFloat 12.5).
Proof.
  rewrite (proj1 (proj2 (proj2 (X7_update_every_changed_stores_seconds sample_const
                                  {| interval := 0 |} 5 sample_stored_world
                                  "gpu_capacity_percent"))))
    by discriminate.
  reflexivity.
Defined.

(** * Inverting runs *)

Lemma set_value_double_spin_box_any (b b' : QDoubleSpinBox) (p : float) :
  set_value_double_spin_box b p = set_value_double_spin_box b' p.
Proof. reflexivity. Qed.


Lemma bind_Ok_inv {A B} (m : M A) (k : A -> M B) (w w2 : World) (b : B) (t : list Event) :
  bind m k w = Ok (b, w2, t) ->
  exists a w1 t1 t2, m w = Ok (a, w1, t1) /\ k a w1 = Ok (b, w2, t2) /\ t = t1 ++ t2.
Proof.
  unfold bind. destruct (m w) as [[[a w1] t1]|]; [|discriminate].
  destruct (k a w1) as [[[b' w2'] t2]|] eqn:Hk; [|discriminate].
  intros H. injection H as <- <- <-. exists a, w1, t1, t2. auto.
Qed.

Lemma lift_Ok_inv {A} (r : result A) (w w1 : World) (a : A) (t : list Event) :
  lift r w = Ok (a, w1, t) -> r = Ok a /\ w1 = w /\ t = [].
Proof.
  unfold lift. destruct r; [|discriminate]. intros H. injection H as <- <- <-. auto.
Qed.

Lemma get_config_run (w : World) :
  get_config w
  = Ok (config_of w, w, match config_file w with Some _ => [EvConfigRead] | None => [] end).
Proof.
  unfold get_config, config_utils.read_if_file, config_of.
  destruct (config_file w); reflexivity.
Qed.

Lemma queried_live_Ok_inv {A} (q : lib.query) (r : result A) (w w1 : World)
    (a : A) (t : list Event) :
  queried_live q r w = Ok (a, w1, t) -> r = Ok a /\ w1 = w /\ t = [EvLib q].
Proof.
  unfold queried_live. destruct r; [|discriminate]. intros H. injection H as <- <- <-. auto.
Qed.

Lemma scene_queried_Ok_inv {A} (k : string) (q : lib.query) (r : result A) (w w1 : World)
    (a : A) (t : list Event) :
  scene_queried k q r w = Ok (a, w1, t) -> r = Ok a /\ w1 = w /\ t = [EvSceneGet k; EvLib q].
Proof.
  unfold scene_queried. destruct r; [|discriminate]. intros H. injection H as <- <- <-. auto.
Qed.

Lemma default_getter_full_run (key : string) (q : lib.query)
    (config : option config_utils.Config) (w : World) :
  (let* percent := lift (assert_float (get_config_value config key (PyFloat (or_zero None)))) in
   capacity_value_of q percent) w
  = match assert_float (get_config_value config key (PyFloat 0)) with
    | Ok p => queried_live q (capacity_value p (image_cache w q)) w
    | Raise e => Raise e
    end.
Proof.
  unfold bind, lift. simpl or_zero.
  destruct (assert_float _) as [p|e]; [|reflexivity].
  cbv iota beta. rewrite capacity_value_of_run. unfold queried_live, capacity_value.
  destruct (let? x := Py.mul_float_int (p / 100) (image_cache w q) in Py.int x);
    reflexivity.
Qed.

Lemma update_resource_values_Ok (c : Constants) (self ui : ImageCachePrefsLayout)
    (w w1 : World) (t : list Event) :
  update_resource_values c self w = Ok (ui, w1, t) ->
  w1 = w /\ t = map EvLib telemetry_queries.
Proof.
  rewrite update_resource_values_run.
  destruct (value (update_resource_values c self w)); [|discriminate].
  intros H. injection H as <- <- <-. auto.
Qed.

Lemma update_resource_values_frame (c : Constants) (self ui : ImageCachePrefsLayout)
    (w : World) :
  value (update_resource_values c self w) = Ok ui ->
  same_settings ui self
  /\ (forall i, is_telemetry_label i = false -> labels ui i = labels self i).
Proof.
  unfold update_resource_values, bind, call, lift, on_label. cbv beta iota.
  repeat match goal with
         | |- context [rbind ?r _] =>
             lazymatch r with
             | rbind _ _ => fail
             | Ok _ => fail
             | _ => destruct r as [?l|?e]; cbn [rbind value]; [|discriminate]
             end
         end.
  cbn [rbind value]. intros H. injection H as <-. split; [repeat split|].
  intros i Hi. destruct i; try discriminate Hi; reflexivity.
Qed.

Lemma assert_float_not_float (v : PyValue) :
  (forall x, v <> PyFloat x) -> assert_float v = Raise AssertionError.
Proof. intros H. destruct v; try reflexivity. exfalso. apply (H x). reflexivity. Qed.

Lemma config_of_present (w : World) (data : gmap string PyValue) (key : string)
    (v fallback : PyValue) :
  config_file w = Some data -> data !! key = Some v ->
  get_config_value (Some (config_of w)) key fallback = v.
Proof.
  intros Hf Hk. unfold get_config_value, config_utils.get_value, config_of.
  rewrite Hf. simpl. rewrite Hk. reflexivity.
Qed.

Lemma set_value_truncates (b b1 : QDoubleSpinBox) (p : float) :
  set_value_double_spin_box b p = Ok b1 -> truncation_of (spin_value b1) p.
Proof.
  unfold set_value_double_spin_box, spin_setValue_int, truncation_of.
  destruct (Py.int p) as [n|e]; simpl; [|discriminate].
  destruct (Py.float_of_int n) as [y|e] eqn:Hy; simpl; [|discriminate].
  intros H. injection H as <-. exists n. split; [reflexivity|exact Hy].
Qed.

Lemma set_value_fixed_point (b b' b1 : QDoubleSpinBox) (p : float) :
  set_value_double_spin_box b p = Ok b1 ->
  set_value_double_spin_box b' (spin_value b1) = Ok b1.
Proof.
  unfold set_value_double_spin_box, spin_setValue_int.
  destruct (Py.int p) as [n|e] eqn:Hn; simpl; [|discriminate].
  destruct (int_float_int p n Hn) as (y & Hy & Hi).
  rewrite Hy. simpl. intros H. injection H as <-. simpl spin_value.
  rewrite Hi. simpl. rewrite Hy. reflexivity.
Qed.

Lemma capacity_value_percent (p : float) (t : Z) (cap : CapacityValue) :
  capacity_value p t = Ok cap -> percent cap = p.
Proof.
  unfold capacity_value.
  destruct (let? x := Py.mul_float_int (p / 100) t in Py.int x); simpl; [|discriminate].
  intros H. injection H as <-. reflexivity.
Qed.

Lemma default_getter_percent (key : string) (q : lib.query) (w : World)
    (data : gmap string PyValue) (p : float) (cap : CapacityValue) :
  config_file w = Some data -> data !! key = Some (PyFloat p) ->
  value ((let* percent :=
            lift (assert_float (get_config_value (Some (config_of w)) key
                                  (PyFloat (or_zero None)))) in
          capacity_value_of q percent) w) = Ok cap ->
  percent cap = p.
Proof.
  intros Hf Hk. rewrite default_getter_full_run.
  rewrite (config_of_present w data key (PyFloat p) _ Hf Hk). simpl assert_float.
  unfold queried_live.
  destruct (capacity_value p (image_cache w q)) as [cap'|] eqn:E; simpl; [|discriminate].
  intros H. injection H as <-. apply (capacity_value_percent _ _ _ E).
Qed.

Lemma scene_getter_percent (key : string) (q : lib.query) (w : World)
    (p : float) (cap : CapacityValue) :
  scene_options w !! key = Some (PyFloat p) ->
  value ((let* v := configmaya.get_scene_option key (PyFloat (or_zero None)) in
          let* percent := lift (assert_float v) in
          capacity_value_of q percent) w) = Ok cap ->
  percent cap = p.
Proof.
  intros Hk. rewrite scene_getter_run, Hk. simpl default. simpl assert_float.
  unfold scene_queried.
  destruct (capacity_value p (image_cache w q)) as [cap'|] eqn:E; simpl; [|discriminate].
  intros H. injection H as <-. apply (capacity_value_percent _ _ _ E).
Qed.

Lemma spin_box_eq (b1 b2 : QDoubleSpinBox) (p : float) :
  set_value_double_spin_box b1 p = Ok b2 ->
  forall b b', set_value_double_spin_box b p = Ok b' -> b' = b2.
Proof. intros H b b' H'. rewrite (set_value_double_spin_box_any b b1) in H'. congruence. Qed.

Lemma bind_Ok {A B} (m : M A) (k : A -> M B) (w w1 w2 : World) (a : A) (b : B)
    (t1 t2 : list Event) :
  m w = Ok (a, w1, t1) -> k a w1 = Ok (b, w2, t2) -> bind m k w = Ok (b, w2, t1 ++ t2).
Proof. intros Hm Hk. unfold bind. rewrite Hm, Hk. reflexivity. Qed.

Lemma int_of_spec_float_digits (k : Z) (x : spec_float) (n : Z) :
  0 <= k -> SFmag k x -> Py.int_of_spec_float x = Ok n -> Zdigits2 n <= k.
Proof.
  intros Hk Hm. destruct x as [s|s| |s m e]; simpl in Hm; try contradiction.
  - simpl. intros H. injection H as <-. simpl. lia.
  - change (Zdigits2 (Zpos m) + e <= k) in Hm.
    rewrite int_of_spec_float_quot. intros H. injection H as <-.
    assert (Hd : forall z, Zdigits2 (cond_Zopp s z) = Zdigits2 z).
    { intros z. destruct s; simpl; [apply Zdigits2_opp|reflexivity]. }
    destruct (Z.ltb_spec e 0) as [He|He].
    + assert (Hq : cond_Zopp s (Zpos m) ÷ 2 ^ (- e) = cond_Zopp s (Zpos m / 2 ^ (- e))).
      { assert (0 < 2 ^ (- e)) by (apply Z.pow_pos_nonneg; lia).
        destruct s; simpl cond_Zopp.
        - rewrite Z.quot_opp_l by lia. rewrite Z.quot_div_nonneg by lia. reflexivity.
        - rewrite Z.quot_div_nonneg by lia. reflexivity. }
      rewrite Hq, Hd.
      pose proof (Zdigits2_div_pow2 (Zpos m) (- e) ltac:(lia) ltac:(lia)). lia.
    + assert (Hq : cond_Zopp s (Zpos m) * 2 ^ e = cond_Zopp s (Zpos m * 2 ^ e)).
      { destruct s; simpl cond_Zopp; lia. }
      rewrite Hq, Hd, Zdigits2_mul_pow2 by assumption. exact Hm.
Qed.

Lemma capacity_value_in_range (p : float) (t : Z) :
  (0 <=? p)%float = true -> (p <=? 100)%float = true -> is_u64 t ->
  exists cap, capacity_value p t = Ok cap /\ percent cap = p /\ capacity_in_range cap.
Proof.
  intros H0 H1 Ht.
  destruct (scaled_mag p t (percent_in_range_mag p H0 H1) Ht) as (y & Hy & Hm).
  destruct (int_of_mag 70 _ Hm) as [n Hn].
  exists {| size_bytes := n; percent := p |}.
  split; [|split; [reflexivity|]].
  - unfold capacity_value, Py.mul_float_int. rewrite Hy. simpl. unfold Py.int.
    rewrite Hn. reflexivity.
  - unfold capacity_in_range. simpl. repeat split; try assumption.
    apply (int_of_spec_float_digits 70 _ n ltac:(lia) Hm Hn).
Qed.

Lemma stored_percent_in_range (v : option PyValue) (t : Z) :
  percent_in_range v -> is_u64 t ->
  exists cap,
    match assert_float (default (PyFloat 0) v) with
    | Ok p => capacity_value p t
    | Raise e => Raise e
    end = Ok cap
    /\ capacity_in_range cap.
Proof.
  intros Hv Ht. destruct v as [[| |n|p|s]|]; simpl in Hv; try contradiction.
  - destruct Hv as [H0 H1].
    destruct (capacity_value_in_range p t H0 H1 Ht) as (cap & Hc & _ & Hr).
    exists cap. split; assumption.
  - destruct (capacity_value_in_range 0 t eq_refl eq_refl Ht) as (cap & Hc & _ & Hr).
    exists cap. split; assumption.
Qed.

Lemma config_of_lookup (w : World) (key : string) (fallback : PyValue) :
  get_config_value (Some (config_of w)) key fallback
  = default fallback (config_file w ≫= fun data => data !! key).
Proof.
  unfold get_config_value, config_utils.get_value, config_of.
  destruct (config_file w) as [data|]; simpl.
  - destruct (data !! key); reflexivity.
  - rewrite lookup_empty. reflexivity.
Qed.

Lemma default_getter_returns (key : string) (q : lib.query) (w : World) :
  percent_in_range (config_file w ≫= fun data => data !! key) ->
  is_u64 (image_cache w q) ->
  exists cap,
    (let* percent :=
       lift (assert_float (get_config_value (Some (config_of w)) key
                             (PyFloat (or_zero None)))) in
     capacity_value_of q percent) w = Ok (cap, w, [EvLib q])
    /\ capacity_in_range cap.
Proof.
  intros Hv Ht. rewrite default_getter_full_run, config_of_lookup.
  destruct (stored_percent_in_range _ _ Hv Ht) as (cap & Hc & Hr).
  exists cap. split; [|exact Hr].
  destruct (assert_float _) as [p|e]; [|discriminate]. rewrite Hc. reflexivity.
Qed.

Lemma scene_getter_returns (key : string) (q : lib.query) (w : World) :
  percent_in_range (scene_options w !! key) ->
  is_u64 (image_cache w q) ->
  exists cap,
    (let* v := configmaya.get_scene_option key (PyFloat (or_zero None)) in
     let* percent := lift (assert_float v) in
     capacity_value_of q percent) w = Ok (cap, w, [EvSceneGet key; EvLib q])
    /\ capacity_in_range cap.
Proof.
  intros Hv Ht. rewrite scene_getter_run.
  destruct (stored_percent_in_range _ _ Hv Ht) as (cap & Hc & Hr).
  exists cap. split; [|exact Hr].
  destruct (assert_float _) as [p|e]; [|discriminate]. rewrite Hc. reflexivity.
Qed.

(** * The scene percent getters *)

Lemma scene_getter_default_run (key : string) (q : lib.query) (d : option float)
    (w : World) :
  (let* v := configmaya.get_scene_option key (PyFloat (or_zero d)) in
   let* percent := lift (assert_float v) in
   capacity_value_of q percent) w
  = match assert_float (default (PyFloat (or_zero d)) (scene_options w !! key)) with
    | Ok p => scene_queried key q (capacity_value p (image_cache w q)) w
    | Raise e => Raise e
    end.
Proof.
  unfold bind, configmaya.get_scene_option, lift, scene_queried, capacity_value.
  destruct (scene_options w !! key) as [v|]; simpl default;
    (destruct (assert_float _) as [p|e]; [|reflexivity]);
    cbv iota beta; rewrite capacity_value_of_run; unfold queried_live;
    destruct (let? x := Py.mul_float_int (p / 100) (image_cache w q) in Py.int x);
    reflexivity.
Qed.

(** X14. The scene percent getters read their option, then query the
    live memory total once.  A percent that was never stored answers the
    default given (0.0 when none is), which for a [u64] total is the
    capacity [(0, 0.0)]; a stored float [p] is answered unchanged, with
    [int(p / 100.0 * total)] bytes, whatever the range of [p]; any other
    stored value raises [AssertionError]. *)
Theorem X14_scene_percent_getters (c : Constants) (d : option float) (w : World) :
  let outcome key q :=
    match scene_options w !! key with
    | None => scene_queried key q (capacity_value (or_zero d) (image_cache w q)) w
    | Some (PyFloat p) => scene_queried key q (capacity_value p (image_cache w q)) w
    | Some _ => Raise AssertionError
    end in
  get_gpu_cache_capacity_percent_scene c d w
    = outcome (CONFIG_SCENE_GPU_CAPACITY_PERCENT_KEY c) lib.get_gpu_memory_total_bytes
  /\ get_cpu_cache_capacity_percent_scene c d w
    = outcome (CONFIG_SCENE_CPU_CAPACITY_PERCENT_KEY c) lib.get_cpu_memory_total_bytes
  /\ (forall t, is_u64 t ->
        capacity_value (or_zero None) t = Ok {| size_bytes := 0; percent := 0 |}).
Proof.
  intros outcome. unfold outcome. split; [|split].
  - unfold get_gpu_cache_capacity_percent_scene. rewrite scene_getter_default_run.
    destruct (scene_options w !! _) as [[]|]; reflexivity.
  - unfold get_cpu_cache_capacity_percent_scene. rewrite scene_getter_default_run.
    destruct (scene_options w !! _) as [[]|]; reflexivity.
  - intros t Ht. unfold capacity_value. simpl or_zero. rewrite (zero_percent_of t Ht).
    reflexivity.
Qed.

Lemma X14_witness :
  capacity_value (or_zero None) 17179869184 = Ok {| size_bytes := 0; percent := 0 |}.
Proof.
  refine (proj2 (proj2 (X14_scene_percent_getters sample_const None sample_stored_world))
            17179869184 _).
  unfold is_u64. lia.
Defined.

(** * The slots of the spin boxes *)

Lemma capacity_spin_box_changed_inv (c : Constants)
    (remap : float -> float -> float -> float -> float -> result float)
    (label : label_id) (slider : slider_id) (q : lib.query)
    (self ui : ImageCachePrefsLayout) (p : float) (w w' : World) (t : list Event) :
  capacity_spin_box_changed c remap label slider q self p w = Ok (ui, w', t) ->
  w' = w /\ t = [EvLib q]
  /\ (exists size_bytes,
        _get_capacity_bytes false (box p) (box p) (image_cache w q) = Ok size_bytes
        /\ set_capacity_size_label c (labels self label) size_bytes = Ok (labels ui label))
  /\ set_percent_slider remap (sliders self slider) p = Ok (sliders ui slider)
  /\ (forall i, i <> label -> labels ui i = labels self i)
  /\ (forall j, j <> slider -> sliders ui j = sliders self j)
  /\ double_spin_boxes ui = double_spin_boxes self
  /\ updateEvery_spinBox ui = updateEvery_spinBox self
  /\ imageCacheSceneSettings_groupBox ui = imageCacheSceneSettings_groupBox self.
Proof.
  unfold capacity_spin_box_changed, bind, call, lift. cbv beta iota.
  rewrite get_capacity_bytes_unfold.
  destruct (let? x := Py.mul_float_int (p / 100) (image_cache w q) in Py.int x)
    as [n|e]; [|discriminate].
  destruct (set_capacity_size_label c (labels self label) n) as [l|e] eqn:El;
    cbn [rbind]; [|discriminate].
  destruct (set_percent_slider remap (sliders self slider) p) as [s|e] eqn:Es;
    cbn [rbind]; [|discriminate].
  intros H. injection H as <- <- <-.
  split; [reflexivity|]. split; [reflexivity|]. split.
  { exists n. split; [reflexivity|].
    cbn [with_slider with_label labels]. rewrite fn_lookup_insert. exact El. }
  split.
  { cbn [with_slider with_label sliders]. rewrite fn_lookup_insert. reflexivity. }
  split.
  { intros i Hi. cbn [with_slider with_label labels].
    rewrite fn_lookup_insert_ne by congruence. reflexivity. }
  split.
  { intros j Hj. cbn [with_slider with_label sliders].
    rewrite fn_lookup_insert_ne by congruence. reflexivity. }
  repeat split.
Qed.

(** X15. Each of the four [_*_capacity_spin_box_changed] slots, when it
    returns, has queried its memory total once and changed nothing in the
    world; its label shows the size the panel resolves for the new
    percent of that total ([int(percent / 100.0 * total)]), its slider is
    what [set_percent_slider] makes of it, and no other label, slider,
    spin box or check box has changed. *)
Theorem X15_spin_box_slots_update_label_and_slider (c : Constants)
    (remap : float -> float -> float -> float -> float -> result float)
    (slot : ImageCachePrefsLayout -> float -> M ImageCachePrefsLayout)
    (label : label_id) (slider : slider_id) (q : lib.query)
    (self ui : ImageCachePrefsLayout) (p : float) (w w' : World) (t : list Event) :
  In (slot, label, slider, q) (spin_box_slots c remap) ->
  slot self p w = Ok (ui, w', t) ->
  w' = w /\ t = [EvLib q]
  /\ (exists size_bytes,
        _get_capacity_bytes false (box p) (box p) (image_cache w q) = Ok size_bytes
        /\ set_capacity_size_label c (labels self label) size_bytes = Ok (labels ui label))
  /\ set_percent_slider remap (sliders self slider) p = Ok (sliders ui slider)
  /\ (forall i, i <> label -> labels ui i = labels self i)
  /\ (forall j, j <> slider -> sliders ui j = sliders self j)
  /\ double_spin_boxes ui = double_spin_boxes self
  /\ updateEvery_spinBox ui = updateEvery_spinBox self
  /\ imageCacheSceneSettings_groupBox ui = imageCacheSceneSettings_groupBox self.
Proof.
  intros Hin H. unfold spin_box_slots in Hin. simpl In in Hin.
  destruct Hin as [E|[E|[E|[E|[]]]]]; injection E as <- <- <- <-;
    apply (capacity_spin_box_changed_inv c remap _ _ _ _ _ _ _ _ _ H).
Qed.

Lemma X15_witness :
  match _gpu_default_capacity_spin_box_changed sample_const remap_linear sample_layout 50
          sample_stored_world with
  | Ok (ui, w', _) =>
      w' = sample_stored_world
      /\ sliders ui gpuCacheDefaultCapacity_horizontalSlider
         = {| minimum := 0; maximum := 100; slider_value := 50 |}
  | Raise _ => False
  end.
Proof.
  destruct (_gpu_default_capacity_spin_box_changed sample_const remap_linear sample_layout 50
              sample_stored_world) as [[[ui w'] t]|e] eqn:E;
    [|vm_compute in E; discriminate E].
  destruct (X15_spin_box_slots_update_label_and_slider sample_const remap_linear
              _ gpuCacheDefaultCapacityValue_label gpuCacheDefaultCapacity_horizontalSlider
              lib.get_gpu_memory_total_bytes _ _ _ _ _ _ (or_introl eq_refl) E)
    as (Hw & _ & _ & Hs & _).
  split; [exact Hw|]. vm_compute in Hs. injection Hs as Hs. symmetry. exact Hs.
Defined.

(** * The stored settings and the panel *)

Lemma capacity_value_size (p : float) (t : Z) :
  (let? cap := capacity_value p t in Ok (size_bytes cap))
  = (let? x := Py.mul_float_int (p / 100) t in Py.int x).
Proof.
  unfold capacity_value.
  destruct (let? x := Py.mul_float_int (p / 100) t in Py.int x); reflexivity.
Qed.

Lemma value_queried_live {A} (q : lib.query) (r : result A) (w : World) :
  value (queried_live q r w) = r.
Proof. destruct r; reflexivity. Qed.

Lemma value_scene_queried {A} (k : string) (q : lib.query) (r : result A) (w : World) :
  value (scene_queried k q r w) = r.
Proof. destruct r; reflexivity. Qed.

(** X17. What [save_options] stores resolves as the panel does: in the
    world a save leaves, the capacity the getters resolve for a pool (the
    scene one when the stored flag is [True], the default one otherwise)
    has the very size [get_gpu_capacity_bytes] / [get_cpu_capacity_bytes]
    compute from the widgets that were saved, or both raise the same
    exception. *)
Theorem X17_saved_settings_resolve_as_the_panel
    (c : Constants) (self : ImageCachePrefsLayout) (w : World) :
  config_keys_distinct c -> scene_keys_distinct c ->
  let w' := world_after (save_options c self w) w in
  (let? cap := stored_gpu_capacity c w' in Ok (size_bytes cap))
    = value (get_gpu_capacity_bytes self w')
  /\ (let? cap := stored_cpu_capacity c w' in Ok (size_bytes cap))
     = value (get_cpu_capacity_bytes self w').
Proof.
  intros Hcd Hsd w'.
  destruct (saved_config_lookup c self (config_file w) Hcd) as (_ & Lg & Lc).
  destruct (saved_scene_lookup c self (scene_options w) Hsd) as (Lo & Lscene).
  assert (Hw' : w' = {| config_file := Some (saved_config c self (config_file w));
                        scene_options := saved_scene c self (scene_options w);
                        image_cache := image_cache w |}) by apply save_options_world.
  assert (Hcf : config_file w' = Some (saved_config c self (config_file w)))
    by (rewrite Hw'; reflexivity).
  assert (Hso : scene_options w' = saved_scene c self (scene_options w))
    by (rewrite Hw'; reflexivity).
  assert (Hflag : value (get_cache_scene_override c w')
                  = Ok (PyBool (imageCacheSceneSettings_groupBox self))).
  { rewrite get_cache_scene_override_run, Hso, Lo. reflexivity. }
  unfold stored_gpu_capacity, stored_cpu_capacity.
  rewrite Hflag. cbn [rbind].
  rewrite get_gpu_capacity_bytes_run, get_cpu_capacity_bytes_run, !value_queried_live.
  unfold resolved_gpu_percent, resolved_cpu_percent,
    get_gpu_cache_capacity_percent_scene, get_cpu_cache_capacity_percent_scene,
    get_gpu_cache_capacity_percent_default, get_cpu_cache_capacity_percent_default.
  destruct (imageCacheSceneSettings_groupBox self) eqn:Eb; cbn [is_True].
  - destruct (Lscene eq_refl) as [Lsg Lsc].
    rewrite !scene_getter_run, Hso, Lsg, Lsc. simpl default. simpl assert_float.
    cbv beta iota.
    rewrite !value_scene_queried, !capacity_value_size. split; reflexivity.
  - rewrite !default_getter_full_run.
    rewrite (config_of_present w' _ _ _ _ Hcf Lg), (config_of_present w' _ _ _ _ Hcf Lc).
    simpl assert_float. cbv beta iota.
    rewrite !value_queried_live, !capacity_value_size. split; reflexivity.
Qed.

Lemma X17_witness :
  (let? cap := stored_gpu_capacity sample_const
                 (world_after (save_options sample_const (sample_layout_with true 50 90)
                                 sample_stored_world) sample_stored_world) in
   Ok (size_bytes cap)) = Ok 900.
Proof.
  rewrite (proj1 (X17_saved_settings_resolve_as_the_panel sample_const
                    (sample_layout_with true 50 90) sample_stored_world
                    ltac:(repeat split; discriminate) ltac:(repeat split; discriminate))).
  reflexivity.
Defined.

(** * What the telemetry labels depend on *)

(** X18. The telemetry labels depend on nothing but what the library
    reports: two runs of [update_resource_values], on any two layouts and
    in any two worlds whose image cache reports the same, raise the same
    exception or leave the same text in every telemetry label.  In
    particular a refresh in an unchanged world changes no label a previous
    refresh has written. *)
Theorem X18_telemetry_depends_on_the_cache_only
    (c : Constants) (self1 self2 : ImageCachePrefsLayout) (w1 w2 : World) :
  image_cache w1 = image_cache w2 ->
  same_telemetry (value (update_resource_values c self1 w1))
                 (value (update_resource_values c self2 w2)).
Proof.
  intros Hi.
  unfold update_resource_values, bind, call, lift, on_label, set_memory_total_label,
    set_memory_used_label, set_capacity_size_label, set_used_size_label, set_count_label,
    setText.
  cbv beta iota. rewrite Hi.
  repeat match goal with
         | |- context [rbind ?r _] =>
             lazymatch r with
             | rbind _ _ => fail
             | Ok _ => fail
             | _ => destruct r as [?x|?e]; cbn [rbind value same_telemetry];
                    [|reflexivity]
             end
         end.
  cbn [rbind value same_telemetry].
  intros i Hl. destruct i; try discriminate Hl; reflexivity.
Qed.

Lemma X18_witness :
  same_telemetry
    (value (update_resource_values sample_const sample_layout sample_stored_world))
    (value (update_resource_values sample_const (sample_layout_with true 50 90)
              sample_override_world)).
Proof.
  apply (X18_telemetry_depends_on_the_cache_only sample_const sample_layout
           (sample_layout_with true 50 90) sample_stored_world sample_override_world).
  reflexivity.
Defined.

(** * Slots and signals *)

Lemma capacity_frame_refl (label : label_id) (slider : slider_id) (spin_box : spin_id)
    (self : ImageCachePrefsLayout) :
  capacity_frame label slider spin_box self self.
Proof. repeat split. Qed.

Lemma capacity_frame_trans (label : label_id) (slider : slider_id) (spin_box : spin_id)
    (u1 u2 u3 : ImageCachePrefsLayout) :
  capacity_frame label slider spin_box u1 u2 -> capacity_frame label slider spin_box u2 u3 ->
  capacity_frame label slider spin_box u1 u3.
Proof.
  intros (A1 & A2 & A3 & A4 & A5 & A6 & A7 & A8) (B1 & B2 & B3 & B4 & B5 & B6 & B7 & B8).
  repeat split; try congruence.
  - intros i Hi. rewrite (B1 i Hi). apply (A1 i Hi).
  - intros j Hj. rewrite (B2 j Hj). apply (A2 j Hj).
  - intros j Hj. rewrite (B5 j Hj). apply (A5 j Hj).
Qed.

Lemma set_percent_slider_range
    (remap : float -> float -> float -> float -> float -> result float)
    (s s' : QSlider) (p : float) :
  set_percent_slider remap s p = Ok s' -> minimum s' = minimum s /\ maximum s' = maximum s.
Proof.
  unfold set_percent_slider.
  destruct (Py.float_of_int (minimum s)); simpl; [|discriminate].
  destruct (Py.float_of_int (maximum s)); simpl; [|discriminate].
  destruct (remap _ _ _ _ _); simpl; [|discriminate].
  destruct (Py.int _); simpl; [|discriminate].
  intros H. injection H as <-. split; reflexivity.
Qed.

Lemma capacity_slider_changed_frame (c : Constants)
    (remap : float -> float -> float -> float -> float -> result float)
    (label : label_id) (spin_box : spin_id) (slider : slider_id) (q : lib.query)
    (self ui : ImageCachePrefsLayout) (v : Z) (w w' : World) (t : list Event) :
  capacity_slider_changed c remap label spin_box slider q self v w = Ok (ui, w', t) ->
  w' = w /\ t = [EvLib q] /\ capacity_frame label slider spin_box self ui
  /\ sliders ui slider = sliders self slider.
Proof.
  unfold capacity_slider_changed, bind, call, lift.
  destruct (let? old_min := Py.float_of_int (minimum (sliders self slider)) in _)
    as [percent|e]; [|discriminate]. cbv beta iota.
  destruct (let? x := Py.mul_float_int (percent / 100) (image_cache w q) in Py.int x)
    as [n|e]; [|discriminate].
  destruct (set_capacity_size_label c (labels self label) n) as [l|e];
    cbn [rbind]; [|discriminate].
  destruct (set_value_double_spin_box (double_spin_boxes self spin_box) percent) as [b|e];
    cbn [rbind]; [|discriminate].
  intros H. injection H as <- <- <-.
  split; [reflexivity|]. split; [reflexivity|]. split; [|reflexivity].
  unfold capacity_frame. cbn [with_spin with_label labels sliders double_spin_boxes
    updateEvery_spinBox imageCacheSceneSettings_groupBox update_timer].
  repeat split.
  - intros i Hi. rewrite fn_lookup_insert_ne by congruence. reflexivity.
  - intros j Hj. rewrite fn_lookup_insert_ne by congruence. reflexivity.
Qed.

Lemma capacity_spin_box_changed_frame (c : Constants)
    (remap : float -> float -> float -> float -> float -> result float)
    (label : label_id) (slider : slider_id) (spin_box : spin_id) (q : lib.query)
    (self ui : ImageCachePrefsLayout) (p : float) (w w' : World) (t : list Event) :
  capacity_spin_box_changed c remap label slider q self p w = Ok (ui, w', t) ->
  w' = w /\ t = [EvLib q] /\ capacity_frame label slider spin_box self ui
  /\ double_spin_boxes ui = double_spin_boxes self.
Proof.
  unfold capacity_spin_box_changed, bind, call, lift. cbv beta iota.
  destruct (let? x := Py.mul_float_int (p / 100) (image_cache w q) in Py.int x)
    as [n|e]; [|discriminate].
  destruct (set_capacity_size_label c (labels self label) n) as [l|e];
    cbn [rbind]; [|discriminate].
  destruct (set_percent_slider remap (sliders self slider) p) as [s|e] eqn:Es;
    cbn [rbind]; [|discriminate].
  intros H. injection H as <- <- <-.
  destruct (set_percent_slider_range remap _ _ _ Es) as [Hmin Hmax].
  split; [reflexivity|]. split; [reflexivity|]. split; [|reflexivity].
  unfold capacity_frame. cbn [with_slider with_label labels sliders double_spin_boxes
    updateEvery_spinBox imageCacheSceneSettings_groupBox update_timer].
  rewrite fn_lookup_insert.
  repeat split; try assumption.
  - intros i Hi. rewrite fn_lookup_insert_ne by congruence. reflexivity.
  - intros j Hj. rewrite fn_lookup_insert_ne by congruence. reflexivity.
Qed.

Lemma ret_Ok_inv {A} (a a' : A) (w w' : World) (t : list Event) :
  ret a w = Ok (a', w', t) -> a' = a /\ w' = w /\ t = [].
Proof. unfold ret. intros H. injection H as <- <- <-. auto. Qed.

(** [set_capacity_widgets] on widgets whose signals are connected: the
    world is left alone, every event is a query of the memory total of
    the slots, only the three widgets change, and the spin box ends with
    the value [set_value_double_spin_box] gives it. *)
Lemma layout_set_capacity_widgets_inv (c : Constants)
    (remap : float -> float -> float -> float -> float -> result float)
    (label : label_id) (slider : slider_id) (spin_box : spin_id) (q : lib.query)
    (self ui : ImageCachePrefsLayout) (n : Z) (p : float) (w w' : World)
    (t : list Event) :
  slider_slot c remap slider = capacity_slider_changed c remap label spin_box slider q ->
  spin_box_slot c remap spin_box = capacity_spin_box_changed c remap label slider q ->
  layout_set_capacity_widgets c remap self label slider spin_box n p w = Ok (ui, w', t) ->
  w' = w /\ Forall (fun ev => ev = EvLib q) t
  /\ capacity_frame label slider spin_box self ui
  /\ set_value_double_spin_box (double_spin_boxes self spin_box) p
     = Ok (double_spin_boxes ui spin_box).
Proof.
  intros Hslider Hspin. unfold layout_set_capacity_widgets. intros H.
  apply bind_Ok_inv in H. destruct H as (l & w1 & t1 & r1 & H1 & H & ->).
  apply lift_Ok_inv in H1. destruct H1 as (Hl & -> & ->).
  apply bind_Ok_inv in H. destruct H as (s & w2 & t2 & r2 & H2 & H & ->).
  apply lift_Ok_inv in H2. destruct H2 as (Hs & -> & ->).
  cbn [with_label sliders] in Hs.
  destruct (set_percent_slider_range remap _ _ _ Hs) as [Hmin Hmax].
  apply bind_Ok_inv in H. destruct H as (u3 & w3 & t3 & r3 & H3 & H & ->).
  set (u2 := with_slider (with_label self label l) slider s) in *.
  assert (F2 : capacity_frame label slider spin_box self u2).
  { unfold capacity_frame, u2. cbn [with_slider with_label labels sliders double_spin_boxes
      updateEvery_spinBox imageCacheSceneSettings_groupBox update_timer].
    rewrite fn_lookup_insert. repeat split; try assumption.
    - intros i Hi. rewrite fn_lookup_insert_ne by congruence. reflexivity.
    - intros j Hj. rewrite fn_lookup_insert_ne by congruence. reflexivity. }
  assert (S2 : double_spin_boxes u2 = double_spin_boxes self) by reflexivity.
  assert (H3' : w3 = w /\ Forall (fun ev => ev = EvLib q) t3
                /\ capacity_frame label slider spin_box u2 u3).
  { destruct (slider_value s =? _).
    - apply ret_Ok_inv in H3. destruct H3 as (-> & -> & ->).
      split; [reflexivity|]. split; [constructor|apply capacity_frame_refl].
    - rewrite Hslider in H3. apply capacity_slider_changed_frame in H3.
      destruct H3 as (-> & -> & F & _).
      split; [reflexivity|]. split; [repeat constructor|exact F]. }
  destruct H3' as (-> & Ht3 & F3).
  apply bind_Ok_inv in H. destruct H as (b & w4 & t4 & r4 & H4 & H & ->).
  apply lift_Ok_inv in H4. destruct H4 as (Hb & -> & ->).
  rewrite (set_value_double_spin_box_any _ (double_spin_boxes self spin_box)) in Hb.
  set (u4 := with_spin u3 spin_box b) in *.
  assert (F4 : capacity_frame label slider spin_box u3 u4).
  { unfold capacity_frame, u4. cbn [with_spin labels sliders double_spin_boxes
      updateEvery_spinBox imageCacheSceneSettings_groupBox update_timer].
    repeat split. intros j Hj. rewrite fn_lookup_insert_ne by congruence. reflexivity. }
  assert (B4 : double_spin_boxes u4 spin_box = b).
  { unfold u4. cbn [with_spin double_spin_boxes]. apply fn_lookup_insert. }
  assert (H5 : w' = w /\ Forall (fun ev => ev = EvLib q) r4
               /\ capacity_frame label slider spin_box u4 ui
               /\ double_spin_boxes ui spin_box = b).
  { destruct (spin_value b =? _)%float.
    - apply ret_Ok_inv in H. destruct H as (-> & -> & ->).
      split; [reflexivity|]. split; [constructor|].
      split; [apply capacity_frame_refl|exact B4].
    - rewrite Hspin in H.
      apply (capacity_spin_box_changed_frame c remap label slider spin_box) in H.
      destruct H as (-> & -> & F & Hsame).
      split; [reflexivity|]. split; [repeat constructor|].
      split; [exact F|]. rewrite Hsame. exact B4. }
  destruct H5 as (-> & Ht5 & F5 & B5).
  split; [reflexivity|]. split.
  { cbn [app]. apply Forall_app. split; [exact Ht3|]. exact Ht5. }
  split.
  { eapply capacity_frame_trans; [exact F2|].
    eapply capacity_frame_trans; [exact F3|].
    eapply capacity_frame_trans; [exact F4|exact F5]. }
  rewrite B5. exact Hb.
Qed.

Lemma updateEvery_spinBox_setValue_run (c : Constants) (self : ImageCachePrefsLayout)
    (v : Z) (w : World) :
  updateEvery_spinBox_setValue c self v w
  = if v =? updateEvery_spinBox self
    then Ok (with_updateEvery self v, w, [])
    else Ok (with_timer (with_updateEvery self v) {| interval := v * 1000 |},
             {| config_file :=
                  Some (<[CONFIG_UPDATE_EVERY_N_SECONDS_KEY c := PyInt v]>
                          (default ∅ (config_file w)));
                scene_options := scene_options w;
                image_cache := image_cache w |},
             (match config_file w with Some _ => [EvConfigRead] | None => [] end
              ++ [EvConfigWrite]) ++ []).
Proof.
  unfold updateEvery_spinBox_setValue. destruct (v =? updateEvery_spinBox self);
    [reflexivity|].
  unfold bind. rewrite update_every_changed_run. reflexivity.
Qed.

(** The events of the capacity widgets: queries of the two memory
    totals. *)
Lemma total_query_is_lib (q : lib.query) (t : list Event) :
  Forall (fun ev => ev = EvLib q) t -> Forall (fun ev => is_lib_event ev = true) t.
Proof. intros H. induction H as [|ev t' -> _ IH]; constructor; [reflexivity|exact IH]. Qed.

Lemma show_capacities_inv (c : Constants)
    (remap : float -> float -> float -> float -> float -> result float)
    (self ui : ImageCachePrefsLayout) (flag : PyValue) (dg dc sg sc : CapacityValue)
    (w w' : World) (t : list Event) :
  show_capacities c remap self flag dg dc sg sc w = Ok (ui, w', t) ->
  w' = w
  /\ Forall (fun ev => is_lib_event ev = true) t
  /\ imageCacheSceneSettings_groupBox ui = is_True flag
  /\ updateEvery_spinBox ui = updateEvery_spinBox self
  /\ update_timer ui = update_timer self
  /\ (forall i, is_telemetry_label i = true -> labels ui i = labels self i)
  /\ (forall j, minimum (sliders ui j) = minimum (sliders self j)
                /\ maximum (sliders ui j) = maximum (sliders self j))
  /\ set_value_double_spin_box (double_spin_boxes self gpuCacheDefaultCapacity_doubleSpinBox)
       (percent dg) = Ok (double_spin_boxes ui gpuCacheDefaultCapacity_doubleSpinBox)
  /\ set_value_double_spin_box (double_spin_boxes self cpuCacheDefaultCapacity_doubleSpinBox)
       (percent dc) = Ok (double_spin_boxes ui cpuCacheDefaultCapacity_doubleSpinBox)
  /\ set_value_double_spin_box (double_spin_boxes self gpuCacheSceneCapacity_doubleSpinBox)
       (percent sg) = Ok (double_spin_boxes ui gpuCacheSceneCapacity_doubleSpinBox)
  /\ set_value_double_spin_box (double_spin_boxes self cpuCacheSceneCapacity_doubleSpinBox)
       (percent sc) = Ok (double_spin_boxes ui cpuCacheSceneCapacity_doubleSpinBox).
Proof.
  unfold show_capacities. intros H.
  apply bind_Ok_inv in H. destruct H as (u1 & w1 & t1 & r1 & H1 & H & ->).
  apply (layout_set_capacity_widgets_inv c remap _ _ _ lib.get_gpu_memory_total_bytes)
    in H1; [|reflexivity|reflexivity].
  destruct H1 as (-> & T1 & (L1 & S1 & Mn1 & Mx1 & B1 & U1 & G1 & R1) & V1).
  apply bind_Ok_inv in H. destruct H as (u2 & w2 & t2 & r2 & H2 & H & ->).
  apply (layout_set_capacity_widgets_inv c remap _ _ _ lib.get_cpu_memory_total_bytes)
    in H2; [|reflexivity|reflexivity].
  destruct H2 as (-> & T2 & (L2 & S2 & Mn2 & Mx2 & B2 & U2 & G2 & R2) & V2).
  apply bind_Ok_inv in H. destruct H as (u3 & w3 & t3 & r3 & H3 & H & ->).
  apply (layout_set_capacity_widgets_inv c remap _ _ _ lib.get_gpu_memory_total_bytes)
    in H3; [|reflexivity|reflexivity].
  destruct H3 as (-> & T3 & (L3 & S3 & Mn3 & Mx3 & B3 & U3 & G3 & R3) & V3).
  apply (layout_set_capacity_widgets_inv c remap _ _ _ lib.get_cpu_memory_total_bytes)
    in H; [|reflexivity|reflexivity].
  destruct H as (-> & T4 & (L4 & S4 & Mn4 & Mx4 & B4 & U4 & G4 & R4) & V4).
  cbn [setChecked labels sliders double_spin_boxes updateEvery_spinBox
         imageCacheSceneSettings_groupBox update_timer] in *.
  split; [reflexivity|]. split.
  { repeat (apply Forall_app; split); eapply total_query_is_lib; eassumption. }
  split; [congruence|]. split; [congruence|]. split; [congruence|]. split.
  { intros i Hi.
    destruct i; try discriminate Hi;
      rewrite L4, L3, L2, L1 by (intros E; discriminate E); reflexivity. }
  split.
  { intros j. destruct j.
    - rewrite S4, S3, S2 by discriminate. split; assumption.
    - rewrite S4, S3 by discriminate. rewrite Mn2, Mx2. rewrite S1 by discriminate.
      split; reflexivity.
    - rewrite S4 by discriminate. rewrite Mn3, Mx3. rewrite S2, S1 by discriminate.
      split; reflexivity.
    - rewrite Mn4, Mx4. rewrite S3, S2, S1 by discriminate. split; reflexivity. }
  split.
  { rewrite B4, B3, B2 by discriminate. exact V1. }
  split.
  { rewrite B4, B3 by discriminate. rewrite B1 in V2 by discriminate. exact V2. }
  split.
  { rewrite B4 by discriminate. rewrite B2, B1 in V3 by discriminate. exact V3. }
  rewrite B3, B2, B1 in V4 by discriminate. exact V4.
Qed.

(** * Inverting a run of [reset_options] *)

Lemma default_getter_Ok_run (key : string) (q : lib.query)
    (config : option config_utils.Config) (w w1 : World) (a : CapacityValue)
    (t : list Event) :
  (let* percent := lift (assert_float (get_config_value config key (PyFloat (or_zero None)))) in
   capacity_value_of q percent) w = Ok (a, w1, t) ->
  w1 = w /\ t = [EvLib q]
  /\ forall w0, image_cache w0 = image_cache w ->
       (let* percent :=
          lift (assert_float (get_config_value config key (PyFloat (or_zero None)))) in
        capacity_value_of q percent) w0 = Ok (a, w0, [EvLib q]).
Proof.
  pose proof (default_getter_full_run key q config) as F.
  set (m := bind _ _) in *. rewrite F.
  destruct (assert_float (get_config_value config key (PyFloat 0))) as [p|e] eqn:Ep;
    [|discriminate].
  intros H. apply queried_live_Ok_inv in H. destruct H as (Hc & -> & ->).
  split; [reflexivity|]. split; [reflexivity|].
  intros w0 Hw0. rewrite F, Hw0, Hc. reflexivity.
Qed.

Lemma scene_getter_Ok_run (key : string) (q : lib.query) (w w1 : World)
    (a : CapacityValue) (t : list Event) :
  (let* v := configmaya.get_scene_option key (PyFloat (or_zero None)) in
   let* percent := lift (assert_float v) in
   capacity_value_of q percent) w = Ok (a, w1, t) ->
  w1 = w /\ t = [EvSceneGet key; EvLib q]
  /\ forall w0, image_cache w0 = image_cache w -> scene_options w0 = scene_options w ->
       (let* v := configmaya.get_scene_option key (PyFloat (or_zero None)) in
        let* percent := lift (assert_float v) in
        capacity_value_of q percent) w0 = Ok (a, w0, [EvSceneGet key; EvLib q]).
Proof.
  pose proof (scene_getter_run key q) as F.
  set (m := bind _ _) in *. rewrite F.
  destruct (assert_float (default (PyFloat 0) (scene_options w !! key))) as [p|e] eqn:Ep;
    [|discriminate].
  intros H. apply scene_queried_Ok_inv in H. destruct H as (Hc & -> & ->).
  split; [reflexivity|]. split; [reflexivity|].
  intros w0 Hw0 Hs0. rewrite F, Hs0, Ep, Hw0, Hc. reflexivity.
Qed.

Lemma override_Ok_run (c : Constants) (w w1 : World) (v : PyValue) (t : list Event) :
  get_cache_scene_override c w = Ok (v, w1, t) ->
  w1 = w /\ t = [EvSceneGet (CONFIG_SCENE_CAPACITY_OVERRIDE_KEY c)]
  /\ forall w0, scene_options w0 = scene_options w ->
       get_cache_scene_override c w0
       = Ok (v, w0, [EvSceneGet (CONFIG_SCENE_CAPACITY_OVERRIDE_KEY c)]).
Proof.
  rewrite get_cache_scene_override_run.
  destruct (assert_none_or_bool _) as [v'|e] eqn:Ev; [|discriminate].
  intros H. injection H as <- <- <-. split; [reflexivity|]. split; [reflexivity|].
  intros w0 Hs0. rewrite get_cache_scene_override_run, Hs0, Ev. reflexivity.
Qed.

Lemma updateEvery_spinBox_setValue_world (c : Constants)
    (self u1 : ImageCachePrefsLayout) (v : Z) (w wa : World) (t : list Event) :
  updateEvery_spinBox_setValue c self v w = Ok (u1, wa, t) ->
  wa = (if v =? updateEvery_spinBox self then w else update_every_stored c v w)
  /\ scene_options wa = scene_options w
  /\ image_cache wa = image_cache w
  /\ (forall scene_override,
        Forall (reset_event c (negb (v =? updateEvery_spinBox self)) scene_override) t)
  /\ labels u1 = labels self
  /\ sliders u1 = sliders self
  /\ double_spin_boxes u1 = double_spin_boxes self
  /\ imageCacheSceneSettings_groupBox u1 = imageCacheSceneSettings_groupBox self
  /\ updateEvery_spinBox u1 = v
  /\ update_timer u1 = (if v =? updateEvery_spinBox self then update_timer self
                        else {| interval := v * 1000 |}).
Proof.
  rewrite updateEvery_spinBox_setValue_run.
  destruct (v =? updateEvery_spinBox self); intros H; injection H as <- <- <-.
  - repeat split. constructor.
  - repeat split. intros so. cbn [negb]. destruct (config_file w); repeat constructor.
Qed.

(** The steps of a [reset_options] that returns. *)
Lemma reset_options_steps (c : Constants)
    (remap : float -> float -> float -> float -> float -> result float)
    (self ui : ImageCachePrefsLayout) (w w' : World) (t : list Event) :
  reset_options c remap self w = Ok (ui, w', t) ->
  exists ui0 secs u1 wa tu dg dc flag sg sc ts t2,
    update_resource_values c self w = Ok (ui0, w, map EvLib telemetry_queries)
    /\ get_update_every_n_seconds c (Some (config_of w)) None = Ok secs
    /\ updateEvery_spinBox_setValue c ui0 secs w = Ok (u1, wa, tu)
    /\ get_gpu_cache_capacity_percent_default c (Some (config_of w)) None w
       = Ok (dg, w, [EvLib lib.get_gpu_memory_total_bytes])
    /\ get_cpu_cache_capacity_percent_default c (Some (config_of w)) None w
       = Ok (dc, w, [EvLib lib.get_cpu_memory_total_bytes])
    /\ get_cache_scene_override c w
       = Ok (flag, w, [EvSceneGet (CONFIG_SCENE_CAPACITY_OVERRIDE_KEY c)])
    /\ (if is_True flag
        then get_gpu_cache_capacity_percent_scene c None w
             = Ok (sg, w, [EvSceneGet (CONFIG_SCENE_GPU_CAPACITY_PERCENT_KEY c);
                           EvLib lib.get_gpu_memory_total_bytes])
             /\ get_cpu_cache_capacity_percent_scene c None w
                = Ok (sc, w, [EvSceneGet (CONFIG_SCENE_CPU_CAPACITY_PERCENT_KEY c);
                              EvLib lib.get_cpu_memory_total_bytes])
             /\ ts = [EvSceneGet (CONFIG_SCENE_GPU_CAPACITY_PERCENT_KEY c);
                      EvLib lib.get_gpu_memory_total_bytes;
                      EvSceneGet (CONFIG_SCENE_CPU_CAPACITY_PERCENT_KEY c);
                      EvLib lib.get_cpu_memory_total_bytes]
        else sg = dg /\ sc = dc /\ ts = [])
    /\ show_capacities c remap u1 flag dg dc sg sc wa = Ok (ui, w', t2)
    /\ t = map EvLib telemetry_queries
           ++ match config_file w with Some _ => [EvConfigRead] | None => [] end
           ++ tu
           ++ [EvLib lib.get_gpu_memory_total_bytes]
           ++ [EvLib lib.get_cpu_memory_total_bytes]
           ++ [EvSceneGet (CONFIG_SCENE_CAPACITY_OVERRIDE_KEY c)]
           ++ ts ++ t2.
Proof.
  unfold reset_options. intros H.
  apply bind_Ok_inv in H. destruct H as (ui0 & w1 & t1 & r1 & H1 & H & ->).
  pose proof H1 as H1'. apply update_resource_values_Ok in H1'. destruct H1' as [-> ->].
  apply bind_Ok_inv in H. destruct H as (cfg & w2 & t2 & r2 & H2 & H & ->).
  rewrite get_config_run in H2. injection H2 as <- <- <-.
  apply bind_Ok_inv in H. destruct H as (secs & w3 & t3 & r3 & H3 & H & ->).
  apply lift_Ok_inv in H3. destruct H3 as (H3 & -> & ->).
  apply bind_Ok_inv in H. destruct H as (u1 & wa & tu & ru & Hu & H & ->).
  destruct (updateEvery_spinBox_setValue_world _ _ _ _ _ _ _ Hu) as (_ & Hso & Hic & _).
  apply bind_Ok_inv in H. destruct H as (dg & w4 & t4 & r4 & H4 & H & ->).
  apply default_getter_Ok_run in H4. destruct H4 as (-> & -> & H4).
  apply bind_Ok_inv in H. destruct H as (dc & w5 & t5 & r5 & H5 & H & ->).
  apply default_getter_Ok_run in H5. destruct H5 as (-> & -> & H5).
  apply bind_Ok_inv in H. destruct H as (flag & w6 & t6 & r6 & H6 & H & ->).
  apply override_Ok_run in H6. destruct H6 as (-> & -> & H6).
  apply bind_Ok_inv in H. destruct H as ([sg sc] & w7 & t7 & r7 & H7 & H & ->).
  cbn [fst snd] in H.
  assert (Hscene : w7 = wa
            /\ (if is_True flag
                then get_gpu_cache_capacity_percent_scene c None w
                     = Ok (sg, w, [EvSceneGet (CONFIG_SCENE_GPU_CAPACITY_PERCENT_KEY c);
                                   EvLib lib.get_gpu_memory_total_bytes])
                     /\ get_cpu_cache_capacity_percent_scene c None w
                        = Ok (sc, w, [EvSceneGet (CONFIG_SCENE_CPU_CAPACITY_PERCENT_KEY c);
                                      EvLib lib.get_cpu_memory_total_bytes])
                     /\ t7 = [EvSceneGet (CONFIG_SCENE_GPU_CAPACITY_PERCENT_KEY c);
                              EvLib lib.get_gpu_memory_total_bytes;
                              EvSceneGet (CONFIG_SCENE_CPU_CAPACITY_PERCENT_KEY c);
                              EvLib lib.get_cpu_memory_total_bytes]
                else sg = dg /\ sc = dc /\ t7 = [])).
  { destruct (is_True flag).
    - apply bind_Ok_inv in H7. destruct H7 as (sg' & w8 & t8 & r8 & H8 & H7 & ->).
      apply scene_getter_Ok_run in H8. destruct H8 as (-> & -> & H8).
      apply bind_Ok_inv in H7. destruct H7 as (sc' & w9 & t9 & r9 & H9 & H7 & ->).
      apply scene_getter_Ok_run in H9. destruct H9 as (-> & -> & H9).
      apply ret_Ok_inv in H7. destruct H7 as (E & -> & ->). injection E as <- <-.
      split; [reflexivity|].
      split; [apply (H8 w); symmetry; assumption|].
      split; [apply (H9 w); symmetry; assumption|reflexivity].
    - apply ret_Ok_inv in H7. destruct H7 as (E & -> & ->). injection E as <- <-.
      split; [reflexivity|]. repeat split. }
  destruct Hscene as (-> & Hsc).
  exists ui0, secs, u1, wa, tu, dg, dc, flag, sg, sc, t7, r7.
  split; [exact H1|]. split; [exact H3|]. split; [exact Hu|].
  split; [apply (H4 w); symmetry; exact Hic|].
  split; [apply (H5 w); symmetry; exact Hic|].
  split; [apply (H6 w); symmetry; exact Hso|].
  split; [exact Hsc|]. split; [exact H|].
  cbn [app]. reflexivity.
Qed.

Lemma update_resource_values_timer (c : Constants) (self ui : ImageCachePrefsLayout)
    (w : World) :
  value (update_resource_values c self w) = Ok ui -> update_timer ui = update_timer self.
Proof.
  unfold update_resource_values, bind, call, lift, on_label. cbv beta iota.
  repeat match goal with
         | |- context [rbind ?r _] =>
             lazymatch r with
             | rbind _ _ => fail
             | Ok _ => fail
             | _ => destruct r as [?l|?e]; cbn [rbind value]; [|discriminate]
             end
         end.
  cbn [rbind value]. intros H. injection H as <-. reflexivity.
Qed.

Lemma lib_events_reset (c : Constants) (b1 b2 : bool) (t : list Event) :
  Forall (fun ev => is_lib_event ev = true) t -> Forall (reset_event c b1 b2) t.
Proof.
  intros H. induction H as [|ev t' Hev _ IH]; constructor; [|exact IH].
  destruct ev; try discriminate Hev. exact I.
Qed.

(** What a [reset_options] that returns has read, written and shown, in
    terms of the world it started from. *)
Lemma reset_options_inv (c : Constants)
    (remap : float -> float -> float -> float -> float -> result float)
    (self ui : ImageCachePrefsLayout) (w w' : World) (t : list Event) :
  reset_options c remap self w = Ok (ui, w', t) ->
  exists ui0 secs dg dc flag sg sc,
    value (update_resource_values c self w) = Ok ui0
    /\ get_update_every_n_seconds c (Some (config_of w)) None = Ok secs
    /\ w' = (if secs =? updateEvery_spinBox self then w else update_every_stored c secs w)
    /\ Forall (reset_event c (negb (secs =? updateEvery_spinBox self)) (is_True flag)) t
    /\ value (get_gpu_cache_capacity_percent_default c (Some (config_of w)) None w) = Ok dg
    /\ value (get_cpu_cache_capacity_percent_default c (Some (config_of w)) None w) = Ok dc
    /\ value (get_cache_scene_override c w) = Ok flag
    /\ (if is_True flag
        then value (get_gpu_cache_capacity_percent_scene c None w) = Ok sg
             /\ value (get_cpu_cache_capacity_percent_scene c None w) = Ok sc
        else sg = dg /\ sc = dc)
    /\ imageCacheSceneSettings_groupBox ui = is_True flag
    /\ updateEvery_spinBox ui = secs
    /\ update_timer ui = (if secs =? updateEvery_spinBox self then update_timer self
                          else {| interval := secs * 1000 |})
    /\ (forall i, is_telemetry_label i = true -> labels ui i = labels ui0 i)
    /\ set_value_double_spin_box (box 0) (percent dg)
       = Ok (double_spin_boxes ui gpuCacheDefaultCapacity_doubleSpinBox)
    /\ set_value_double_spin_box (box 0) (percent dc)
       = Ok (double_spin_boxes ui cpuCacheDefaultCapacity_doubleSpinBox)
    /\ set_value_double_spin_box (box 0) (percent sg)
       = Ok (double_spin_boxes ui gpuCacheSceneCapacity_doubleSpinBox)
    /\ set_value_double_spin_box (box 0) (percent sc)
       = Ok (double_spin_boxes ui cpuCacheSceneCapacity_doubleSpinBox).
Proof.
  intros H. apply reset_options_steps in H.
  destruct H as (ui0 & secs & u1 & wa & tu & dg & dc & flag & sg & sc & ts & t2
                 & H1 & H3 & Hu & H4 & H5 & H6 & Hsc & Hshow & ->).
  assert (V1 : value (update_resource_values c self w) = Ok ui0)
    by (rewrite H1; reflexivity).
  destruct (update_resource_values_frame c self ui0 w V1) as [(_ & _ & Hupd & _) _].
  pose proof (update_resource_values_timer c self ui0 w V1) as Htimer.
  apply updateEvery_spinBox_setValue_world in Hu.
  destruct Hu as (Hwa & _ & _ & Htu & Hl1 & _ & _ & _ & Hu1 & Ht1).
  rewrite Hupd in Hwa, Htu, Ht1. rewrite Htimer in Ht1.
  apply show_capacities_inv in Hshow.
  destruct Hshow as (-> & Ht2 & Hbox & Hue & Htm & Hlab & _ & B1 & B2 & B3 & B4).
  exists ui0, secs, dg, dc, flag, sg, sc.
  split; [exact V1|]. split; [exact H3|]. split; [exact Hwa|]. split.
  { apply Forall_app. split; [apply lib_events_reset; repeat constructor|].
    apply Forall_app. split; [destruct (config_file w); repeat constructor|].
    apply Forall_app. split; [apply Htu|].
    constructor; [exact I|]. constructor; [exact I|].
    constructor; [left; reflexivity|].
    apply Forall_app. split; [|apply lib_events_reset; exact Ht2].
    destruct (is_True flag).
    - destruct Hsc as (_ & _ & ->).
      repeat constructor; right; split; auto.
    - destruct Hsc as (_ & _ & ->). constructor. }
  split; [rewrite H4; reflexivity|]. split; [rewrite H5; reflexivity|].
  split; [rewrite H6; reflexivity|]. split.
  { destruct (is_True flag).
    - destruct Hsc as (Hg & Hc & _). rewrite Hg, Hc. split; reflexivity.
    - destruct Hsc as (-> & -> & _). split; reflexivity. }
  split; [exact Hbox|]. split; [congruence|]. split; [congruence|]. split.
  { intros i Hi. rewrite (Hlab i Hi), Hl1. reflexivity. }
  split; [exact B1|]. split; [exact B2|]. split; [exact B3|exact B4].
Qed.

(** * Settings of the wrong type *)

(** X10. The getters assert the type of what was stored.  A default percent
    in the configuration file that is not a float (an int written by hand,
    say) makes its getter raise [AssertionError]; so does a stored update
    interval that is neither an int nor a bool, and a stored override flag
    that is neither [None] nor a bool.  In each case [reset_options] cannot
    return: the panel does not open. *)
Theorem X10_wrongly_typed_setting_blocks_reset (c : Constants)
    (remap : float -> float -> float -> float -> float -> result float)
    (self : ImageCachePrefsLayout) (w : World) (data : gmap string PyValue) (v : PyValue) :
  config_file w = Some data ->
  let blocked := forall ui w' t, reset_options c remap self w <> Ok (ui, w', t) in
  (data !! CONFIG_GPU_CAPACITY_PERCENT_KEY c = Some v -> (forall x, v <> PyFloat x) ->
   get_gpu_cache_capacity_percent_default c (Some (config_of w)) None w
     = Raise AssertionError
   /\ blocked)
  /\ (data !! CONFIG_CPU_CAPACITY_PERCENT_KEY c = Some v -> (forall x, v <> PyFloat x) ->
      get_cpu_cache_capacity_percent_default c (Some (config_of w)) None w
        = Raise AssertionError
      /\ blocked)
  /\ (data !! CONFIG_UPDATE_EVERY_N_SECONDS_KEY c = Some v ->
      (forall n, v <> PyInt n) -> (forall b, v <> PyBool b) ->
      get_update_every_n_seconds c (Some (config_of w)) None = Raise AssertionError
      /\ blocked)
  /\ (scene_options w !! CONFIG_SCENE_CAPACITY_OVERRIDE_KEY c = Some v ->
      v <> PyNone -> (forall b, v <> PyBool b) ->
      get_cache_scene_override c w = Raise AssertionError
      /\ blocked).
Proof.
  intros Hf blocked. unfold blocked. split; [|split; [|split]].
  - intros Hk Hv.
    assert (Hg : get_gpu_cache_capacity_percent_default c (Some (config_of w)) None w
                 = Raise AssertionError).
    { unfold get_gpu_cache_capacity_percent_default.
      rewrite default_getter_full_run, (config_of_present w data _ v _ Hf Hk).
      rewrite (assert_float_not_float v Hv). reflexivity. }
    split; [exact Hg|]. intros ui w' t H. apply reset_options_inv in H.
    destruct H as (ui0 & secs & dg & dc & flag & sg & sc & _ & _ & _ & _ & H4 & _).
    rewrite Hg in H4. discriminate H4.
  - intros Hk Hv.
    assert (Hg : get_cpu_cache_capacity_percent_default c (Some (config_of w)) None w
                 = Raise AssertionError).
    { unfold get_cpu_cache_capacity_percent_default.
      rewrite default_getter_full_run, (config_of_present w data _ v _ Hf Hk).
      rewrite (assert_float_not_float v Hv). reflexivity. }
    split; [exact Hg|]. intros ui w' t H. apply reset_options_inv in H.
    destruct H as (ui0 & secs & dg & dc & flag & sg & sc & _ & _ & _ & _ & _ & H5 & _).
    rewrite Hg in H5. discriminate H5.
  - intros Hk Hn Hb.
    assert (Hg : get_update_every_n_seconds c (Some (config_of w)) None
                 = Raise AssertionError).
    { unfold get_update_every_n_seconds.
      rewrite (config_of_present w data _ v _ Hf Hk).
      destruct v; try reflexivity; exfalso; [apply (Hb b)|apply (Hn n)]; reflexivity. }
    split; [exact Hg|]. intros ui w' t H. apply reset_options_inv in H.
    destruct H as (ui0 & secs & dg & dc & flag & sg & sc & _ & H3 & _).
    rewrite Hg in H3. discriminate H3.
  - intros Hk Hn Hb.
    assert (Hg : get_cache_scene_override c w = Raise AssertionError).
    { rewrite get_cache_scene_override_run, Hk.
      destruct v; try reflexivity; exfalso; [apply Hn|apply (Hb b)]; reflexivity. }
    split; [exact Hg|]. intros ui w' t H. apply reset_options_inv in H.
    destruct H as (ui0 & secs & dg & dc & flag & sg & sc & _ & _ & _ & _ & _ & _ & H6 & _).
    rewrite Hg in H6. discriminate H6.
Qed.

Lemma X10_witness :
  get_gpu_cache_capacity_percent_default sample_const
    (Some (config_of (sample_world (Some {[ "gpu_capacity_percent" := PyInt 50 ]}) ∅)))
    None (sample_world (Some {[ "gpu_capacity_percent" := PyInt 50 ]}) ∅)
  = Raise AssertionError.
Proof.
  refine (proj1 (proj1 (X10_wrongly_typed_setting_blocks_reset sample_const remap_linear
                          sample_layout
                          (sample_world (Some {[ "gpu_capacity_percent" := PyInt 50 ]}) ∅)
                          {[ "gpu_capacity_percent" := PyInt 50 ]} (PyInt 50) eq_refl)
                   _ _)).
  - reflexivity.
  - discriminate.
Defined.

(** * Truncated percents *)

(** X11. After a [reset_options] the spin boxes hold truncated percents,
    and the panel resolves from them: for each pool, the percent
    [get_gpu_capacity_bytes] / [get_cpu_capacity_bytes] then resolves is
    [float(int(p))], where [p] is the percent of the capacity the getters
    resolve for the stored settings. *)
Theorem X11_reset_options_resolves_truncated_percents (c : Constants)
    (remap : float -> float -> float -> float -> float -> result float)
    (self ui : ImageCachePrefsLayout) (w w' : World) (t : list Event) :
  reset_options c remap self w = Ok (ui, w', t) ->
  exists gpu_capacity cpu_capacity,
    stored_gpu_capacity c w = Ok gpu_capacity
    /\ stored_cpu_capacity c w = Ok cpu_capacity
    /\ truncation_of (resolved_gpu_percent ui) (percent gpu_capacity)
    /\ truncation_of (resolved_cpu_percent ui) (percent cpu_capacity)
    /\ get_gpu_capacity_bytes ui w
       = queried_live lib.get_gpu_memory_total_bytes
           (let? x := Py.mul_float_int (resolved_gpu_percent ui / 100)
                        (image_cache w lib.get_gpu_memory_total_bytes) in Py.int x) w
    /\ get_cpu_capacity_bytes ui w
       = queried_live lib.get_cpu_memory_total_bytes
           (let? x := Py.mul_float_int (resolved_cpu_percent ui / 100)
                        (image_cache w lib.get_cpu_memory_total_bytes) in Py.int x) w.
Proof.
  intros H. apply reset_options_inv in H.
  destruct H as (ui0 & secs & dg & dc & flag & sg & sc & _ & _ & _ & _ & H4 & H5 & H6
                 & Hsc & Hbox & _ & _ & _ & Hdg & Hdc & Hsg & Hsc').
  apply set_value_truncates in Hdg, Hdc, Hsg, Hsc'.
  unfold stored_gpu_capacity, stored_cpu_capacity, resolved_gpu_percent,
    resolved_cpu_percent.
  rewrite H6, Hbox. cbn [rbind].
  destruct (is_True flag).
  - destruct Hsc as [Hg Hc]. exists sg, sc.
    split; [exact Hg|]. split; [exact Hc|]. split; [exact Hsg|]. split; [exact Hsc'|].
    split; [rewrite get_gpu_capacity_bytes_run|rewrite get_cpu_capacity_bytes_run];
      unfold resolved_gpu_percent, resolved_cpu_percent; rewrite Hbox; reflexivity.
  - destruct Hsc as [-> ->]. exists dg, dc.
    split; [exact H4|]. split; [exact H5|]. split; [exact Hdg|]. split; [exact Hdc|].
    split; [rewrite get_gpu_capacity_bytes_run|rewrite get_cpu_capacity_bytes_run];
      unfold resolved_gpu_percent, resolved_cpu_percent; rewrite Hbox; reflexivity.
Qed.

Lemma X11_witness :
  match reset_options sample_const remap_linear sample_layout sample_stored_world with
  | Ok (ui, _, _) =>
      value (get_gpu_cache_capacity_percent_default sample_const
               (Some (config_of sample_stored_world)) None sample_stored_world)
        = Ok {| size_bytes := 125; percent := 12.5 |}
      /\ value (get_gpu_capacity_bytes ui sample_stored_world) = Ok 120
  | Raise _ => False
  end.
Proof.
  destruct (reset_options sample_const remap_linear sample_layout sample_stored_world)
    as [[[ui w'] t]|e] eqn:E.
  - split; [reflexivity|].
    destruct (X11_reset_options_resolves_truncated_percents _ _ _ _ _ _ _ E)
      as (g & k & Hg & _ & (n & Hn & Hy) & _ & Hrun & _).
    rewrite Hrun. vm_compute in Hg. injection Hg as <-.
    vm_compute in Hn. injection Hn as <-.
    assert (Hf : Py.float_of_int 12 = Ok 12%float) by reflexivity.
    rewrite Hf in Hy. injection Hy as Hy. rewrite <- Hy. reflexivity.
  - vm_compute in E. discriminate E.
Defined.

(** * Opening the panel and saving *)

(** X12. Opening the panel, saving and opening it again shows the same
    settings: once [reset_options] has populated the widgets and
    [save_options] has stored them (in the world the reset left, in the
    one it started from, or in any other), a second [reset_options] (on
    any layout) that returns leaves every spin box, the override group box
    and the update spin box as the first one left them. *)
Theorem X12_reset_save_reset_is_stable (c : Constants)
    (remap : float -> float -> float -> float -> float -> result float)
    (self self2 ui ui2 : ImageCachePrefsLayout) (w w1 w0 w3 : World)
    (t1 t3 : list Event) :
  config_keys_distinct c -> scene_keys_distinct c ->
  reset_options c remap self w = Ok (ui, w1, t1) ->
  reset_options c remap self2 (world_after (save_options c ui w0) w0) = Ok (ui2, w3, t3) ->
  (forall b, double_spin_boxes ui2 b = double_spin_boxes ui b)
  /\ imageCacheSceneSettings_groupBox ui2 = imageCacheSceneSettings_groupBox ui
  /\ updateEvery_spinBox ui2 = updateEvery_spinBox ui.
Proof.
  intros Hcd Hsd H1 H2.
  apply reset_options_inv in H1.
  destruct H1 as (ui0 & secs & dg & dc & flag & sg & sc & _ & _ & _ & _ & _ & _ & _
                  & Hsc & Hbox & _ & _ & _ & Hdg & Hdc & Hsg & Hsc').
  apply reset_options_inv in H2.
  destruct H2 as (ui0' & secs' & dg' & dc' & flag' & sg' & sc' & _ & K3 & _ & _ & K4 & K5
                  & K6 & Ksc & Kbox & Kup & _ & _ & Kdg & Kdc & Ksg & Ksc').
  set (w2 := world_after (save_options c ui w0) w0) in *.
  assert (Hw2 : w2 = {| config_file := Some (saved_config c ui (config_file w0));
                        scene_options := saved_scene c ui (scene_options w0);
                        image_cache := image_cache w0 |}) by apply save_options_world.
  assert (Hcf : config_file w2 = Some (saved_config c ui (config_file w0)))
    by (rewrite Hw2; reflexivity).
  assert (Hso : scene_options w2 = saved_scene c ui (scene_options w0))
    by (rewrite Hw2; reflexivity).
  destruct (saved_config_lookup c ui (config_file w0) Hcd) as (Lu & Lg & Lc).
  destruct (saved_scene_lookup c ui (scene_options w0) Hsd) as (Lo & Lscene).
  (* the update interval *)
  assert (Hsecs : secs' = updateEvery_spinBox ui).
  { unfold get_update_every_n_seconds in K3.
    rewrite (config_of_present w2 _ _ _ _ Hcf Lu) in K3. simpl in K3. congruence. }
  (* the default percents *)
  pose proof (default_getter_percent _ _ w2 _ _ dg' Hcf Lg K4) as Pg.
  pose proof (default_getter_percent _ _ w2 _ _ dc' Hcf Lc K5) as Pc.
  assert (Edg : double_spin_boxes ui2 gpuCacheDefaultCapacity_doubleSpinBox
                = double_spin_boxes ui gpuCacheDefaultCapacity_doubleSpinBox).
  { rewrite Pg in Kdg.
    apply (spin_box_eq _ _ _ (set_value_fixed_point _ (box 0) _ _ Hdg) _ _ Kdg). }
  assert (Edc : double_spin_boxes ui2 cpuCacheDefaultCapacity_doubleSpinBox
                = double_spin_boxes ui cpuCacheDefaultCapacity_doubleSpinBox).
  { rewrite Pc in Kdc.
    apply (spin_box_eq _ _ _ (set_value_fixed_point _ (box 0) _ _ Hdc) _ _ Kdc). }
  (* the override flag *)
  assert (Hflag : flag' = PyBool (imageCacheSceneSettings_groupBox ui)).
  { rewrite get_cache_scene_override_run, Hso, Lo in K6. simpl in K6. congruence. }
  assert (Eflag : is_True flag' = imageCacheSceneSettings_groupBox ui).
  { rewrite Hflag. destruct (imageCacheSceneSettings_groupBox ui); reflexivity. }
  rewrite Eflag in Ksc, Kbox.
  (* the scene percents *)
  assert (Escene : double_spin_boxes ui2 gpuCacheSceneCapacity_doubleSpinBox
                   = double_spin_boxes ui gpuCacheSceneCapacity_doubleSpinBox
                   /\ double_spin_boxes ui2 cpuCacheSceneCapacity_doubleSpinBox
                      = double_spin_boxes ui cpuCacheSceneCapacity_doubleSpinBox).
  { destruct (imageCacheSceneSettings_groupBox ui) eqn:Eb.
    - destruct (Lscene eq_refl) as [Lsg Lsc]. destruct Ksc as [Kg Kc].
      rewrite <- Hso in Lsg, Lsc.
      pose proof (scene_getter_percent _ _ w2 _ sg' Lsg Kg) as Psg.
      pose proof (scene_getter_percent _ _ w2 _ sc' Lsc Kc) as Psc.
      rewrite Psg in Ksg. rewrite Psc in Ksc'. split.
      + apply (spin_box_eq _ _ _ (set_value_fixed_point _ (box 0) _ _ Hsg) _ _ Ksg).
      + apply (spin_box_eq _ _ _ (set_value_fixed_point _ (box 0) _ _ Hsc') _ _ Ksc').
    - destruct Ksc as [-> ->]. rewrite <- Hbox in Hsc. destruct Hsc as [-> ->].
      rewrite Pg in Ksg. rewrite Pc in Ksc'. split.
      + rewrite (spin_box_eq _ _ _ Hdg _ _ Hsg).
        apply (spin_box_eq _ _ _ (set_value_fixed_point _ (box 0) _ _ Hdg) _ _ Ksg).
      + rewrite (spin_box_eq _ _ _ Hdc _ _ Hsc').
        apply (spin_box_eq _ _ _ (set_value_fixed_point _ (box 0) _ _ Hdc) _ _ Ksc'). }
  destruct Escene as [Esg Esc].
  split; [intros b; destruct b; assumption|]. split; [exact Kbox|]. congruence.
Qed.

Lemma X12_witness :
  match reset_options sample_const remap_linear sample_layout sample_stored_world with
  | Ok (ui, w1, _) =>
      match reset_options sample_const remap_linear sample_layout
              (world_after (save_options sample_const ui w1) w1) with
      | Ok (ui2, _, _) =>
          imageCacheSceneSettings_groupBox ui2 = imageCacheSceneSettings_groupBox ui
          /\ updateEvery_spinBox ui2 = updateEvery_spinBox ui
      | Raise _ => False
      end
  | Raise _ => False
  end.
Proof.
  destruct (reset_options sample_const remap_linear sample_layout sample_stored_world)
    as [[[ui w1] t1]|e] eqn:E1; [|vm_compute in E1; discriminate E1].
  pose proof E1 as E1'. vm_compute in E1'. injection E1' as <- <- <-.
  match goal with
  | |- match ?r with Ok _ => _ | Raise _ => _ end =>
      destruct r as [[[ui2 w3] t3]|e] eqn:E2; [|vm_compute in E2; discriminate E2]
  end.
  refine (proj2 (X12_reset_save_reset_is_stable sample_const remap_linear
                   sample_layout sample_layout _ ui2 sample_stored_world _ _ w3 _ t3
                   _ _ E1 E2)).
  - repeat split; discriminate.
  - repeat split; discriminate.
Defined.

(** X13. Opening the panel and saving without touching a widget rewrites
    the stored default percents: after [reset_options] then
    [save_options] (in the world the reset left, in the one it started
    from, or in any other), the configuration file holds [float(int(p))]
    where it held the float [p] when the panel opened, for each pool. *)
Theorem X13_open_and_save_truncates_stored_percents (c : Constants)
    (remap : float -> float -> float -> float -> float -> result float)
    (self ui : ImageCachePrefsLayout) (w w1 w0 : World) (t1 : list Event)
    (data : gmap string PyValue) :
  config_keys_distinct c ->
  reset_options c remap self w = Ok (ui, w1, t1) ->
  config_file w = Some data ->
  let saved := config_file (world_after (save_options c ui w0) w0) in
  (forall p, data !! CONFIG_GPU_CAPACITY_PERCENT_KEY c = Some (PyFloat p) ->
     exists y, truncation_of y p
               /\ (saved ≫= fun d => d !! CONFIG_GPU_CAPACITY_PERCENT_KEY c)
                  = Some (PyFloat y))
  /\ (forall p, data !! CONFIG_CPU_CAPACITY_PERCENT_KEY c = Some (PyFloat p) ->
        exists y, truncation_of y p
                  /\ (saved ≫= fun d => d !! CONFIG_CPU_CAPACITY_PERCENT_KEY c)
                     = Some (PyFloat y)).
Proof.
  intros Hcd H1 Hf saved. unfold saved. rewrite save_options_world. cbn [config_file].
  simpl mbind.
  destruct (saved_config_lookup c ui (config_file w0) Hcd) as (_ & Lg & Lc).
  apply reset_options_inv in H1.
  destruct H1 as (ui0 & secs & dg & dc & flag & sg & sc & _ & _ & _ & _ & H4 & H5 & _
                  & _ & _ & _ & _ & _ & Hdg & Hdc & _).
  apply set_value_truncates in Hdg, Hdc.
  split; intros p Hp.
  - rewrite (default_getter_percent _ _ w _ _ dg Hf Hp H4) in Hdg.
    eexists. split; [exact Hdg|exact Lg].
  - rewrite (default_getter_percent _ _ w _ _ dc Hf Hp H5) in Hdc.
    eexists. split; [exact Hdc|exact Lc].
Qed.

Lemma X13_witness :
  match reset_options sample_const remap_linear sample_layout sample_stored_world with
  | Ok (ui, w1, _) =>
      exists y, truncation_of y 12.5
                /\ (config_file (world_after (save_options sample_const ui w1) w1)
                      ≫= fun d => d !! "gpu_capacity_percent") = Some (PyFloat y)
  | Raise _ => False
  end.
Proof.
  destruct (reset_options sample_const remap_linear sample_layout sample_stored_world)
    as [[[ui w1] t1]|e] eqn:E1; [|vm_compute in E1; discriminate E1].
  refine (proj1 (X13_open_and_save_truncates_stored_percents sample_const remap_linear
                   sample_layout ui sample_stored_world w1 w1 t1 _ _ E1 eq_refl)
            12.5%float _).
  - repeat split; discriminate.
  - reflexivity.
Defined.

(** * What a reset writes and shows *)

Lemma reset_event_not_set (c : Constants) (b1 b2 : bool) (ev : Event) :
  reset_event c b1 b2 ev -> forall name v, ev <> EvSceneSet name v.
Proof. intros H name v ->. exact H. Qed.

Lemma reset_event_read (c : Constants) (b : bool) (ev : Event) :
  reset_event c false b ev -> is_read_event ev.
Proof. destruct ev; simpl; auto. discriminate. Qed.

(** X8. What [reset_options] writes.  A run that returns never sets a
    scene option and leaves the scene options and the cache as they were.
    It writes the configuration file only through the slot of the update
    spin box: when the stored update interval is the value the spin box
    held, the world is the one the run started from, every event is a
    query or a read and the timer is left alone; otherwise the file ends
    with the interval under its key, next to what it held under the other
    keys, and the timer runs at 1000 times the interval.  The update spin
    box ends at the stored interval, and the telemetry labels are those
    [update_resource_values] computes in the world the run started
    from. *)
Theorem X8_reset_options_writes_the_interval_at_most (c : Constants)
    (remap : float -> float -> float -> float -> float -> result float)
    (self ui : ImageCachePrefsLayout) (w w' : World) (t : list Event) :
  reset_options c remap self w = Ok (ui, w', t) ->
  scene_options w' = scene_options w
  /\ image_cache w' = image_cache w
  /\ Forall (fun ev => forall name v, ev <> EvSceneSet name v) t
  /\ (exists secs,
        get_update_every_n_seconds c (Some (config_of w)) None = Ok secs
        /\ updateEvery_spinBox ui = secs
        /\ if secs =? updateEvery_spinBox self
           then w' = w /\ Forall is_read_event t /\ update_timer ui = update_timer self
           else w' = update_every_stored c secs w
                /\ update_timer ui = {| interval := secs * 1000 |})
  /\ exists ui0,
       update_resource_values c self w = Ok (ui0, w, map EvLib telemetry_queries)
       /\ (forall i, is_telemetry_label i = true -> labels ui i = labels ui0 i).
Proof.
  intros H. apply reset_options_inv in H.
  destruct H as (ui0 & secs & dg & dc & flag & sg & sc & H1 & H3 & Hw & Ht & _ & _ & _ & _
                 & _ & Hupd & Htimer & Hlab & _).
  split; [rewrite Hw; destruct (secs =? _); reflexivity|].
  split; [rewrite Hw; destruct (secs =? _); reflexivity|].
  split.
  { eapply Forall_impl; [exact Ht|]. intros ev Hev. eapply reset_event_not_set, Hev. }
  split.
  - exists secs. split; [exact H3|]. split; [exact Hupd|].
    destruct (secs =? updateEvery_spinBox self); cbn [negb] in Ht.
    + split; [exact Hw|]. split; [|exact Htimer].
      eapply Forall_impl; [exact Ht|]. intros ev Hev. eapply reset_event_read, Hev.
    + split; [exact Hw|exact Htimer].
  - exists ui0. split; [|exact Hlab].
    rewrite update_resource_values_run, H1. reflexivity.
Qed.

Lemma X8_witness :
  match reset_options sample_const remap_linear sample_layout sample_stored_world with
  | Ok (_, w', t) =>
      scene_options w' = scene_options sample_stored_world
      /\ image_cache w' = image_cache sample_stored_world
      /\ Forall (fun ev => forall name v, ev <> EvSceneSet name v) t
  | Raise _ => False
  end.
Proof.
  destruct (reset_options sample_const remap_linear sample_layout sample_stored_world)
    as [[[ui w'] t]|e] eqn:E.
  - destruct (X8_reset_options_writes_the_interval_at_most _ _ _ _ _ _ _ E)
      as (Hs & Hc & Ht & _).
    split; [exact Hs|]. split; [exact Hc|exact Ht].
  - vm_compute in E. discriminate E.
Defined.

(** The last two steps of [show_capacities]: the scene widgets of each
    pool go through [set_capacity_widgets] with the scene capacities. *)
Lemma show_capacities_scene_steps (c : Constants)
    (remap : float -> float -> float -> float -> float -> result float)
    (self ui : ImageCachePrefsLayout) (flag : PyValue) (dg dc sg sc : CapacityValue)
    (w w' : World) (t : list Event) :
  show_capacities c remap self flag dg dc sg sc w = Ok (ui, w', t) ->
  exists u2 u3 t3 t4,
    layout_set_capacity_widgets c remap (setChecked u2 (is_True flag))
      gpuCacheSceneCapacityValue_label gpuCacheSceneCapacity_horizontalSlider
      gpuCacheSceneCapacity_doubleSpinBox (size_bytes sg) (percent sg) w = Ok (u3, w, t3)
    /\ layout_set_capacity_widgets c remap u3
         cpuCacheSceneCapacityValue_label cpuCacheSceneCapacity_horizontalSlider
         cpuCacheSceneCapacity_doubleSpinBox (size_bytes sc) (percent sc) w = Ok (ui, w', t4).
Proof.
  unfold show_capacities. intros H.
  apply bind_Ok_inv in H. destruct H as (u1 & w1 & t1 & r1 & H1 & H & ->).
  apply (layout_set_capacity_widgets_inv c remap _ _ _ lib.get_gpu_memory_total_bytes)
    in H1; [|reflexivity|reflexivity].
  destruct H1 as (-> & _).
  apply bind_Ok_inv in H. destruct H as (u2 & w2 & t2 & r2 & H2 & H & ->).
  apply (layout_set_capacity_widgets_inv c remap _ _ _ lib.get_cpu_memory_total_bytes)
    in H2; [|reflexivity|reflexivity].
  destruct H2 as (-> & _).
  apply bind_Ok_inv in H. destruct H as (u3 & w3 & t3 & r3 & H3 & H & ->).
  pose proof H3 as H3'.
  apply (layout_set_capacity_widgets_inv c remap _ _ _ lib.get_gpu_memory_total_bytes)
    in H3'; [|reflexivity|reflexivity].
  destruct H3' as (-> & _).
  exists u2, u3, t3, r3. split; [exact H3|exact H].
Qed.

(** X9. With the override flag of the scene [True], a [reset_options]
    that returns has checked the override group box and handed to
    [set_capacity_widgets], for the label, the slider and the spin box of
    the scene row of each pool, the capacity the scene getter of that pool
    answers, after the default rows were given the capacities of the
    default getters; each of the four spin boxes ends at [float(int(p))]
    for the percent [p] of its capacity, and the update spin box at the
    stored interval. *)
Theorem X9_reset_options_shows_scene_capacities (c : Constants)
    (remap : float -> float -> float -> float -> float -> result float)
    (self ui : ImageCachePrefsLayout) (w w' : World) (t : list Event) :
  reset_options c remap self w = Ok (ui, w', t) ->
  value (get_cache_scene_override c w) = Ok (PyBool true) ->
  exists secs dg dc sg sc,
    get_update_every_n_seconds c (Some (config_of w)) None = Ok secs
    /\ value (get_gpu_cache_capacity_percent_default c (Some (config_of w)) None w) = Ok dg
    /\ value (get_cpu_cache_capacity_percent_default c (Some (config_of w)) None w) = Ok dc
    /\ value (get_gpu_cache_capacity_percent_scene c None w) = Ok sg
    /\ value (get_cpu_cache_capacity_percent_scene c None w) = Ok sc
    /\ updateEvery_spinBox ui = secs
    /\ imageCacheSceneSettings_groupBox ui = true
    /\ (exists u1 t2,
          updateEvery_spinBox u1 = secs
          /\ show_capacities c remap u1 (PyBool true) dg dc sg sc w' = Ok (ui, w', t2))
    /\ (exists u2 u3 t3 t4,
          layout_set_capacity_widgets c remap (setChecked u2 true)
            gpuCacheSceneCapacityValue_label gpuCacheSceneCapacity_horizontalSlider
            gpuCacheSceneCapacity_doubleSpinBox (size_bytes sg) (percent sg) w'
          = Ok (u3, w', t3)
          /\ layout_set_capacity_widgets c remap u3
               cpuCacheSceneCapacityValue_label cpuCacheSceneCapacity_horizontalSlider
               cpuCacheSceneCapacity_doubleSpinBox (size_bytes sc) (percent sc) w'
             = Ok (ui, w', t4))
    /\ truncation_of (spin_value (double_spin_boxes ui gpuCacheDefaultCapacity_doubleSpinBox))
         (percent dg)
    /\ truncation_of (spin_value (double_spin_boxes ui cpuCacheDefaultCapacity_doubleSpinBox))
         (percent dc)
    /\ truncation_of (spin_value (double_spin_boxes ui gpuCacheSceneCapacity_doubleSpinBox))
         (percent sg)
    /\ truncation_of (spin_value (double_spin_boxes ui cpuCacheSceneCapacity_doubleSpinBox))
         (percent sc).
Proof.
  intros H Hflag. apply reset_options_steps in H.
  destruct H as (ui0 & secs & u1 & wa & tu & dg & dc & flag & sg & sc & ts & t2
                 & H1 & H3 & Hu & H4 & H5 & H6 & Hsc & Hshow & _).
  rewrite H6 in Hflag. injection Hflag as ->. cbn [is_True] in Hsc.
  destruct Hsc as (Hsg & Hsc & _).
  apply updateEvery_spinBox_setValue_world in Hu.
  destruct Hu as (_ & _ & _ & _ & _ & _ & _ & _ & Hu1 & _).
  pose proof (show_capacities_inv _ _ _ _ _ _ _ _ _ _ _ _ Hshow)
    as (Hw' & _ & Hbox & Hue & _ & _ & _ & B1 & B2 & B3 & B4).
  subst wa. cbn [is_True] in Hbox.
  exists secs, dg, dc, sg, sc.
  split; [exact H3|]. split; [rewrite H4; reflexivity|]. split; [rewrite H5; reflexivity|].
  split; [rewrite Hsg; reflexivity|]. split; [rewrite Hsc; reflexivity|].
  split; [congruence|]. split; [exact Hbox|]. split.
  { exists u1, t2. split; [exact Hu1|exact Hshow]. }
  split.
  { destruct (show_capacities_scene_steps _ _ _ _ _ _ _ _ _ _ _ _ Hshow)
      as (u2 & u3 & t3 & t4 & E3 & E4).
    cbn [is_True] in E3. exists u2, u3, t3, t4. split; [exact E3|exact E4]. }
  apply set_value_truncates in B1, B2, B3, B4.
  split; [exact B1|]. split; [exact B2|]. split; [exact B3|exact B4].
Qed.

Lemma X9_witness :
  match reset_options sample_const remap_linear sample_layout sample_override_world with
  | Ok (ui, _, _) =>
      imageCacheSceneSettings_groupBox ui = true
      /\ truncation_of (spin_value (double_spin_boxes ui gpuCacheSceneCapacity_doubleSpinBox))
           90.5
  | Raise _ => False
  end.
Proof.
  destruct (reset_options sample_const remap_linear sample_layout sample_override_world)
    as [[[ui w'] t]|e] eqn:E.
  - destruct (X9_reset_options_shows_scene_capacities _ _ _ _ _ _ _ E eq_refl)
      as (secs & dg & dc & sg & sc & _ & _ & _ & Hsg & _ & _ & Hbox & _ & _ & _ & _ & Hg & _).
    split; [exact Hbox|].
    vm_compute in Hsg. injection Hsg as <-. exact Hg.
  - vm_compute in E. discriminate E.
Defined.

(** * Resetting the options with the override unset *)









(** * A reset that returns *)

Lemma set_percent_slider_any
    (remap : float -> float -> float -> float -> float -> result float)
    (s s' : QSlider) (p : float) :
  minimum s' = minimum s -> maximum s' = maximum s ->
  set_percent_slider remap s' p = set_percent_slider remap s p.
Proof.
  intros Hmin Hmax. unfold set_percent_slider, slider_setValue. rewrite Hmin, Hmax.
  reflexivity.
Qed.

Lemma remap_round_trips_any
    (remap : float -> float -> float -> float -> float -> result float)
    (s s' : QSlider) :
  minimum s' = minimum s -> maximum s' = maximum s ->
  remap_round_trips remap s -> remap_round_trips remap s'.
Proof.
  intros Hmin Hmax H p H0 H1. destruct (H p H0 H1) as (s1 & q & E1 & E2 & R).
  exists s1, q. rewrite (set_percent_slider_any remap s s' p Hmin Hmax). auto.
Qed.

Lemma set_capacity_size_label_returns (c : Constants) (l : QLabel) (n : Z) :
  num_is_zero (BYTES_TO_GIGABYTES c) = false -> Zdigits2 n <= 969 ->
  returns (set_capacity_size_label c l n).
Proof.
  intros Hc Hn. unfold set_capacity_size_label, gigabytes_of.
  destruct (Z.ltb_spec 0 n); [|eexists; reflexivity].
  destruct (truediv_int_num_returns n _ Hc Hn) as [g Hg].
  rewrite Hg. eexists. reflexivity.
Qed.

(** The integers from 0 to 100 are floats within [0, 100]. *)
Lemma small_percents_in_range (n : Z) (y : float) :
  0 <= n <= 100 -> Py.float_of_int n = Ok y ->
  (0 <=? y)%float = true /\ (y <=? 100)%float = true.
Proof.
  intros Hn.
  assert (Hall : forallb (fun k =>
                   match Py.float_of_int (Z.of_nat k) with
                   | Ok x => (0 <=? x)%float && (x <=? 100)%float
                   | Raise _ => false
                   end) (seq 0 101) = true) by (vm_compute; reflexivity).
  rewrite forallb_forall in Hall.
  specialize (Hall (Z.to_nat n) ltac:(apply in_seq; lia)).
  rewrite Z2Nat.id in Hall by lia.
  intros Hy. rewrite Hy in Hall. apply andb_prop in Hall. exact Hall.
Qed.

Lemma exact_value (p : float) (P : Q) :
  Spec.exact p = Some P -> P = SFvalue (Prim2SF p).
Proof.
  unfold Spec.exact. destruct (Prim2SF p); intros H; try discriminate H;
    injection H as <-; reflexivity.
Qed.

(** Truncating a percent within [0, 100] leaves it within [0, 100]. *)
Lemma truncated_percent_in_range (b b' : QDoubleSpinBox) (p : float) :
  (0 <=? p)%float = true -> (p <=? 100)%float = true ->
  set_value_double_spin_box b p = Ok b' ->
  (0 <=? spin_value b')%float = true /\ (spin_value b' <=? 100)%float = true.
Proof.
  intros H0 H100 H. apply set_value_truncates in H. destruct H as (n & Hn & Hy).
  apply (small_percents_in_range n); [|exact Hy].
  destruct (percent_in_range_exact p H0 H100) as (P & HP & L0 & L100).
  apply exact_value in HP. subst P.
  unfold Py.int in Hn.
  rewrite (int_of_spec_float_floor _ n (leb_zero_sign p H0) Hn).
  split.
  - change 0 with (Qfloor 0). apply Qfloor_resp_le. exact L0.
  - change 100 with (Qfloor 100). apply Qfloor_resp_le. exact L100.
Qed.

Lemma size_of_percent_returns (p : float) (t : Z) :
  (0 <=? p)%float = true -> (p <=? 100)%float = true -> is_u64 t ->
  exists n, (let? x := Py.mul_float_int (p / 100) t in Py.int x) = Ok n
            /\ Zdigits2 n <= 70.
Proof.
  intros H0 H1 Ht.
  destruct (capacity_value_in_range p t H0 H1 Ht) as (cap & Hc & _ & (_ & _ & Hd)).
  unfold capacity_value in Hc.
  destruct (let? x := Py.mul_float_int (p / 100) t in Py.int x) as [n|e];
    [|discriminate Hc].
  cbn [rbind] in Hc. injection Hc as <-. exists n. split; [reflexivity|exact Hd].
Qed.

Lemma set_value_double_spin_box_returns (b : QDoubleSpinBox) (p : float) :
  (0 <=? p)%float = true -> (p <=? 100)%float = true ->
  returns (set_value_double_spin_box b p).
Proof.
  intros H0 H1. destruct (int_of_mag 7 _ (percent_in_range_mag p H0 H1)) as [n Hn].
  destruct (set_value_double_spin_box_run b p n Hn) as (y & _ & Hy).
  eexists. exact Hy.
Qed.

Lemma capacity_slider_changed_returns (c : Constants)
    (remap : float -> float -> float -> float -> float -> result float)
    (label : label_id) (spin_box : spin_id) (slider : slider_id) (q : lib.query)
    (self : ImageCachePrefsLayout) (v : Z) (w : World) (pq : float) :
  num_is_zero (BYTES_TO_GIGABYTES c) = false ->
  is_u64 (image_cache w q) ->
  slider_percent remap (sliders self slider) v = Ok pq ->
  (0 <=? pq)%float = true -> (pq <=? 100)%float = true ->
  exists ui, capacity_slider_changed c remap label spin_box slider q self v w
             = Ok (ui, w, [EvLib q]).
Proof.
  intros Hc Hq Hpq H0 H1. unfold capacity_slider_changed, bind, call, lift.
  unfold slider_percent in Hpq. cbv zeta in Hpq. rewrite Hpq.
  destruct (size_of_percent_returns pq _ H0 H1 Hq) as (n & Hn & Hd). rewrite Hn.
  destruct (set_capacity_size_label_returns c (labels self label) n Hc ltac:(lia))
    as [l Hl].
  destruct (set_value_double_spin_box_returns (double_spin_boxes self spin_box) pq H0 H1)
    as [b Hb].
  rewrite Hl. cbn [rbind]. rewrite Hb. cbn [rbind]. eexists. reflexivity.
Qed.

Lemma capacity_spin_box_changed_returns (c : Constants)
    (remap : float -> float -> float -> float -> float -> result float)
    (label : label_id) (slider : slider_id) (q : lib.query)
    (self : ImageCachePrefsLayout) (p : float) (w : World) :
  num_is_zero (BYTES_TO_GIGABYTES c) = false ->
  is_u64 (image_cache w q) ->
  (0 <=? p)%float = true -> (p <=? 100)%float = true ->
  returns (set_percent_slider remap (sliders self slider) p) ->
  exists ui, capacity_spin_box_changed c remap label slider q self p w
             = Ok (ui, w, [EvLib q]).
Proof.
  intros Hc Hq H0 H1 [s Hs]. unfold capacity_spin_box_changed, bind, call, lift.
  destruct (size_of_percent_returns p _ H0 H1 Hq) as (n & Hn & Hd). rewrite Hn.
  destruct (set_capacity_size_label_returns c (labels self label) n Hc ltac:(lia))
    as [l Hl].
  rewrite Hl. cbn [rbind]. rewrite Hs. cbn [rbind]. eexists. reflexivity.
Qed.

Lemma slider_step_returns (c : Constants)
    (remap : float -> float -> float -> float -> float -> result float)
    (label : label_id) (slider : slider_id) (spin_box : spin_id) (q : lib.query)
    (u : ImageCachePrefsLayout) (old : QSlider) (p : float) (w : World) :
  slider_slot c remap slider = capacity_slider_changed c remap label spin_box slider q ->
  num_is_zero (BYTES_TO_GIGABYTES c) = false ->
  is_u64 (image_cache w q) ->
  (0 <=? p)%float = true -> (p <=? 100)%float = true ->
  remap_round_trips remap (sliders u slider) ->
  exists s' u3 t3,
    set_percent_slider remap (sliders u slider) p = Ok s'
    /\ (if slider_value s' =? slider_value old
        then ret (with_slider u slider s')
        else slider_slot c remap slider (with_slider u slider s') (slider_value s')) w
       = Ok (u3, w, t3)
    /\ sliders u3 slider = s'.
Proof.
  intros Hslot Hc Hq H0 H1 Hrt.
  destruct (Hrt p H0 H1) as (s' & pq & Hs & Hpq & Q0 & Q1).
  exists s'. destruct (slider_value s' =? slider_value old).
  - exists (with_slider u slider s'), []. split; [exact Hs|]. split; [reflexivity|].
    cbn [with_slider sliders]. apply fn_lookup_insert.
  - rewrite Hslot.
    assert (Hsl : sliders (with_slider u slider s') slider = s')
      by (cbn [with_slider sliders]; apply fn_lookup_insert).
    destruct (capacity_slider_changed_returns c remap label spin_box slider q
                (with_slider u slider s') (slider_value s') w pq Hc Hq
                ltac:(rewrite Hsl; exact Hpq) Q0 Q1) as [u3 H3].
    exists u3, [EvLib q]. split; [exact Hs|]. split; [exact H3|].
    apply capacity_slider_changed_frame in H3. destruct H3 as (_ & _ & _ & E).
    rewrite E. exact Hsl.
Qed.

Lemma spin_box_step_returns (c : Constants)
    (remap : float -> float -> float -> float -> float -> result float)
    (label : label_id) (slider : slider_id) (spin_box : spin_id) (q : lib.query)
    (u : ImageCachePrefsLayout) (old : QDoubleSpinBox) (p : float) (w : World) :
  spin_box_slot c remap spin_box = capacity_spin_box_changed c remap label slider q ->
  num_is_zero (BYTES_TO_GIGABYTES c) = false ->
  is_u64 (image_cache w q) ->
  (0 <=? p)%float = true -> (p <=? 100)%float = true ->
  remap_round_trips remap (sliders u slider) ->
  exists b ui t,
    set_value_double_spin_box old p = Ok b
    /\ (if (spin_value b =? spin_value old)%float
        then ret (with_spin u spin_box b)
        else spin_box_slot c remap spin_box (with_spin u spin_box b) (spin_value b)) w
       = Ok (ui, w, t).
Proof.
  intros Hslot Hc Hq H0 H1 Hrt.
  destruct (set_value_double_spin_box_returns old p H0 H1) as [b Hb].
  exists b. destruct (spin_value b =? spin_value old)%float.
  - exists (with_spin u spin_box b), []. split; [exact Hb|reflexivity].
  - rewrite Hslot.
    destruct (truncated_percent_in_range old b p H0 H1 Hb) as [Y0 Y1].
    destruct (Hrt (spin_value b) Y0 Y1) as (s' & _ & Hs & _).
    destruct (capacity_spin_box_changed_returns c remap label slider q
                (with_spin u spin_box b) (spin_value b) w Hc Hq Y0 Y1
                ltac:(exists s'; exact Hs)) as [ui Hui].
    exists ui, [EvLib q]. split; [exact Hb|exact Hui].
Qed.

(** [set_capacity_widgets], its signals connected, returns on a size of
    at most 70 binary digits and a percent within [0, 100], for a slider
    that [remap] round-trips. *)
Lemma layout_set_capacity_widgets_returns (c : Constants)
    (remap : float -> float -> float -> float -> float -> result float)
    (label : label_id) (slider : slider_id) (spin_box : spin_id) (q : lib.query)
    (self : ImageCachePrefsLayout) (n : Z) (p : float) (w : World) :
  slider_slot c remap slider = capacity_slider_changed c remap label spin_box slider q ->
  spin_box_slot c remap spin_box = capacity_spin_box_changed c remap label slider q ->
  num_is_zero (BYTES_TO_GIGABYTES c) = false ->
  is_u64 (image_cache w q) ->
  Zdigits2 n <= 70 ->
  (0 <=? p)%float = true -> (p <=? 100)%float = true ->
  remap_round_trips remap (sliders self slider) ->
  exists ui t,
    layout_set_capacity_widgets c remap self label slider spin_box n p w = Ok (ui, w, t).
Proof.
  intros Hslider Hspin Hc Hq Hn H0 H1 Hrt.
  destruct (set_capacity_size_label_returns c (labels self label) n Hc ltac:(lia))
    as [l Hl].
  set (u1 := with_label self label l).
  destruct (slider_step_returns c remap label slider spin_box q u1 (sliders u1 slider)
              p w Hslider Hc Hq H0 H1 Hrt) as (s' & u3 & t3 & Hs & H3 & Hs3).
  assert (Hrt3 : remap_round_trips remap (sliders u3 slider)).
  { rewrite Hs3. destruct (set_percent_slider_range remap _ _ _ Hs) as [Hmin Hmax].
    apply (remap_round_trips_any remap (sliders self slider)); assumption. }
  destruct (spin_box_step_returns c remap label slider spin_box q u3
              (double_spin_boxes u3 spin_box) p w Hspin Hc Hq H0 H1 Hrt3)
    as (b & ui & t & Hb & H5).
  exists ui, ([] ++ [] ++ t3 ++ [] ++ t).
  unfold layout_set_capacity_widgets.
  eapply bind_Ok; [unfold lift; rewrite Hl; reflexivity|].
  eapply bind_Ok; [unfold lift; fold u1; rewrite Hs; reflexivity|].
  eapply bind_Ok; [exact H3|].
  eapply bind_Ok; [unfold lift; rewrite Hb; reflexivity|].
  exact H5.
Qed.

Lemma round_trips_preserved (c : Constants)
    (remap : float -> float -> float -> float -> float -> result float)
    (label : label_id) (slider : slider_id) (spin_box : spin_id) (q : lib.query)
    (self ui : ImageCachePrefsLayout) (n : Z) (p : float) (w w' : World)
    (t : list Event) :
  slider_slot c remap slider = capacity_slider_changed c remap label spin_box slider q ->
  spin_box_slot c remap spin_box = capacity_spin_box_changed c remap label slider q ->
  layout_set_capacity_widgets c remap self label slider spin_box n p w = Ok (ui, w', t) ->
  (forall j, remap_round_trips remap (sliders self j)) ->
  forall j, remap_round_trips remap (sliders ui j).
Proof.
  intros Hslider Hspin H Hrt j.
  apply (layout_set_capacity_widgets_inv c remap label slider spin_box q) in H;
    [|assumption|assumption].
  destruct H as (_ & _ & (_ & S & Mn & Mx & _) & _).
  destruct (decide (j = slider)) as [->|Hj].
  - apply (remap_round_trips_any remap (sliders self slider)); [exact Mn|exact Mx|apply Hrt].
  - rewrite (S j Hj). apply Hrt.
Qed.

Lemma show_capacities_returns (c : Constants)
    (remap : float -> float -> float -> float -> float -> result float)
    (self : ImageCachePrefsLayout) (flag : PyValue) (dg dc sg sc : CapacityValue)
    (w : World) :
  num_is_zero (BYTES_TO_GIGABYTES c) = false ->
  (forall q, is_u64 (image_cache w q)) ->
  capacity_in_range dg -> capacity_in_range dc ->
  capacity_in_range sg -> capacity_in_range sc ->
  (forall j, remap_round_trips remap (sliders self j)) ->
  exists ui t, show_capacities c remap self flag dg dc sg sc w = Ok (ui, w, t).
Proof.
  intros Hc Hq (G0 & G1 & Gd) (C0 & C1 & Cd) (SG0 & SG1 & SGd) (SC0 & SC1 & SCd) Hrt.
  unfold show_capacities.
  destruct (layout_set_capacity_widgets_returns c remap
              gpuCacheDefaultCapacityValue_label gpuCacheDefaultCapacity_horizontalSlider
              gpuCacheDefaultCapacity_doubleSpinBox lib.get_gpu_memory_total_bytes
              self (size_bytes dg) (percent dg) w eq_refl eq_refl Hc (Hq _) Gd G0 G1 (Hrt _))
    as (u1 & t1 & E1).
  pose proof (round_trips_preserved c remap
                gpuCacheDefaultCapacityValue_label gpuCacheDefaultCapacity_horizontalSlider
                gpuCacheDefaultCapacity_doubleSpinBox lib.get_gpu_memory_total_bytes
                _ _ _ _ _ _ _ eq_refl eq_refl E1 Hrt) as Hrt1.
  destruct (layout_set_capacity_widgets_returns c remap
              cpuCacheDefaultCapacityValue_label cpuCacheDefaultCapacity_horizontalSlider
              cpuCacheDefaultCapacity_doubleSpinBox lib.get_cpu_memory_total_bytes
              u1 (size_bytes dc) (percent dc) w eq_refl eq_refl Hc (Hq _) Cd C0 C1 (Hrt1 _))
    as (u2 & t2 & E2).
  pose proof (round_trips_preserved c remap
                cpuCacheDefaultCapacityValue_label cpuCacheDefaultCapacity_horizontalSlider
                cpuCacheDefaultCapacity_doubleSpinBox lib.get_cpu_memory_total_bytes
                _ _ _ _ _ _ _ eq_refl eq_refl E2 Hrt1) as Hrt2.
  set (u2' := setChecked u2 (is_True flag)).
  assert (Hrt2' : forall j, remap_round_trips remap (sliders u2' j)) by exact Hrt2.
  destruct (layout_set_capacity_widgets_returns c remap
              gpuCacheSceneCapacityValue_label gpuCacheSceneCapacity_horizontalSlider
              gpuCacheSceneCapacity_doubleSpinBox lib.get_gpu_memory_total_bytes
              u2' (size_bytes sg) (percent sg) w eq_refl eq_refl Hc (Hq _) SGd SG0 SG1
              (Hrt2' _))
    as (u3 & t3 & E3).
  pose proof (round_trips_preserved c remap
                gpuCacheSceneCapacityValue_label gpuCacheSceneCapacity_horizontalSlider
                gpuCacheSceneCapacity_doubleSpinBox lib.get_gpu_memory_total_bytes
                _ _ _ _ _ _ _ eq_refl eq_refl E3 Hrt2') as Hrt3.
  destruct (layout_set_capacity_widgets_returns c remap
              cpuCacheSceneCapacityValue_label cpuCacheSceneCapacity_horizontalSlider
              cpuCacheSceneCapacity_doubleSpinBox lib.get_cpu_memory_total_bytes
              u3 (size_bytes sc) (percent sc) w eq_refl eq_refl Hc (Hq _) SCd SC0 SC1
              (Hrt3 _))
    as (ui & t4 & E4).
  exists ui, (t1 ++ t2 ++ t3 ++ t4).
  eapply bind_Ok; [exact E1|]. eapply bind_Ok; [exact E2|].
  eapply bind_Ok; [exact E3|]. exact E4.
Qed.

(** X16. [reset_options] returns whenever the conversion constant is not
    zero, every value the library reports is a [u64], the stored settings
    have the types the getters assert with percents within [0, 100] (or
    are absent), and [remap] round-trips on the sliders of the layout:
    every percent within [0, 100] has a slider value, and the slot of the
    slider computes a percent within [0, 100] from that value.  The world
    it returns in has the scene options and the cache it started with. *)
Theorem X16_reset_options_returns (c : Constants)
    (remap : float -> float -> float -> float -> float -> result float)
    (self : ImageCachePrefsLayout) (w : World) :
  num_is_zero (BYTES_TO_GIGABYTES c) = false ->
  (forall q, is_u64 (image_cache w q)) ->
  settings_in_range c w ->
  (forall j, remap_round_trips remap (sliders self j)) ->
  exists ui w' t,
    reset_options c remap self w = Ok (ui, w', t)
    /\ scene_options w' = scene_options w
    /\ image_cache w' = image_cache w.
Proof.
  intros Hc Hq (Hupd & Hgpu & Hcpu & Hflag & Hsgpu & Hscpu) Hrt.
  destruct (update_resource_values_returns c self w Hc (fun q => proj2 (Hq q)))
    as (ui0 & H1 & (Hsl & _)).
  assert (H3 : exists secs, get_update_every_n_seconds c (Some (config_of w)) None = Ok secs).
  { unfold get_update_every_n_seconds. rewrite config_of_lookup.
    destruct (config_file w ≫= _) as [[| |n|p|s]|]; simpl in Hupd |- *;
      try contradiction; eexists; reflexivity. }
  destruct H3 as [secs H3].
  destruct (updateEvery_spinBox_setValue c ui0 secs w) as [[[u1 wa] tu]|e] eqn:Hu;
    [|rewrite updateEvery_spinBox_setValue_run in Hu;
      destruct (secs =? updateEvery_spinBox ui0); discriminate Hu].
  destruct (updateEvery_spinBox_setValue_world c ui0 u1 secs w wa tu Hu)
    as (_ & Hso & Hic & _ & _ & Hsl1 & _).
  assert (Hqa : forall q, is_u64 (image_cache wa q)) by (intros q; rewrite Hic; apply Hq).
  destruct (default_getter_returns _ lib.get_gpu_memory_total_bytes w Hgpu (Hq _))
    as (dg & H4 & Rdg).
  destruct (default_getter_returns _ lib.get_cpu_memory_total_bytes w Hcpu (Hq _))
    as (dc & H5 & Rdc).
  apply default_getter_Ok_run in H4, H5.
  destruct H4 as (_ & _ & H4). destruct H5 as (_ & _ & H5).
  specialize (H4 wa Hic). specialize (H5 wa Hic).
  assert (H6 : exists flag, get_cache_scene_override c wa
                 = Ok (flag, wa, [EvSceneGet (CONFIG_SCENE_CAPACITY_OVERRIDE_KEY c)])).
  { rewrite get_cache_scene_override_run, Hso.
    destruct (scene_options w !! _) as [[| |n|p|s]|]; simpl in Hflag |- *;
      try contradiction; eexists; reflexivity. }
  destruct H6 as [flag H6].
  assert (H7 : exists sg sc t7,
             (if is_True flag
              then
                let* scene_gpu_capacity := get_gpu_cache_capacity_percent_scene c None in
                let* scene_cpu_capacity := get_cpu_cache_capacity_percent_scene c None in
                ret (scene_gpu_capacity, scene_cpu_capacity)
              else ret (dg, dc)) wa = Ok ((sg, sc), wa, t7)
             /\ capacity_in_range sg /\ capacity_in_range sc).
  { destruct (is_True flag).
    - rewrite <- Hso in Hsgpu, Hscpu.
      destruct (scene_getter_returns _ lib.get_gpu_memory_total_bytes wa Hsgpu (Hqa _))
        as (sg & Hsg & Rsg).
      destruct (scene_getter_returns _ lib.get_cpu_memory_total_bytes wa Hscpu (Hqa _))
        as (sc & Hsc & Rsc).
      exists sg, sc. eexists. split; [|split; assumption].
      eapply bind_Ok; [exact Hsg|]. eapply bind_Ok; [exact Hsc|]. reflexivity.
    - exists dg, dc, []. split; [reflexivity|split; assumption]. }
  destruct H7 as (sg & sc & t7 & H7 & Rsg & Rsc).
  assert (Hrt1 : forall j, remap_round_trips remap (sliders u1 j)).
  { intros j. rewrite Hsl1, Hsl. apply Hrt. }
  destruct (show_capacities_returns c remap u1 flag dg dc sg sc wa Hc Hqa Rdg Rdc Rsg Rsc Hrt1)
    as (ui & t2 & Hshow).
  exists ui, wa. eexists. split; [|split; assumption].
  unfold reset_options.
  eapply bind_Ok; [exact H1|].
  eapply bind_Ok; [apply get_config_run|].
  eapply bind_Ok; [unfold lift; rewrite H3; reflexivity|].
  eapply bind_Ok; [exact Hu|].
  eapply bind_Ok; [exact H4|].
  eapply bind_Ok; [exact H5|].
  eapply bind_Ok; [exact H6|].
  eapply bind_Ok; [exact H7|].
  exact Hshow.
Qed.

Lemma remap_same_range_round_trips (s : QSlider) :
  minimum s = 0 -> maximum s = 100 -> remap_round_trips remap_same_range s.
Proof.
  intros Hmin Hmax p H0 H1.
  destruct (int_of_mag 7 _ (percent_in_range_mag p H0 H1)) as [n Hn].
  destruct (set_value_double_spin_box_run (box 0) p n Hn) as (y & Hy & Hb).
  destruct (truncated_percent_in_range (box 0) _ p H0 H1 Hb) as [Y0 Y1].
  exists (slider_setValue s n), y.
  assert (F0 : Py.float_of_int 0 = Ok 0%float) by reflexivity.
  assert (F100 : Py.float_of_int 100 = Ok 100%float) by reflexivity.
  unfold set_percent_slider, slider_percent, remap_same_range.
  cbn [slider_setValue minimum maximum slider_value].
  rewrite Hmin, Hmax, F0, F100. cbn [rbind]. unfold Py.int. rewrite Hn, Hy.
  split; [reflexivity|]. split; [reflexivity|]. split; assumption.
Qed.

Lemma X16_witness :
  exists ui w' t,
    reset_options sample_const remap_same_range sample_layout sample_override_world
    = Ok (ui, w', t)
    /\ scene_options w' = scene_options sample_override_world
    /\ image_cache w' = image_cache sample_override_world.
Proof.
  apply (X16_reset_options_returns sample_const remap_same_range sample_layout
           sample_override_world).
  - reflexivity.
  - intros q. unfold is_u64. destruct q; simpl; lia.
  - vm_compute. repeat split.
  - intros j. apply remap_same_range_round_trips; reflexivity.
Defined.
